(** * Webhook relay: signed URLs, receive pipeline, forward executor, queries

    A shallow embedding of the worker (src/worker.ts), the forward executor
    (src/forward.ts), the hit store (stats.ts) and the MCP rule upsert, with
    the properties of the specification stated over it. *)

From Stdlib Require Import ZArith List Lia Bool String Ascii.
From stdpp Require Import base option list sorting gmap.
Import ListNotations.
Local Open Scope Z_scope.

(** ** JavaScript strings and byte arrays

    A JS string is a sequence of UTF-16 code units; [s.length] and
    [s.slice] count code units.  A [Uint8Array] is a sequence of octets. *)

Abbreviation jsstring := (list Z).
Abbreviation bytes := (list Z).

Definition is_byte (b : Z) : Prop := 0 <= b < 256.

(** An ASCII literal of the source as a JS string. *)
Definition lit (s : string) : jsstring :=
  map (fun a => Z.of_N (N_of_ascii a)) (list_ascii_of_string s).

Definition jsstring_eqb (a b : jsstring) : bool := bool_decide (a = b).

(** [s.length] *)
Definition js_length (s : jsstring) : Z := Z.of_nat (length s).

(** [s.slice(0, n)] for a non-negative [n] *)
Definition js_slice0 (n : Z) (s : jsstring) : jsstring := take (Z.to_nat n) s.

(** JS truthiness of a possibly undefined string: [undefined] and the empty
    string are falsy. *)
Definition truthy (o : option jsstring) : bool :=
  match o with
  | Some (_ :: _) => true
  | _ => false
  end.

Module TextEncoder.

Definition is_high_surrogate (c : Z) : bool := (0xD800 <=? c) && (c <=? 0xDBFF).
Definition is_low_surrogate (c : Z) : bool := (0xDC00 <=? c) && (c <=? 0xDFFF).

(** UTF-8 bytes of one code point. *)
Definition encode_code_point (cp : Z) : bytes :=
  if cp <? 0x80 then [cp]
  else if cp <? 0x800 then
    [Z.lor 0xC0 (Z.shiftr cp 6); Z.lor 0x80 (Z.land cp 0x3F)]
  else if cp <? 0x10000 then
    [Z.lor 0xE0 (Z.shiftr cp 12);
     Z.lor 0x80 (Z.land (Z.shiftr cp 6) 0x3F);
     Z.lor 0x80 (Z.land cp 0x3F)]
  else
    [Z.lor 0xF0 (Z.shiftr cp 18);
     Z.lor 0x80 (Z.land (Z.shiftr cp 12) 0x3F);
     Z.lor 0x80 (Z.land (Z.shiftr cp 6) 0x3F);
     Z.lor 0x80 (Z.land cp 0x3F)].

(** [new TextEncoder().encode(s)]: surrogate pairs are combined, a lone
    surrogate becomes U+FFFD. *)
Fixpoint encode (s : jsstring) : bytes :=
  match s with
  | [] => []
  | c :: rest =>
    if is_high_surrogate c then
      match rest with
      | d :: rest' =>
        if is_low_surrogate d then
          encode_code_point
            (0x10000 + Z.shiftl (c - 0xD800) 10 + (d - 0xDC00)) ++ encode rest'
        else encode_code_point 0xFFFD ++ encode rest
      | [] => encode_code_point 0xFFFD
      end
    else if is_low_surrogate c then encode_code_point 0xFFFD ++ encode rest
    else encode_code_point c ++ encode rest
  end.

End TextEncoder.

(** ** SHA-256 and HMAC (the [crypto.subtle] primitives the worker calls) *)

Module SHA256.

Definition mask32 (x : Z) : Z := Z.land x 0xFFFFFFFF.
Definition add32 (x y : Z) : Z := mask32 (x + y).
Definition rotr (n x : Z) : Z :=
  Z.lor (Z.shiftr x n) (mask32 (Z.shiftl x (32 - n))).
Definition not32 (x : Z) : Z := Z.lxor x 0xFFFFFFFF.

Definition Ch (x y z : Z) : Z := Z.lxor (Z.land x y) (Z.land (not32 x) z).
Definition Maj (x y z : Z) : Z :=
  Z.lxor (Z.lxor (Z.land x y) (Z.land x z)) (Z.land y z).
Definition bsig0 (x : Z) : Z := Z.lxor (Z.lxor (rotr 2 x) (rotr 13 x)) (rotr 22 x).
Definition bsig1 (x : Z) : Z := Z.lxor (Z.lxor (rotr 6 x) (rotr 11 x)) (rotr 25 x).
Definition ssig0 (x : Z) : Z := Z.lxor (Z.lxor (rotr 7 x) (rotr 18 x)) (Z.shiftr x 3).
Definition ssig1 (x : Z) : Z := Z.lxor (Z.lxor (rotr 17 x) (rotr 19 x)) (Z.shiftr x 10).

(** The round constants are the first 32 fractional bits of the cube roots
    of the first 64 primes, the initial state those of the square roots of
    the first 8. *)
Definition primes64 : list Z :=
  [2; 3; 5; 7; 11; 13; 17; 19; 23; 29; 31; 37; 41; 43; 47; 53;
   59; 61; 67; 71; 73; 79; 83; 89; 97; 101; 103; 107; 109; 113; 127; 131;
   137; 139; 149; 151; 157; 163; 167; 173; 179; 181; 191; 193; 197; 199; 211; 223;
   227; 229; 233; 239; 241; 251; 257; 263; 269; 271; 277; 281; 283; 293; 307; 311].

(** Largest [r < 2^bits] with [r^3 <= n], one bit at a time. *)
Fixpoint icbrt_bits (bits : nat) (n r : Z) : Z :=
  match bits with
  | O => r
  | S b =>
    let r' := r + Z.shiftl 1 (Z.of_nat b) in
    icbrt_bits b n (if r' * r' * r' <=? n then r' else r)
  end.

Definition frac_cbrt32 (p : Z) : Z := mask32 (icbrt_bits 36 (Z.shiftl p 96) 0).
Definition frac_sqrt32 (p : Z) : Z := mask32 (Z.sqrt (Z.shiftl p 64)).

Definition K : list Z := Eval vm_compute in map frac_cbrt32 primes64.
Definition H0 : list Z := Eval vm_compute in map frac_sqrt32 (take 8 primes64).

(** Big-endian bytes of a word, and back. *)
Definition word_bytes (w : Z) : bytes :=
  [Z.land (Z.shiftr w 24) 255; Z.land (Z.shiftr w 16) 255;
   Z.land (Z.shiftr w 8) 255; Z.land w 255].

Definition be32 (a b c d : Z) : Z :=
  Z.lor (Z.lor (Z.shiftl a 24) (Z.shiftl b 16)) (Z.lor (Z.shiftl c 8) d).

Definition len64_bytes (n : Z) : bytes :=
  word_bytes (mask32 (Z.shiftr n 32)) ++ word_bytes (mask32 n).

(** Padding: 0x80, zeros up to 56 mod 64, then the bit length on 8 bytes. *)
Definition pad (msg : bytes) : bytes :=
  let l := Z.of_nat (length msg) in
  let k := (55 - l) mod 64 in
  msg ++ [0x80] ++ repeat 0 (Z.to_nat k) ++ len64_bytes (8 * l).

Fixpoint words_of (fuel : nat) (bs : bytes) : list Z :=
  match fuel, bs with
  | S f, a :: b :: c :: d :: rest => be32 a b c d :: words_of f rest
  | _, _ => []
  end.

(** The message schedule, newest word first. *)
Definition schedule_step (w : list Z) : list Z :=
  add32 (add32 (add32 (ssig1 (nth 1 w 0)) (nth 6 w 0)) (ssig0 (nth 14 w 0)))
        (nth 15 w 0) :: w.

Definition schedule (block : list Z) : list Z :=
  rev (Nat.iter 48 schedule_step (rev block)).

Record state := St { sa : Z; sb : Z; sc : Z; sd : Z; se : Z; sf : Z; sg : Z; sh : Z }.

Definition round (s : state) (kw : Z * Z) : state :=
  let t1 := add32 (add32 (add32 (add32 (sh s) (bsig1 (se s)))
                                (Ch (se s) (sf s) (sg s))) (fst kw)) (snd kw) in
  let t2 := add32 (bsig0 (sa s)) (Maj (sa s) (sb s) (sc s)) in
  St (add32 t1 t2) (sa s) (sb s) (sc s) (add32 (sd s) t1) (se s) (sf s) (sg s).

Definition compress (h : state) (block : list Z) : state :=
  let s := fold_left round (combine K (schedule block)) h in
  St (add32 (sa h) (sa s)) (add32 (sb h) (sb s)) (add32 (sc h) (sc s))
     (add32 (sd h) (sd s)) (add32 (se h) (se s)) (add32 (sf h) (sf s))
     (add32 (sg h) (sg s)) (add32 (sh h) (sh s)).

Fixpoint blocks_of (fuel : nat) (ws : list Z) : list (list Z) :=
  match fuel with
  | O => []
  | S f =>
    match ws with
    | [] => []
    | _ => take 16 ws :: blocks_of f (drop 16 ws)
    end
  end.

Definition init : state :=
  St (nth 0 H0 0) (nth 1 H0 0) (nth 2 H0 0) (nth 3 H0 0)
     (nth 4 H0 0) (nth 5 H0 0) (nth 6 H0 0) (nth 7 H0 0).

Definition digest_bytes (s : state) : bytes :=
  word_bytes (sa s) ++ word_bytes (sb s) ++ word_bytes (sc s) ++ word_bytes (sd s) ++
  word_bytes (se s) ++ word_bytes (sf s) ++ word_bytes (sg s) ++ word_bytes (sh s).

Definition hash (msg : bytes) : bytes :=
  let p := pad msg in
  let ws := words_of (length p) p in
  digest_bytes (fold_left compress (blocks_of (length ws) ws) init).

End SHA256.

Module HMAC.

Definition block_size : nat := 64.

Definition block_key (key : bytes) : bytes :=
  let k := if (block_size <? length key)%nat then SHA256.hash key else key in
  k ++ repeat 0 (block_size - length k).

(** [crypto.subtle.sign("HMAC", key, msg)] for a SHA-256 key. *)
Definition sign (key msg : bytes) : bytes :=
  let k := block_key key in
  SHA256.hash (map (Z.lxor 0x5c) k ++ SHA256.hash (map (Z.lxor 0x36) k ++ msg)).

End HMAC.

(** Lower-case hexadecimal rendering, for known-answer checks. *)
Definition hex_digit (n : Z) : Z := if n <? 10 then 48 + n else 87 + n.
Definition hex_of_bytes (bs : bytes) : jsstring :=
  flat_map (fun b => [hex_digit (Z.shiftr b 4); hex_digit (Z.land b 15)]) bs.

(** ** Token codec (worker.ts, generateWebhookToken / verifyWebhookToken) *)

Module Base64.

(** The sextets of a group of three octets. *)
Definition sextet1 (a : Z) : Z := Z.shiftr a 2.
Definition sextet2 (a b : Z) : Z := Z.lor (Z.shiftl (Z.land a 3) 4) (Z.shiftr b 4).
Definition sextet3 (b c : Z) : Z := Z.lor (Z.shiftl (Z.land b 15) 2) (Z.shiftr c 6).
Definition sextet4 (c : Z) : Z := Z.land c 63.

(** Standard alphabet: A-Z a-z 0-9 + / *)
Definition char (i : Z) : Z :=
  if i <? 26 then 65 + i
  else if i <? 52 then 97 + (i - 26)
  else if i <? 62 then 48 + (i - 52)
  else if i =? 62 then 43
  else 47.

(** URL-safe alphabet: A-Z a-z 0-9 - _ *)
Definition url_char (i : Z) : Z :=
  if i <? 26 then 65 + i
  else if i <? 52 then 97 + (i - 26)
  else if i <? 62 then 48 + (i - 52)
  else if i =? 62 then 45
  else 95.

Definition pad_char : Z := 61.

(** [btoa(String.fromCharCode(...bs))]: padded standard Base64. *)
Fixpoint btoa (bs : bytes) : jsstring :=
  match bs with
  | [] => []
  | [a] => [char (sextet1 a); char (sextet2 a 0); pad_char; pad_char]
  | [a; b] => [char (sextet1 a); char (sextet2 a b); char (sextet3 b 0); pad_char]
  | a :: b :: c :: rest =>
    char (sextet1 a) :: char (sextet2 a b) :: char (sextet3 b c) :: char (sextet4 c)
    :: btoa rest
  end.

(** base64url of RFC 4648 section 5 with the padding left out: the
    encoding the specification names. *)
Fixpoint base64url_nopad (bs : bytes) : jsstring :=
  match bs with
  | [] => []
  | [a] => [url_char (sextet1 a); url_char (sextet2 a 0)]
  | [a; b] => [url_char (sextet1 a); url_char (sextet2 a b); url_char (sextet3 b 0)]
  | a :: b :: c :: rest =>
    url_char (sextet1 a) :: url_char (sextet2 a b) :: url_char (sextet3 b c)
    :: url_char (sextet4 c) :: base64url_nopad rest
  end.

End Base64.

(** [s.replace(/c/g, d)] for a one-character pattern. *)
Definition replace_all (c d : Z) (s : jsstring) : jsstring :=
  map (fun x => if x =? c then d else x) s.

(** Both replacements of the source on one character:
    [.replace(/\+/g, "-").replace(/\//g, "_")]. *)
Definition to_url (c : Z) : Z :=
  (fun x => if x =? 47 then 95 else x) ((fun x => if x =? 43 then 45 else x) c).

(** [s.replace(/=+$/, '')]: the run of [=] that ends the string is removed. *)
Definition strip_trailing_pad (s : jsstring) : jsstring :=
  fold_right (fun c acc => if (c =? Base64.pad_char) && bool_decide (acc = [])
                           then [] else c :: acc) [] s.

(** [crypto.subtle.importKey("raw", raw, {name: "HMAC", hash: "SHA-256"},
    false, ["sign"])]: a key of length zero is refused with a DataError;
    [None] is that rejection. *)
Definition importKey (raw : bytes) : option bytes :=
  match raw with
  | [] => None
  | _ :: _ => Some raw
  end.

(** [None] where the promise rejects. *)
Definition generateWebhookToken (id secret : jsstring) : option jsstring :=
  match importKey (TextEncoder.encode secret) with
  | None => None
  | Some key =>
    let sig := HMAC.sign key (TextEncoder.encode id) in
    Some (strip_trailing_pad (replace_all 47 95 (replace_all 43 45 (Base64.btoa sig))))
  end.

Definition verifyWebhookToken (id token secret : jsstring) : option bool :=
  match generateWebhookToken id secret with
  | None => None
  | Some expected => Some (jsstring_eqb token expected)
  end.

Arguments generateWebhookToken : simpl never.
Arguments verifyWebhookToken : simpl never.

(** The codec as the specification words it. *)
Definition issue_spec (endpointId secret : jsstring) : jsstring :=
  Base64.base64url_nopad
    (HMAC.sign (TextEncoder.encode secret) (TextEncoder.encode endpointId)).

(** ** Dates ([Date], [toISOString], the date-time string format) *)

Module JSDate.

Definition MS_PER_DAY : Z := 86400000.

(** Day number (days since 1970-01-01) of a proleptic Gregorian date; a
    day of month past the end of the month runs on into the next, as
    [MakeDay] does. *)
Definition days_from_civil (y m d : Z) : Z :=
  let y' := if m <=? 2 then y - 1 else y in
  let era := y' / 400 in
  let yoe := y' - era * 400 in
  let doy := (153 * (if 2 <? m then m - 3 else m + 9) + 2) / 5 + d - 1 in
  let doe := yoe * 365 + yoe / 4 - yoe / 100 + doy in
  era * 146097 + doe - 719468.

(** Year, month (1-12) and day of month of a day number. *)
Definition civil_from_days (z : Z) : Z * Z * Z :=
  let z' := z + 719468 in
  let era := z' / 146097 in
  let doe := z' - era * 146097 in
  let yoe := (doe - doe / 1460 + doe / 36524 - doe / 146096) / 365 in
  let doy := doe - (365 * yoe + yoe / 4 - yoe / 100) in
  let mp := (5 * doy + 2) / 153 in
  let d := doy - (153 * mp + 2) / 5 + 1 in
  let m := if mp <? 10 then mp + 3 else mp - 9 in
  let y := yoe + era * 400 in
  (if m <=? 2 then y + 1 else y, m, d).

Definition getUTCFullYear (t : Z) : Z := fst (fst (civil_from_days (t / MS_PER_DAY))).
(** zero-based, as in JS *)
Definition getUTCMonth (t : Z) : Z := snd (fst (civil_from_days (t / MS_PER_DAY))) - 1.
Definition getUTCDate (t : Z) : Z := snd (civil_from_days (t / MS_PER_DAY)).

Definition digit (n : Z) : Z := 48 + n mod 10.

(** [width] decimal digits of [n], most significant first. *)
Fixpoint pad_dec (width : nat) (n : Z) : jsstring :=
  match width with
  | O => []
  | S w => pad_dec w (n / 10) ++ [digit n]
  end.

Fixpoint dec_digits (fuel : nat) (n : Z) : jsstring :=
  match fuel with
  | O => []
  | S f => if n <? 10 then [digit n] else dec_digits f (n / 10) ++ [digit n]
  end.

(** [String(n)] for an integer [n]. *)
Definition String_of_int (n : Z) : jsstring :=
  if n <? 0 then 45 :: dec_digits (S (Z.to_nat (Z.log2 (- n)))) (- n)
  else dec_digits (S (Z.to_nat (Z.log2 n))) n.

(** [s.padStart(n, c)] for a one-character pad string. *)
Definition padStart (n : nat) (c : Z) (s : jsstring) : jsstring :=
  repeat c (n - length s) ++ s.

Definition year_string (y : Z) : jsstring :=
  if (0 <=? y) && (y <=? 9999) then pad_dec 4 y
  else (if y <? 0 then 45 else 43) :: pad_dec 6 (Z.abs y).

(** [new Date(t).toISOString()] for a time value [t] in milliseconds. *)
Definition toISOString (t : Z) : jsstring :=
  let '(y, m, d) := civil_from_days (t / MS_PER_DAY) in
  let ms := t mod MS_PER_DAY in
  year_string y ++ lit "-" ++ pad_dec 2 m ++ lit "-" ++ pad_dec 2 d ++ lit "T"
  ++ pad_dec 2 (ms / 3600000) ++ lit ":" ++ pad_dec 2 (ms / 60000 mod 60) ++ lit ":"
  ++ pad_dec 2 (ms / 1000 mod 60) ++ lit "." ++ pad_dec 3 (ms mod 1000) ++ lit "Z".

Arguments toISOString : simpl never.

Definition is_digit (c : Z) : bool := (48 <=? c) && (c <=? 57).

(** The value of a run of decimal digits; [None] when empty or not digits. *)
Definition digits_value (s : jsstring) : option Z :=
  if forallb is_digit s && negb (bool_decide (s = []))
  then Some (fold_left (fun acc c => 10 * acc + (c - 48)) s 0)
  else None.

(** The time-zone designator: [Z] or [+HH:mm] / [-HH:mm], in minutes. *)
Definition parse_offset (s : jsstring) : option Z :=
  match s with
  | [90] => Some 0
  | [sg; h1; h2; 58; m1; m2] =>
    match digits_value [h1; h2], digits_value [m1; m2] with
    | Some h, Some m =>
      if (h <=? 23) && (m <=? 59) then
        if sg =? 43 then Some (h * 60 + m)
        else if sg =? 45 then Some (- (h * 60 + m))
        else None
      else None
    | _, _ => None
    end
  | _ => None
  end.

(** The time of day with its offset, [HH:mm:ss(.sss)(Z|+HH:mm|-HH:mm)]:
    the milliseconds since the midnight of the offset's zone, moved to UTC. *)
Definition parse_time (s : jsstring) : option Z :=
  match s with
  | h1 :: h2 :: 58 :: mi1 :: mi2 :: 58 :: s1 :: s2 :: rest =>
    let '(frac, tz) :=
      match rest with
      | 46 :: f1 :: f2 :: f3 :: tz => (digits_value [f1; f2; f3], tz)
      | _ => (Some 0, rest)
      end in
    match digits_value [h1; h2], digits_value [mi1; mi2], digits_value [s1; s2],
          frac, parse_offset tz with
    | Some h, Some mi, Some sec, Some ms, Some off =>
      if (h <=? 23) && (mi <=? 59) && (sec <=? 59)
      then Some (((h * 60 + mi - off) * 60 + sec) * 1000 + ms)
      else None
    | _, _, _, _, _ => None
    end
  | _ => None
  end.

(** The date forms [YYYY], [YYYY-MM] and [YYYY-MM-DD]; a month or a day
    left out is 1. *)
Definition parse_date (s : jsstring) : option (Z * Z * Z) :=
  let checked (y mo d : option Z) :=
    match y, mo, d with
    | Some y, Some mo, Some d =>
      if (1 <=? mo) && (mo <=? 12) && (1 <=? d) && (d <=? 31) then Some (y, mo, d)
      else None
    | _, _, _ => None
    end in
  match s with
  | [y1; y2; y3; y4] => checked (digits_value [y1; y2; y3; y4]) (Some 1) (Some 1)
  | [y1; y2; y3; y4; c1; mo1; mo2] =>
    if c1 =? 45
    then checked (digits_value [y1; y2; y3; y4]) (digits_value [mo1; mo2]) (Some 1)
    else None
  | [y1; y2; y3; y4; c1; mo1; mo2; c2; d1; d2] =>
    if (c1 =? 45) && (c2 =? 45)
    then checked (digits_value [y1; y2; y3; y4]) (digits_value [mo1; mo2])
                 (digits_value [d1; d2])
    else None
  | _ => None
  end.

(** A date form of [n] characters, a [T], and a time with its offset. *)
Definition parse_date_time_at (n : nat) (s : jsstring) : option Z :=
  match drop n s with
  | 84 :: time =>
    match parse_date (take n s), parse_time time with
    | Some (y, mo, d), Some ms => Some (days_from_civil y mo d * MS_PER_DAY + ms)
    | _, _ => None
    end
  | _ => None
  end.

(** The date-time forms of the language's date-time string format that
    have seconds and an offset, with a four-digit year. *)
Definition parse_date_time (s : jsstring) : option Z :=
  match parse_date_time_at 10 s with
  | Some t => Some t
  | None =>
    match parse_date_time_at 7 s with
    | Some t => Some t
    | None => parse_date_time_at 4 s
    end
  end.

(** [new Date(s)]; [None] is an invalid date.  A string in one of the
    forms above is read as the language defines; what becomes of any
    other string is left to the engine's own reading, [legacy]. *)
Definition parse (legacy : jsstring -> option Z) (s : jsstring) : option Z :=
  match parse_date_time s with
  | Some t => Some t
  | None => legacy s
  end.

End JSDate.

(** ** The store (db/schema.ts) *)

Module WebhookHit.
(** A row of [webhook_hits]. *)
Record t := mk {
  id : Z;
  endpoint : jsstring;
  suffix : option jsstring;
  received_at : jsstring;
  response_ms : Z;
  body_length : Z;
  body : option jsstring;
  forward_status : option Z;
  forward_ms : option Z;
  forward_error : option jsstring
}.
End WebhookHit.

Module NewWebhookHit.
(** What [recordHit] is given: a row without its id; the forward columns
    are not set on insert. *)
Record t := mk {
  endpoint : jsstring;
  suffix : option jsstring;
  received_at : jsstring;
  response_ms : Z;
  body_length : Z;
  body : option jsstring
}.
End NewWebhookHit.

Module ForwardRule.
(** A row of [forward_rules] without its primary key [endpoint], which is
    the key of the table below. *)
Record t := mk {
  forward_url : jsstring;
  enabled : bool;
  persist : bool;
  created_at : jsstring;
  updated_at : jsstring
}.
End ForwardRule.

Module Alias.
Record t := mk {
  id : Z;
  value : jsstring;
  label : jsstring;
  created_at : jsstring
}.
End Alias.

(** The database: the rows of [webhook_hits] in insertion order with the
    AUTOINCREMENT high-water mark, [forward_rules] keyed by its primary key,
    and [aliases]. *)
Record D1Database := mkDb {
  webhook_hits : list WebhookHit.t;
  webhook_hits_seq : Z;
  forward_rules : gmap jsstring ForwardRule.t;
  aliases : list Alias.t
}.

Definition with_hits (hits : list WebhookHit.t) (d : D1Database) : D1Database :=
  mkDb hits (webhook_hits_seq d) (forward_rules d) (aliases d).

Definition with_rules (rules : gmap jsstring ForwardRule.t) (d : D1Database) : D1Database :=
  mkDb (webhook_hits d) (webhook_hits_seq d) rules (aliases d).

(** SQLite compares TEXT by the bytes of its UTF-8 encoding. *)
Fixpoint bytes_ltb (a b : bytes) : bool :=
  match a, b with
  | _, [] => false
  | [], _ :: _ => true
  | x :: a', y :: b' => (x <? y) || ((x =? y) && bytes_ltb a' b')
  end.

Definition text_lt (a b : jsstring) : bool :=
  bytes_ltb (TextEncoder.encode a) (TextEncoder.encode b).

(** [gte(col, v)] on a NOT NULL text column *)
Definition text_gte (a b : jsstring) : bool := negb (text_lt a b).

(** Three replacement characters. *)
Definition REPLACED : jsstring := [0xFFFD; 0xFFFD; 0xFFFD].

(** What a TEXT column gives back for a string written to it.  The column
    holds UTF-8: a surrogate pair is kept, but a surrogate without its
    partner has no UTF-8 form, and the three bytes written for it read
    back as three U+FFFD. *)
Fixpoint D1_text (s : jsstring) : jsstring :=
  match s with
  | [] => []
  | c :: rest =>
    if TextEncoder.is_high_surrogate c then
      match rest with
      | d :: rest' =>
        if TextEncoder.is_low_surrogate d then c :: d :: D1_text rest'
        else REPLACED ++ D1_text rest
      | [] => REPLACED
      end
    else if TextEncoder.is_low_surrogate c then REPLACED ++ D1_text rest
    else c :: D1_text rest
  end.

(** A string in which every surrogate has its partner, as [c.req.text()]
    yields. *)
Fixpoint well_formed (s : jsstring) : bool :=
  match s with
  | [] => true
  | c :: rest =>
    if TextEncoder.is_high_surrogate c then
      match rest with
      | d :: rest' => TextEncoder.is_low_surrogate d && well_formed rest'
      | [] => false
      end
    else negb (TextEncoder.is_low_surrogate c) && well_formed rest
  end.

(** stats.ts, recordHit: insert and return [last_row_id].  The endpoint and
    the suffix come from the URL path and the timestamp from
    [toISOString]; the body is any text. *)
Definition recordHit (d : D1Database) (hit : NewWebhookHit.t) : Z * D1Database :=
  let rowid := webhook_hits_seq d + 1 in
  let row := WebhookHit.mk rowid (NewWebhookHit.endpoint hit) (NewWebhookHit.suffix hit)
               (NewWebhookHit.received_at hit) (NewWebhookHit.response_ms hit)
               (NewWebhookHit.body_length hit) (D1_text <$> NewWebhookHit.body hit)
               None None None in
  (rowid, mkDb (webhook_hits d ++ [row]) rowid (forward_rules d) (aliases d)).

Definition SEVEN_DAYS_MS : Z := 7 * 24 * 60 * 60 * 1000.

(** stats.ts, purgeOldHits: [now] is the reading of [Date.now()]. *)
Definition purgeOldHits (now : Z) (d : D1Database) : Z * D1Database :=
  let cutoff := JSDate.toISOString (now - SEVEN_DAYS_MS) in
  let old h := text_lt (WebhookHit.received_at h) cutoff in
  (Z.of_nat (length (filter (fun h => old h = true) (webhook_hits d))),
   with_hits (filter (fun h => old h = false) (webhook_hits d)) d).

(** forward.ts, getForwardRule *)
Definition getForwardRule (d : D1Database) (endpoint : jsstring) : option ForwardRule.t :=
  forward_rules d !! endpoint.

(** [update(webhookHits).set({forward_status, forward_ms, forward_error})
     .where(eq(webhookHits.id, hitId))] *)
Definition set_forward_outcome (status : option Z) (ms : Z) (error : option jsstring)
           (h : WebhookHit.t) : WebhookHit.t :=
  WebhookHit.mk (WebhookHit.id h) (WebhookHit.endpoint h) (WebhookHit.suffix h)
    (WebhookHit.received_at h) (WebhookHit.response_ms h) (WebhookHit.body_length h)
    (WebhookHit.body h) status (Some ms) error.

Definition update_forward_outcome (hitId : Z) (status : option Z) (ms : Z)
           (error : option jsstring) (d : D1Database) : D1Database :=
  with_hits (map (fun h => if WebhookHit.id h =? hitId
                           then set_forward_outcome status ms error h else h)
                 (webhook_hits d)) d.

(** [ORDER BY received_at DESC]: a row comes no later than one whose
    timestamp is not larger. *)
Definition newer_first (a b : WebhookHit.t) : Prop :=
  text_lt (WebhookHit.received_at a) (WebhookHit.received_at b) = false.

#[global] Instance newer_first_dec a b : Decision (newer_first a b).
Proof. unfold newer_first. apply _. Defined.

Definition PAGE_SIZE : nat := 500.

(** The query of [/api/hits] and of the MCP tool [webhook_hits]:
    [where(and(gte(received_at, from), lt(received_at, to), eq(endpoint, e)?))
     .orderBy(desc(received_at)).limit(500)] *)
Definition in_window (fromISO toISO : jsstring) (endpointParam : option jsstring)
           (h : WebhookHit.t) : bool :=
  text_gte (WebhookHit.received_at h) fromISO
  && text_lt (WebhookHit.received_at h) toISO
  && (if truthy endpointParam
      then bool_decide (Some (WebhookHit.endpoint h) = endpointParam) else true).

Definition select_hits (d : D1Database) (fromISO toISO : jsstring)
           (endpointParam : option jsstring) : list WebhookHit.t :=
  take PAGE_SIZE
    (merge_sort newer_first
       (filter (fun h => in_window fromISO toISO endpointParam h = true) (webhook_hits d))).

(** ** Requests, responses and the worker's environment *)

#[warnings="-register-all"]
Inductive json :=
| JNull
| JBool (b : bool)
| JNum (n : Z)
| JStr (s : jsstring)
| JArr (items : list json)
| JObj (fields : list (string * json)).

Definition field (name : string) (v : json) : string * json := (name, v).

Definition json_opt {A} (f : A -> json) (o : option A) : json :=
  match o with Some x => f x | None => JNull end.

Definition json_of_hit (h : WebhookHit.t) : json :=
  JObj [field "id" (JNum (WebhookHit.id h));
        field "endpoint" (JStr (WebhookHit.endpoint h));
        field "suffix" (json_opt JStr (WebhookHit.suffix h));
        field "received_at" (JStr (WebhookHit.received_at h));
        field "response_ms" (JNum (WebhookHit.response_ms h));
        field "body_length" (JNum (WebhookHit.body_length h));
        field "body" (json_opt JStr (WebhookHit.body h));
        field "forward_status" (json_opt JNum (WebhookHit.forward_status h));
        field "forward_ms" (json_opt JNum (WebhookHit.forward_ms h));
        field "forward_error" (json_opt JStr (WebhookHit.forward_error h))].

(** What [c.json(body, status)] returns. *)
Record Response := mkResponse { status : Z; payload : json }.

Definition c_json (body : json) (code : Z) : Response := mkResponse code body.

(** The bindings of the worker ([Env]); an unset variable is [None]. *)
Record Env := mkEnv {
  API_TOKEN : option jsstring;
  LINE_CHANNEL_ACCESS_TOKEN : option jsstring
}.

(** Request headers, names in lower case as [Headers] keeps them. *)
Abbreviation Headers := (list (list Z * list Z)).

Definition Headers_get (h : Headers) (name : jsstring) : option jsstring :=
  snd <$> find (fun kv => bool_decide (fst kv = name)) h.

(** A request: its headers and the text [c.req.text()] resolves to. *)
Record Request := mkRequest { headers : Headers; text : jsstring }.

(** [a || b] on strings *)
Definition or_else (a : option jsstring) (b : jsstring) : jsstring :=
  if truthy a then default b a else b.

(** [s.split(c)] for a one-character separator. *)
Definition split_on (c : Z) (s : jsstring) : list jsstring :=
  fold_right (fun x acc =>
                if x =? c then [] :: acc
                else match acc with
                     | h :: t => (x :: h) :: t
                     | [] => [[x]]
                     end) [[]] s.

(** [parts.join(sep)] *)
Fixpoint join (sep : jsstring) (parts : list jsstring) : jsstring :=
  match parts with
  | [] => []
  | [p] => p
  | p :: ps => p ++ sep ++ join sep ps
  end.

(** White space and line terminators, as [String.prototype.trim] sees them. *)
Definition is_js_space (c : Z) : bool :=
  ((9 <=? c) && (c <=? 13)) || (c =? 32) || (c =? 0xA0) || (c =? 0x1680)
  || ((0x2000 <=? c) && (c <=? 0x200A)) || (c =? 0x2028) || (c =? 0x2029)
  || (c =? 0x202F) || (c =? 0x205F) || (c =? 0x3000) || (c =? 0xFEFF).

Fixpoint trim_start (s : jsstring) : jsstring :=
  match s with
  | c :: rest => if is_js_space c then trim_start rest else s
  | [] => []
  end.

Definition trim (s : jsstring) : jsstring := rev (trim_start (rev (trim_start s))).

Fixpoint find_cookie (name : jsstring) (parts : list jsstring) : option jsstring :=
  match parts with
  | [] => None
  | part :: more =>
    match split_on 61 (trim part) with
    | k :: rest => if bool_decide (k = name) then Some (join (lit "=") rest)
                   else find_cookie name more
    | [] => find_cookie name more
    end
  end.

Definition getCookie (request : Request) (name : jsstring) : option jsstring :=
  let header := default [] (Headers_get (headers request) (lit "cookie")) in
  find_cookie name (split_on 59 header).

Definition checkAuth (request : Request) (env : Env) : bool :=
  if negb (truthy (API_TOKEN env)) then true
  else
    let token := default [] (API_TOKEN env) in
    let bearer := Headers_get (headers request) (lit "authorization") in
    if bool_decide (bearer = Some (lit "Bearer " ++ token)) then true
    else
      let cookie := getCookie request (lit "api_token") in
      if bool_decide (cookie = Some token) then true
      else false.

(** ** Effects: the store, and what a handler does besides *)

(** An outbound [fetch(url, {method, headers, body, signal})]. *)
Record OutboundRequest := mkOutbound {
  out_url : jsstring;
  out_method : jsstring;
  out_headers : Headers;
  out_body : jsstring;
  out_timeout_ms : Z
}.

(** How a [fetch] ends: a response with its status, or an exception with
    its [message] when it has one (network failure, bad URL, timeout). *)
Inductive FetchOutcome :=
| Responded (code : Z)
| Threw (message : option jsstring).

(** Background work handed to [c.executionCtx.waitUntil]: a promise the
    handler does not await; it settles on its own, after the response or
    alongside it. *)
Inductive Task :=
| TForward (hitId : option Z) (forwardUrl body : jsstring) (originalHeaders : Headers)
| TAutoAlias (body lineToken : jsstring).

(** What happens besides store updates: the request body is read, a task
    is handed to [waitUntil], an outbound [fetch] has run to its outcome. *)
Inductive Event :=
| EvReadBody
| EvWaitUntil (t : Task)
| EvFetch (r : OutboundRequest).

(** The store and the trace of effects so far, oldest first. *)
Record World := mkWorld { db : D1Database; trace : list Event }.

Definition emit (e : Event) (w : World) : World := mkWorld (db w) (trace w ++ [e]).
Definition with_db (d : D1Database) (w : World) : World := mkWorld d (trace w).

Definition is_forward (t : Task) : bool :=
  match t with TForward _ _ _ _ => true | TAutoAlias _ _ => false end.

(** The tasks handed to [waitUntil], the body reads and the outbound calls
    of a trace. *)
Definition scheduled (tr : list Event) : list Task :=
  omap (fun e => match e with EvWaitUntil t => Some t | _ => None end) tr.
Definition scheduled_forwards (tr : list Event) : list Task :=
  filter (fun t => is_forward t = true) (scheduled tr).
Definition body_reads (tr : list Event) : nat :=
  length (filter (fun e => match e with EvReadBody => true | _ => false end = true) tr).
Definition outbound (tr : list Event) : list OutboundRequest :=
  omap (fun e => match e with EvFetch r => Some r | _ => None end) tr.

(** ** Forward executor (forward.ts, executeForward)

    [net] is the network: the outcome of the one [fetch]; [elapsed] is
    [Math.round(performance.now() - start)] once it has settled. *)

Definition FORWARD_TIMEOUT_MS : Z := 10000.

Definition forward_headers (originalHeaders : Headers) : Headers :=
  let base :=
    [(lit "content-type",
      or_else (Headers_get originalHeaders (lit "content-type")) (lit "application/json"));
     (lit "user-agent", lit "webhook-relay/0.5.0")] in
  let ghEvent := Headers_get originalHeaders (lit "x-github-event") in
  if truthy ghEvent then base ++ [(lit "x-github-event", default [] ghEvent)] else base.

Definition executeForward (net : OutboundRequest -> FetchOutcome) (elapsed : Z)
           (hitId : option Z) (forwardUrl body : jsstring) (originalHeaders : Headers)
           (w : World) : World :=
  let request := mkOutbound forwardUrl (lit "POST") (forward_headers originalHeaders)
                            body FORWARD_TIMEOUT_MS in
  let w := emit (EvFetch request) w in
  let '(status, error) :=
    match net request with
    | Responded code => (Some code, None)
    | Threw message => (Some 0, Some (default (lit "Unknown fetch error") message))
    end in
  let forward_ms := elapsed in
  match hitId with
  | Some i => with_db (update_forward_outcome i status forward_ms error (db w)) w
  | None => w
  end.

(** ** Receive pipeline (worker.ts)

    [now] is the reading of [new Date()], [elapsed] is
    [Math.round(performance.now() - start)]. *)

Definition error_body (message : string) : json := JObj [field "error" (JStr (lit message))].

(** What the framework answers when a handler throws. *)
Definition internal_server_error : Response :=
  mkResponse 500 (JStr (lit "Internal Server Error")).

(** [rule?.persist === false] *)
Definition persist_is_false (rule : option ForwardRule.t) : bool :=
  match rule with
  | Some r => negb (ForwardRule.persist r)
  | None => false
  end.

(** [rule?.enabled && rule.forward_url] *)
Definition wants_forward (rule : option ForwardRule.t) : bool :=
  match rule with
  | Some r => ForwardRule.enabled r && truthy (Some (ForwardRule.forward_url r))
  | None => false
  end.

(** [app.post("/w/:id/:token")] *)
Definition post_w (env : Env) (id token : jsstring) (request : Request)
           (now elapsed : Z) (w : World) : Response * World :=
  match (if truthy (API_TOKEN env)
         then verifyWebhookToken id token (default [] (API_TOKEN env))
         else Some true) with
  | None => (internal_server_error, w)
  | Some false => (c_json (error_body "Invalid webhook token") 401, w)
  | Some true =>
    let body := text request in
    let w := emit EvReadBody w in
    let received_at := JSDate.toISOString now in
    let response_ms := elapsed in
    let endpoint := id in
    let rule := getForwardRule (db w) endpoint in
    let '(hitId, w) :=
      if persist_is_false rule then (None, w)
      else
        let '(i, d) := recordHit (db w)
                         (NewWebhookHit.mk endpoint None received_at response_ms
                            (js_length body) (Some (js_slice0 4096 body))) in
        (Some i, with_db d w) in
    let w :=
      if wants_forward rule
      then emit (EvWaitUntil
                   (TForward hitId (default [] (ForwardRule.forward_url <$> rule)) body
                             (headers request))) w
      else w in
    let w :=
      if bool_decide (endpoint = lit "line") && truthy (LINE_CHANNEL_ACCESS_TOKEN env)
      then emit (EvWaitUntil
                   (TAutoAlias body (default [] (LINE_CHANNEL_ACCESS_TOKEN env)))) w
      else w in
    (c_json (JObj [field "ok" (JBool true);
                   field "endpoint" (JStr endpoint);
                   field "received_at" (JStr received_at);
                   field "response_ms" (JNum response_ms)]) 200, w)
  end.

(** [app.post("/w/:id/:token/:suffix")] *)
Definition post_w_suffix (env : Env) (id token suffix : jsstring) (request : Request)
           (now elapsed : Z) (w : World) : Response * World :=
  match (if truthy (API_TOKEN env)
         then verifyWebhookToken id token (default [] (API_TOKEN env))
         else Some true) with
  | None => (internal_server_error, w)
  | Some false => (c_json (error_body "Invalid webhook token") 401, w)
  | Some true =>
    let body := text request in
    let w := emit EvReadBody w in
    let received_at := JSDate.toISOString now in
    let response_ms := elapsed in
    let endpoint := id in
    let rule := getForwardRule (db w) endpoint in
    let '(hitId, w) :=
      if persist_is_false rule then (None, w)
      else
        let '(i, d) := recordHit (db w)
                         (NewWebhookHit.mk endpoint (Some (lit "/" ++ suffix)) received_at
                            response_ms (js_length body) (Some (js_slice0 4096 body))) in
        (Some i, with_db d w) in
    let w :=
      if wants_forward rule
      then emit (EvWaitUntil
                   (TForward hitId (default [] (ForwardRule.forward_url <$> rule)) body
                             (headers request))) w
      else w in
    (c_json (JObj [field "ok" (JBool true);
                   field "endpoint" (JStr endpoint);
                   field "suffix" (JStr suffix);
                   field "received_at" (JStr received_at);
                   field "response_ms" (JNum response_ms)]) 200, w)
  end.

Section GitHub.

(** [parseGitHubEvent(event, JSON.parse(raw))] of github.ts: the digest,
    or [None] when parsing throws. *)
Variable parseGitHubEvent : jsstring -> jsstring -> option jsstring.

(** [app.post("/w/:id/:token/github")] *)
Definition post_w_github (env : Env) (id token : jsstring) (request : Request)
           (now elapsed : Z) (w : World) : Response * World :=
  match (if truthy (API_TOKEN env)
         then verifyWebhookToken id token (default [] (API_TOKEN env))
         else Some true) with
  | None => (internal_server_error, w)
  | Some false => (c_json (error_body "Invalid webhook token") 401, w)
  | Some true =>
    let raw := text request in
    let w := emit EvReadBody w in
    let event := default (lit "unknown") (Headers_get (headers request) (lit "x-github-event")) in
    let parsed :=
      match parseGitHubEvent event raw with
      | Some p => p
      | None => lit "[" ++ event ++ lit "] (invalid JSON) " ++ js_slice0 512 raw
      end in
    let received_at := JSDate.toISOString now in
    let response_ms := elapsed in
    let endpoint := id in
    let rule := getForwardRule (db w) endpoint in
    let '(hitId, w) :=
      if persist_is_false rule then (None, w)
      else
        let '(i, d) := recordHit (db w)
                         (NewWebhookHit.mk endpoint (Some (lit "/github")) received_at
                            response_ms (js_length raw) (Some parsed)) in
        (Some i, with_db d w) in
    let w :=
      if wants_forward rule
      then emit (EvWaitUntil
                   (TForward hitId (default [] (ForwardRule.forward_url <$> rule)) raw
                             (headers request))) w
      else w in
    (c_json (JObj [field "ok" (JBool true);
                   field "endpoint" (JStr endpoint);
                   field "event" (JStr event);
                   field "received_at" (JStr received_at);
                   field "response_ms" (JNum response_ms)]) 200, w)
  end.

End GitHub.

(** ** Rules, purge and the hits query (worker.ts, mcp-handler.ts) *)

(** [insert(forwardRules).values({...}).onConflictDoUpdate({target: endpoint,
    set: {forward_url, enabled, persist, updated_at}})] *)
Definition upsert_forward_rule (endpoint forward_url : jsstring) (enabled persist : bool)
           (now : jsstring) (d : D1Database) : D1Database :=
  let row :=
    match forward_rules d !! endpoint with
    | Some old => ForwardRule.mk forward_url enabled persist (ForwardRule.created_at old) now
    | None => ForwardRule.mk forward_url enabled persist now now
    end in
  with_rules (<[endpoint := row]> (forward_rules d)) d.

(** The JSON body of a rule upsert; a field left out (or null) is [None]. *)
Record RuleBody := mkRuleBody {
  body_forward_url : option jsstring;
  body_enabled : option bool;
  body_persist : option bool
}.

Definition ok_body (endpoint : jsstring) : json :=
  JObj [field "ok" (JBool true); field "endpoint" (JStr endpoint)].

(** The result of an MCP tool call: one text item, JSON or plain. *)
Record ToolResult := mkToolResult { content : json; isError : bool }.

Section Rules.

(** Whether [new URL(s)] returns rather than throws. *)
Variable URL_parses : jsstring -> bool.

(** [app.put("/api/forward-rules/:endpoint")]; [body] is what
    [await c.req.json()] resolves to, [None] when it rejects (the text is
    no JSON) or the value has no properties to read ([null]). *)
Definition put_forward_rule (env : Env) (endpoint : jsstring) (request : Request)
           (body : option RuleBody) (now : Z) (d : D1Database) : Response * D1Database :=
  if negb (checkAuth request env) then (c_json (error_body "Unauthorized") 401, d)
  else
    match body with
    | None => (internal_server_error, d)
    | Some body =>
      if negb (truthy (body_forward_url body))
      then (c_json (error_body "Missing forward_url") 400, d)
      else
        let forward_url := default [] (body_forward_url body) in
        if negb (URL_parses forward_url)
        then (c_json (error_body "Invalid forward_url") 400, d)
        else
          let now := JSDate.toISOString now in
          (c_json (ok_body endpoint) 200,
           upsert_forward_rule endpoint forward_url
             (default true (body_enabled body)) (default true (body_persist body)) now d)
    end.

(** [callTool], case ["set_forward_rule"] *)
Definition set_forward_rule (ep : jsstring) (fwd : jsstring) (enabled persist : option bool)
           (now : Z) (d : D1Database) : ToolResult * D1Database :=
  if negb (URL_parses fwd)
  then (mkToolResult (JStr (lit "Error: Invalid forward_url")) true, d)
  else
    let now := JSDate.toISOString now in
    (mkToolResult (ok_body ep) false,
     upsert_forward_rule ep fwd (default true enabled) (default true persist) now d).

End Rules.

(** [app.post("/api/purge")] *)
Definition api_purge (env : Env) (request : Request) (now : Z) (d : D1Database)
  : Response * D1Database :=
  if negb (checkAuth request env) then (c_json (error_body "Unauthorized") 401, d)
  else
    let '(deleted, d') := purgeOldHits now d in
    (c_json (JObj [field "deleted" (JNum deleted)]) 200, d').

Definition GMT7_OFFSET_MS : Z := 7 * 60 * 60 * 1000.

(** The window of a date parameter: [new Date(...T00:00:00+07:00)] and
    [new Date(...T23:59:59.999+07:00)] as ISO strings; [None] when either
    date is invalid ([toISOString] throws). *)
Definition day_window (legacy : jsstring -> option Z) (dateParam : option jsstring)
           (now : Z) : option (jsstring * jsstring) :=
  let day :=
    if bool_decide (dateParam = Some (lit "today")) || negb (truthy dateParam) then
      let nowGmt7 := now + GMT7_OFFSET_MS in
      let yyyy := JSDate.String_of_int (JSDate.getUTCFullYear nowGmt7) in
      let mm := JSDate.padStart 2 48 (JSDate.String_of_int (JSDate.getUTCMonth nowGmt7 + 1)) in
      let dd := JSDate.padStart 2 48 (JSDate.String_of_int (JSDate.getUTCDate nowGmt7)) in
      yyyy ++ lit "-" ++ mm ++ lit "-" ++ dd
    else default [] dateParam in
  match JSDate.parse legacy (day ++ lit "T00:00:00+07:00"),
        JSDate.parse legacy (day ++ lit "T23:59:59.999+07:00") with
  | Some from, Some to => Some (JSDate.toISOString from, JSDate.toISOString to)
  | _, _ => None
  end.

(** [app.get("/api/hits")]; [legacy] is the engine's reading of date
    strings outside the date-time string format. *)
Definition api_hits (legacy : jsstring -> option Z) (env : Env) (request : Request)
           (dateParam endpointParam : option jsstring) (now : Z) (d : D1Database)
  : Response :=
  if negb (checkAuth request env) then c_json (error_body "Unauthorized") 401
  else
    match day_window legacy dateParam now with
    | None => internal_server_error
    | Some (fromISO, toISO) =>
      let hits := select_hits d fromISO toISO endpointParam in
      c_json (JObj [field "date" (JStr (or_else dateParam (lit "today")));
                    field "from" (JStr fromISO);
                    field "to" (JStr toISO);
                    field "count" (JNum (Z.of_nat (length hits)));
                    field "hits" (JArr (map json_of_hit hits))]) 200
    end.

(** ** Vocabulary of the statements *)

(** The acknowledgment [{ok, endpoint, received_at, response_ms}]. *)
Definition ack_envelope (endpoint received_at : jsstring) (response_ms : Z) : json :=
  JObj [field "ok" (JBool true);
        field "endpoint" (JStr endpoint);
        field "received_at" (JStr received_at);
        field "response_ms" (JNum response_ms)].

(** The row the raw pipeline inserts for a request. *)
Definition raw_hit (id : jsstring) (request : Request) (now elapsed : Z) : NewWebhookHit.t :=
  NewWebhookHit.mk id None (JSDate.toISOString now) elapsed
    (js_length (text request)) (Some (js_slice0 4096 (text request))).

(** The id handed to the forward executor: that of the inserted row, or
    null when the rule says not to persist. *)
Definition receive_hitId (d : D1Database) (endpoint : jsstring) : option Z :=
  if persist_is_false (getForwardRule d endpoint) then None
  else Some (webhook_hits_seq d + 1).

(** The events an accepted raw request adds to the trace. *)
Definition raw_events (env : Env) (id : jsstring) (request : Request) (d : D1Database)
  : list Event :=
  let rule := getForwardRule d id in
  EvReadBody
  :: (if wants_forward rule
      then [EvWaitUntil (TForward (receive_hitId d id)
                           (default [] (ForwardRule.forward_url <$> rule))
                           (text request) (headers request))]
      else [])
  ++ (if bool_decide (id = lit "line") && truthy (LINE_CHANNEL_ACCESS_TOKEN env)
      then [EvWaitUntil (TAutoAlias (text request)
                           (default [] (LINE_CHANNEL_ACCESS_TOKEN env)))]
      else []).

(** The size in bytes of a text as the store keeps it (UTF-8). *)
Definition byte_length (s : jsstring) : Z := Z.of_nat (length (TextEncoder.encode s)).

(** The row the suffix pipeline inserts. *)
Definition suffix_hit (id suffix : jsstring) (request : Request) (now elapsed : Z)
  : NewWebhookHit.t :=
  NewWebhookHit.mk id (Some (lit "/" ++ suffix)) (JSDate.toISOString now) elapsed
    (js_length (text request)) (Some (js_slice0 4096 (text request))).

(** The events an accepted suffix or GitHub request adds to the trace. *)
Definition tagged_events (id : jsstring) (request : Request) (d : D1Database) : list Event :=
  let rule := getForwardRule d id in
  EvReadBody
  :: (if wants_forward rule
      then [EvWaitUntil (TForward (receive_hitId d id)
                           (default [] (ForwardRule.forward_url <$> rule))
                           (text request) (headers request))]
      else []).

(** An engine that reads no string outside the date-time string format as
    a date. *)
Definition no_legacy : jsstring -> option Z := fun _ => None.

(** An empty store and a world that has seen nothing. *)
Definition empty_db : D1Database := mkDb [] 0 ∅ [].
Definition empty_world : World := mkWorld empty_db [].

(** Sample data for the worked examples. *)
Definition sample_secret : jsstring := lit "admin:hunter2".
Definition sample_env : Env := mkEnv (Some sample_secret) None.
Definition open_env : Env := mkEnv None None.
Definition sample_token : jsstring := lit "iLpI1jWqo23MHNM3dfan8Y01IIf7-qNyeHp3ySCQkNc".
Definition sample_request : Request :=
  mkRequest [(lit "content-type", lit "text/plain")] (lit "hello").
(** 2025-11-02T05:27:14.567Z *)
Definition sample_now : Z := 1762061234567.

(** A rule that forwards but does not persist, and a store holding it. *)
Definition quiet_rule : ForwardRule.t :=
  ForwardRule.mk (lit "https://example.com/hook") true false
                 (lit "2025-01-01T00:00:00.000Z") (lit "2025-01-01T00:00:00.000Z").
Definition quiet_world : World :=
  mkWorld (mkDb [] 0 {[ lit "line" := quiet_rule ]} []) [].

(** A body of 2000 Thai letters (U+0E01): 2000 code units, 6000 bytes. *)
Definition thai_request : Request := mkRequest [] (repeat 0x0E01 2000).

(** A body whose code units 4095 and 4096 are the two halves of U+1F600:
    4095 letters, the pair, one more letter. *)
Definition astral_request : Request :=
  mkRequest [] (repeat 97 4095 ++ [0xD83D; 0xDE00; 98]).

Definition is_ascii (c : Z) : Prop := 0 <= c < 128.

(** A rule that forwards and persists, and a store holding it. *)
Definition relay_rule : ForwardRule.t :=
  ForwardRule.mk (lit "https://example.com/hook") true true
                 (lit "2025-01-01T00:00:00.000Z") (lit "2025-01-01T00:00:00.000Z").
Definition relay_world : World :=
  mkWorld (mkDb [] 0 {[ lit "line" := relay_rule ]} []) [].

(** A network that is down, and one that answers 204. *)
Definition net_down : OutboundRequest -> FetchOutcome :=
  fun _ => Threw (Some (lit "connect ECONNREFUSED")).
Definition net_ok : OutboundRequest -> FetchOutcome := fun _ => Responded 204.

(** The store after one accepted request under [relay_rule]. *)
Definition one_hit_world : World :=
  (post_w open_env (lit "line") (lit "any") sample_request sample_now 3 relay_world).2.

(** Every row's id is at most the AUTOINCREMENT high-water mark. *)
Definition ids_bounded (d : D1Database) : Prop :=
  Forall (fun h => WebhookHit.id h <= webhook_hits_seq d) (webhook_hits d).

(** A stand-in for [new URL(s)]: accepts what starts with [http]. *)
Definition starts_with_http (s : jsstring) : bool :=
  bool_decide (take 4 s = lit "http").

(** A rule that is switched off, and a store holding it. *)
Definition off_rule : ForwardRule.t :=
  ForwardRule.mk (lit "https://old.example.com/") false false
                 (lit "2025-01-01T00:00:00.000Z") (lit "2025-01-02T00:00:00.000Z").
Definition off_db : D1Database := mkDb [] 0 {[ lit "line" := off_rule ]} [].

(** Three instants around midnight of 2025-01-01 in UTC+7:
    23:59:59.500, 23:59:59.999 and 00:00:00.500 of the next day. *)
Definition t_before_midnight : Z := 1735750799500.
Definition t_last_millisecond : Z := 1735750799999.
Definition t_after_midnight : Z := 1735750800500.

(** The store after one request at each of them. *)
Definition boundary_world : World :=
  let w1 := (post_w open_env (lit "line") (lit "any") sample_request
                    t_before_midnight 1 empty_world).2 in
  let w2 := (post_w open_env (lit "line") (lit "any") sample_request
                    t_last_millisecond 1 w1).2 in
  (post_w open_env (lit "line") (lit "any") sample_request t_after_midnight 1 w2).2.

(** Calendar dates in lexicographic order: year, then month, then day. *)
Definition civil_lt (a b : Z * Z * Z) : Prop :=
  a.1.1 < b.1.1 \/ (a.1.1 = b.1.1 /\ (a.1.2 < b.1.2 \/ (a.1.2 = b.1.2 /\ a.2 < b.2))).

(** Instants from 0000-01-01T00:00:00.000Z up to 9999-12-31T23:59:59.999Z,
    whose ISO string has a four-digit year. *)
Definition four_digit_year (t : Z) : Prop := -62167219200000 <= t < 253402300800000.

(** The first row of [boundary_world]. *)
Definition hit_before_midnight : WebhookHit.t :=
  WebhookHit.mk 1 (lit "line") None (lit "2025-01-01T16:59:59.500Z") 1 5
                (Some (lit "hello")) None None None.
Definition hit_last_millisecond : WebhookHit.t :=
  WebhookHit.mk 2 (lit "line") None (lit "2025-01-01T16:59:59.999Z") 1 5
                (Some (lit "hello")) None None None.

(** The date parameter [YYYY-MM-DD] of a calendar day. *)
Definition date_string (y m d : Z) : jsstring :=
  JSDate.pad_dec 4 y ++ 45 :: JSDate.pad_dec 2 m ++ 45 :: JSDate.pad_dec 2 d.

(** The first instant of a calendar day in UTC+7. *)
Definition day_start (y m d : Z) : Z :=
  JSDate.days_from_civil y m d * JSDate.MS_PER_DAY - GMT7_OFFSET_MS.

(** Requests carrying the session credential as a bearer header, as a
    cookie among others, and a wrong one. *)
Definition bearer_request : Request :=
  mkRequest [(lit "authorization", lit "Bearer admin:hunter2")] [].
Definition cookie_request : Request :=
  mkRequest [(lit "cookie", lit "theme=dark; api_token=admin:hunter2")] [].
Definition stranger_request : Request :=
  mkRequest [(lit "authorization", lit "Bearer guess");
             (lit "cookie", lit "api_token=guess")] [].


(** * The rest of the worker: sessions, aliases, statistics, tools

    ** Vocabulary of the further statements *)

(** The characters a URL path segment carries unescaped and base64url
    uses: letters, digits, [-] and [_]. *)
Definition is_url_safe (c : Z) : bool :=
  ((65 <=? c) && (c <=? 90)) || ((97 <=? c) && (c <=? 122))
  || ((48 <=? c) && (c <=? 57)) || (c =? 45) || (c =? 95).

(** A JS string as a list of UTF-16 code units. *)
Definition wf_text (s : jsstring) : Prop := Forall (fun c => 0 <= c < 65536) s.

(** Ids are bounded by the counter and no two rows share one. *)
Definition hits_wf (d : D1Database) : Prop :=
  ids_bounded d /\ NoDup (map WebhookHit.id (webhook_hits d)).

(** A request with an authorization and a cookie header besides the
    payload headers. *)
Definition signed_in_request : Request :=
  mkRequest [(lit "content-type", lit "application/json");
             (lit "authorization", lit "Bearer admin:hunter2");
             (lit "cookie", lit "api_token=admin:hunter2");
             (lit "x-github-event", lit "push")] (lit "{}").

(** A store with one old Hit (id 1, counter at 1), for the late-forward
    example: the result of one request at the Unix epoch. *)
Definition aged_world : World :=
  (post_w open_env (lit "line") (lit "any") sample_request 0 1 relay_world).2.

(** Every stored Hit carries the ISO string of an instant with a
    four-digit year, as [new Date().toISOString()] writes it. *)
Definition stamped (d : D1Database) : Prop :=
  Forall (fun h => exists t, four_digit_year t
                             /\ WebhookHit.received_at h = JSDate.toISOString t)
         (webhook_hits d).

(** ** Deleting and toggling rules (worker.ts, mcp-handler.ts, ForwardConfig.tsx) *)

(** [delete(forwardRules).where(eq(forwardRules.endpoint, endpoint))] *)
Definition delete_rule_row (endpoint : jsstring) (d : D1Database) : D1Database :=
  with_rules (delete endpoint (forward_rules d)) d.

(** [app.delete("/api/forward-rules/:endpoint")] *)
Definition api_delete_forward_rule (env : Env) (endpoint : jsstring) (request : Request)
           (d : D1Database) : Response * D1Database :=
  if negb (checkAuth request env) then (c_json (error_body "Unauthorized") 401, d)
  else (c_json (JObj [field "ok" (JBool true)]) 200, delete_rule_row endpoint d).

(** [callTool], case ["delete_forward_rule"] *)
Definition delete_forward_rule (endpoint : jsstring) (d : D1Database)
  : ToolResult * D1Database :=
  (mkToolResult (JObj [field "ok" (JBool true)]) false, delete_rule_row endpoint d).

(** ForwardConfig.tsx: the JSON bodies the dashboard's toggles PUT. *)
Definition handleToggle (rule : ForwardRule.t) : RuleBody :=
  mkRuleBody (Some (ForwardRule.forward_url rule))
             (Some (negb (ForwardRule.enabled rule)))
             (Some (ForwardRule.persist rule)).

Definition handleTogglePersist (rule : ForwardRule.t) : RuleBody :=
  mkRuleBody (Some (ForwardRule.forward_url rule))
             (Some (ForwardRule.enabled rule))
             (Some (negb (ForwardRule.persist rule))).

(** Every stored rule's [forward_url] is one [new URL] accepted. *)
Definition rules_parse (URL_parses : jsstring -> bool) (d : D1Database) : Prop :=
  forall endpoint r, forward_rules d !! endpoint = Some r ->
                     URL_parses (ForwardRule.forward_url r) = true.

(** ** Purging by tool (mcp-handler.ts) *)

(** The condition of the purge's DELETE at a reading [now] of the clock. *)
Definition old_at (now : Z) (h : WebhookHit.t) : bool :=
  text_lt (WebhookHit.received_at h) (JSDate.toISOString (now - SEVEN_DAYS_MS)).

(** [callTool], case ["purge_old_hits"] *)
Definition purge_old_hits (now : Z) (d : D1Database) : ToolResult * D1Database :=
  let '(deleted, d') := purgeOldHits now d in
  (mkToolResult (JObj [field "deleted" (JNum deleted)]) false, d').

(** ** Issuing webhook URLs (worker.ts, mcp-handler.ts) *)

(** [app.get("/api/me")] *)
Definition api_me (env : Env) (request : Request) : Response :=
  c_json (JObj [field "loggedIn" (JBool (checkAuth request env))]) 200.

(** [app.get("/api/generate-url")]: [id] is [c.req.query("id")], [origin]
    the origin of the request's URL. *)
Definition api_generate_url (env : Env) (request : Request) (origin : jsstring)
           (id : option jsstring) : Response :=
  if negb (checkAuth request env) then c_json (error_body "Unauthorized") 401
  else if negb (truthy id) then c_json (error_body "Missing id") 400
  else if negb (truthy (API_TOKEN env))
  then c_json (error_body "No API token configured") 500
  else
    let id := default [] id in
    match generateWebhookToken id (default [] (API_TOKEN env)) with
    | None => internal_server_error
    | Some token =>
      c_json (JObj [field "url" (JStr (origin ++ lit "/w/" ++ id ++ lit "/" ++ token))]) 200
    end.

(** [callTool], case ["generate_webhook_url"], with the token generator
    [callTool] is handed; [None] when the generator rejects, so that the
    case throws. *)
Definition generate_webhook_url (generateToken : jsstring -> option jsstring)
           (origin id : jsstring) : option ToolResult :=
  match generateToken id with
  | None => None
  | Some token =>
    Some (mkToolResult
            (JObj [field "url" (JStr (origin ++ lit "/w/" ++ id ++ lit "/" ++ token))])
            false)
  end.

(** The generator [app.post("/mcp")] hands over: [API_TOKEN!] is the
    secret, or [undefined], which the encoder reads as the empty string. *)
Definition tokenGen (env : Env) : jsstring -> option jsstring :=
  fun id => generateWebhookToken id (default [] (API_TOKEN env)).

(** ** Sessions (worker.ts) *)

(** What a session handler answers: the response and the [set-cookie]
    header it carries, if any. *)
Record SessionResponse := mkSession { response : Response; set_cookie : option jsstring }.

(** The text fields of a parsed form, in order. *)
Abbreviation FormData := (list (jsstring * jsstring)).

(** [form.get(name)]: the first value of the name, or null. *)
Definition FormData_get (form : FormData) (name : jsstring) : option jsstring :=
  snd <$> find (fun kv => bool_decide (fst kv = name)) form.

(** A string or null inside a template literal. *)
Definition template (v : option jsstring) : jsstring := default (lit "null") v.

(** The cookie [/auth/login] sets for a credential. *)
Definition session_cookie (credential : jsstring) : jsstring :=
  lit "api_token=" ++ credential
  ++ lit "; Path=/; HttpOnly; SameSite=Strict; Secure; Max-Age=86400".

Section Login.

(** Whether [new Response(_, {headers})] takes a string as a header
    value; it throws a TypeError on one it does not take, such as one with
    a line feed in it. *)
Variable header_value_ok : jsstring -> bool.

(** [app.post("/auth/login")]; [form] is what [await c.req.formData()]
    resolves to, [None] when it rejects. *)
Definition auth_login (env : Env) (form : option FormData) : SessionResponse :=
  match form with
  | None => mkSession internal_server_error None
  | Some form =>
    let user := FormData_get form (lit "username") in
    let pass := FormData_get form (lit "password") in
    let credential := template user ++ lit ":" ++ template pass in
    if negb (truthy (API_TOKEN env)) || negb (bool_decide (Some credential = API_TOKEN env))
    then mkSession (c_json (error_body "Invalid credentials") 401) None
    else
      if header_value_ok (session_cookie credential)
      then mkSession (mkResponse 200 (JObj [field "ok" (JBool true)]))
                     (Some (session_cookie credential))
      else mkSession internal_server_error None
  end.

End Login.

(** [app.get("/auth/logout")] *)
Definition auth_logout : SessionResponse :=
  mkSession (mkResponse 200 (JObj [field "ok" (JBool true)]))
            (Some (lit "api_token=; Path=/; HttpOnly; SameSite=Strict; Secure; Max-Age=0")).

(** A string that does not end in white space. *)
Definition no_trailing_space (s : jsstring) : Prop :=
  forall c, last s = Some c -> is_js_space c = false.

(** A request that carries nothing but a cookie header. *)
Definition with_cookie (cookie : jsstring) : Request :=
  mkRequest [(lit "cookie", cookie)] [].

Definition login_form : FormData :=
  [(lit "username", lit "admin"); (lit "password", lit "hunter2")].

(** A stand-in for the runtime's check of a header value: no NUL, line
    feed or carriage return. *)
Definition no_line_breaks (s : jsstring) : bool :=
  forallb (fun c => negb ((c =? 0) || (c =? 10) || (c =? 13))) s.

(** A secret with a line feed in its password, and the form that spells
    it. *)
Definition lf_env : Env := mkEnv (Some (lit "admin:hunter" ++ [10] ++ lit "2")) None.
Definition lf_form : FormData :=
  [(lit "username", lit "admin"); (lit "password", lit "hunter" ++ [10] ++ lit "2")].

(** ** Today (worker.ts, Today.tsx) *)

(** Today.tsx, fmtDateGmt7: the date the page shows, at a reading [now] of
    the clock. *)
Definition fmtDateGmt7 (now : Z) : jsstring :=
  let t := now + 7 * 60 * 60 * 1000 in
  JSDate.String_of_int (JSDate.getUTCFullYear t) ++ lit "-"
  ++ JSDate.padStart 2 48 (JSDate.String_of_int (JSDate.getUTCMonth t + 1)) ++ lit "-"
  ++ JSDate.padStart 2 48 (JSDate.String_of_int (JSDate.getUTCDate t)).

(** The first instant of the UTC+7 calendar day an instant falls in. *)
Definition today_start (now : Z) : Z :=
  (now + GMT7_OFFSET_MS) / JSDate.MS_PER_DAY * JSDate.MS_PER_DAY - GMT7_OFFSET_MS.

(** ** Aliases (worker.ts, mcp-handler.ts) *)

Definition with_aliases (rows : list Alias.t) (d : D1Database) : D1Database :=
  mkDb (webhook_hits d) (webhook_hits_seq d) (forward_rules d) rows.

(** [insert(aliases).values({value, label, created_at})
     .onConflictDoUpdate({target: aliases.value, set: {label}})];
    [rowid] is the id the engine gives the row when it is new. *)
Definition upsert_alias (rowid : Z) (value label now : jsstring) (d : D1Database)
  : D1Database :=
  if existsb (fun a => bool_decide (Alias.value a = value)) (aliases d)
  then with_aliases
         (map (fun a => if bool_decide (Alias.value a = value)
                        then Alias.mk (Alias.id a) (Alias.value a) label (Alias.created_at a)
                        else a) (aliases d)) d
  else with_aliases (aliases d ++ [Alias.mk rowid value label now]) d.

(** [delete(aliases).where(eq(aliases.id, id))]; [None] is a number that
    is no integer (NaN among them), which equals no id. *)
Definition delete_alias_row (id : option Z) (d : D1Database) : D1Database :=
  with_aliases (filter (fun a => Some (Alias.id a) <> id) (aliases d)) d.

(** The JSON body of an alias upsert. *)
Record AliasBody := mkAliasBody {
  body_value : option jsstring;
  body_label : option jsstring
}.

Definition alias_ok (value label : jsstring) : json :=
  JObj [field "ok" (JBool true); field "value" (JStr value); field "label" (JStr label)].

(** [app.put("/api/aliases")]; [body] is what [await c.req.json()]
    resolves to, [None] when it rejects or the value has no properties to
    read. *)
Definition put_alias (env : Env) (request : Request) (body : option AliasBody)
           (rowid now : Z) (d : D1Database) : Response * D1Database :=
  if negb (checkAuth request env) then (c_json (error_body "Unauthorized") 401, d)
  else
    match body with
    | None => (internal_server_error, d)
    | Some body =>
      if negb (truthy (body_value body)) || negb (truthy (body_label body))
      then (c_json (error_body "Missing value or label") 400, d)
      else
        let value := default [] (body_value body) in
        let label := default [] (body_label body) in
        (c_json (alias_ok value label) 200,
         upsert_alias rowid value label (JSDate.toISOString now) d)
    end.

(** [app.delete("/api/aliases/:id")], [id] being [Number(c.req.param("id"))]. *)
Definition api_delete_alias (env : Env) (request : Request) (id : option Z)
           (d : D1Database) : Response * D1Database :=
  if negb (checkAuth request env) then (c_json (error_body "Unauthorized") 401, d)
  else (c_json (JObj [field "ok" (JBool true)]) 200, delete_alias_row id d).

(** [callTool], cases ["set_alias"] and ["delete_alias"], for string and
    number arguments. *)
Definition set_alias (value label : jsstring) (rowid now : Z) (d : D1Database)
  : ToolResult * D1Database :=
  (mkToolResult (alias_ok value label) false,
   upsert_alias rowid value label (JSDate.toISOString now) d).

Definition delete_alias (id : option Z) (d : D1Database) : ToolResult * D1Database :=
  (mkToolResult (JObj [field "ok" (JBool true)]) false, delete_alias_row id d).

(** [new Map(allAliases.map(a => [a.value, a.label]))]: entries are set in
    order, a later one replacing an earlier one of the same key. *)
Definition aliasMap (rows : list Alias.t) : gmap jsstring jsstring :=
  foldl (fun m a => <[Alias.value a := Alias.label a]> m) ∅ rows.

(** Values and ids are each unique in [aliases]. *)
Definition aliases_wf (d : D1Database) : Prop :=
  NoDup (map Alias.value (aliases d)) /\ NoDup (map Alias.id (aliases d)).

(** A store with one alias. *)
Definition alias_db : D1Database :=
  mkDb [] 0 ∅ [Alias.mk 1 (lit "C0ffee") (lit "Team") (lit "2025-01-01T00:00:00.000Z")].

(** ** Statistics (stats.ts) *)

Definition D1_LIMIT_STORAGE_BYTES : Z := 5000000000.
Definition D1_LIMIT_WRITES_DAY : Z := 100000.

Module Stats.
Record usage := mk_usage {
  db_size_bytes : Z;
  writes_today : Z;
  limit_storage_bytes : Z;
  limit_writes_day : Z
}.
Record t := mk {
  total_requests : Z;
  avg_response_ms : Z;
  oldest_hit_at : option jsstring;
  recent : list WebhookHit.t;
  forward_rules : gmap jsstring ForwardRule.t;
  aliases : list Alias.t;
  d1 : usage
}.
End Stats.

(** [ORDER BY received_at ASC] *)
Definition older_first (a b : WebhookHit.t) : Prop :=
  text_lt (WebhookHit.received_at b) (WebhookHit.received_at a) = false.

#[global] Instance older_first_dec a b : Decision (older_first a b).
Proof. unfold older_first. apply _. Defined.

Definition sum_list (xs : list Z) : Z := foldr Z.add 0 xs.

(** [Math.round(Number(avg ?? 0))] of an integer column: the mean rounded
    to the nearest integer, halves upwards; 0 for no rows. *)
Definition rounded_mean (xs : list Z) : Z :=
  match xs with
  | [] => 0
  | _ :: _ => (2 * sum_list xs + Z.of_nat (length xs)) / (2 * Z.of_nat (length xs))
  end.

(** [new Date(new Date().setUTCHours(0, 0, 0, 0))] *)
Definition utc_midnight (now : Z) : Z := now / JSDate.MS_PER_DAY * JSDate.MS_PER_DAY.

Definition RECENT_SIZE : nat := 50.

(** stats.ts, getStats; [size_after] is what the engine reports in
    [meta.size_after], [now] the reading of the clock. *)
Definition getStats (size_after : option Z) (now : Z) (d : D1Database) : Stats.t :=
  let todayISO := JSDate.toISOString (utc_midnight now) in
  let total_requests := Z.of_nat (length (webhook_hits d)) in
  let avg_response_ms := rounded_mean (map WebhookHit.response_ms (webhook_hits d)) in
  let writes_today :=
    Z.of_nat (length (filter (fun h => text_gte (WebhookHit.received_at h) todayISO = true)
                             (webhook_hits d))) in
  let db_size_bytes := default 0 size_after in
  let recent := take RECENT_SIZE (merge_sort newer_first (webhook_hits d)) in
  let oldest := take 1 (merge_sort older_first (webhook_hits d)) in
  Stats.mk total_requests avg_response_ms
           (WebhookHit.received_at <$> head oldest)
           recent (forward_rules d) (aliases d)
           (Stats.mk_usage db_size_bytes writes_today
                           D1_LIMIT_STORAGE_BYTES D1_LIMIT_WRITES_DAY).

(** ** Vocabulary of the GitHub pipeline *)

(** [c.req.header("x-github-event") ?? "unknown"] *)
Definition github_event (request : Request) : jsstring :=
  default (lit "unknown") (Headers_get (headers request) (lit "x-github-event")).

(** What the GitHub handler stores when the payload is no JSON. *)
Definition invalid_json_note (event raw : jsstring) : jsstring :=
  lit "[" ++ event ++ lit "] (invalid JSON) " ++ js_slice0 512 raw.

(** A parser that finds every payload malformed. *)
Definition parse_fails : jsstring -> jsstring -> option jsstring := fun _ _ => None.

Definition github_request : Request :=
  mkRequest [(lit "x-github-event", lit "push")] (lit "{not json").

(** ** The hits tool (mcp-handler.ts) *)

Section HitsTool.

(** [JSON.parse(body)?.events?.[0]?.source?.groupId] when it is a string;
    [None] when parsing throws or there is no such string. *)
Variable groupId_of : jsstring -> option jsstring.

(** The engine's reading of date strings outside the date-time string
    format. *)
Variable legacy : jsstring -> option Z.

(** The window the tool computes for [args.date || "today"]; [None] when
    [toISOString] throws. *)
Definition tool_window (dateParam : jsstring) (now : Z) : option (jsstring * jsstring) :=
  let day :=
    if bool_decide (dateParam = lit "today") then
      let nowGmt7 := now + GMT7_OFFSET_MS in
      let yyyy := JSDate.String_of_int (JSDate.getUTCFullYear nowGmt7) in
      let mm := JSDate.padStart 2 48 (JSDate.String_of_int (JSDate.getUTCMonth nowGmt7 + 1)) in
      let dd := JSDate.padStart 2 48 (JSDate.String_of_int (JSDate.getUTCDate nowGmt7)) in
      yyyy ++ lit "-" ++ mm ++ lit "-" ++ dd
    else dateParam in
  match JSDate.parse legacy (day ++ lit "T00:00:00+07:00"),
        JSDate.parse legacy (day ++ lit "T23:59:59.999+07:00") with
  | Some from, Some to => Some (JSDate.toISOString from, JSDate.toISOString to)
  | _, _ => None
  end.

(** The rows the tool reports: the page of the query, then the filter by
    group on that page. *)
Definition tool_hits (date endpoint group : option jsstring) (now : Z) (d : D1Database)
  : option (list WebhookHit.t) :=
  let dateParam := or_else date (lit "today") in
  match tool_window dateParam now with
  | None => None
  | Some (fromISO, toISO) =>
    let hits := select_hits d fromISO toISO endpoint in
    Some (if truthy group
          then filter (fun h => truthy (WebhookHit.body h)
                                && bool_decide (groupId_of (default [] (WebhookHit.body h))
                                                = group) = true) hits
          else hits)
  end.

(** [callTool], case ["webhook_hits"]; [None] when it throws. *)
Definition webhook_hits_tool (date endpoint group : option jsstring) (now : Z)
           (d : D1Database) : option ToolResult :=
  (fun hits =>
     mkToolResult (JObj [field "date" (JStr (or_else date (lit "today")));
                         field "count" (JNum (Z.of_nat (length hits)));
                         field "hits" (JArr (map json_of_hit hits))]) false)
  <$> tool_hits date endpoint group now d.

End HitsTool.

(** A reader of group ids that finds none. *)
Definition no_group : jsstring -> option jsstring := fun _ => None.

(** ** Resolving names with the LINE API (worker.ts) *)

(** What a GET to the LINE API comes to: the call or the reading of its
    JSON throws, the response is not [ok], or it is and its JSON has the
    name field ([groupName] or [displayName]) or lacks it. *)
Inductive LineOutcome :=
| LineThrew
| LineNotOk
| LineOk (name : option jsstring).

Definition line_group_url (groupId : jsstring) : jsstring :=
  lit "https://api.line.me/v2/bot/group/" ++ groupId ++ lit "/summary".
Definition line_member_url (groupId userId : jsstring) : jsstring :=
  lit "https://api.line.me/v2/bot/group/" ++ groupId ++ lit "/member/" ++ userId.
Definition line_profile_url (userId : jsstring) : jsstring :=
  lit "https://api.line.me/v2/bot/profile/" ++ userId.

(** [s.startsWith(c)] for a one-character [c]. *)
Definition startsWith (c : Z) (s : jsstring) : bool := bool_decide (head s = Some c).

(** The JSON body of a resolve request. *)
Record ResolveBody := mkResolveBody {
  resolve_id : option jsstring;
  resolve_groupId : option jsstring
}.

Section Resolve.

(** The LINE API: the outcome of a GET of a URL with a bearer token. *)
Variable line : jsstring -> jsstring -> LineOutcome.

(** [app.post("/api/aliases/resolve")]; an exception that escapes the
    handler is answered 500 by the framework. *)
Definition api_aliases_resolve (env : Env) (request : Request) (body : ResolveBody)
           (rowid now : Z) (d : D1Database) : Response * D1Database :=
  if negb (checkAuth request env) then (c_json (error_body "Unauthorized") 401, d)
  else if negb (truthy (LINE_CHANNEL_ACCESS_TOKEN env))
  then (c_json (error_body "No LINE_CHANNEL_ACCESS_TOKEN configured") 500, d)
  else if negb (truthy (resolve_id body)) then (c_json (error_body "Missing id") 400, d)
  else
    let token := default [] (LINE_CHANNEL_ACCESS_TOKEN env) in
    let id := default [] (resolve_id body) in
    let answer :=
      if startsWith 67 id then Some (line (line_group_url id) token)
      else if startsWith 85 id then
        let gid := resolve_groupId body in
        let url := if truthy gid then line_member_url (default [] gid) id
                   else line_profile_url id in
        Some (line url token)
      else None in
    match answer with
    | Some LineThrew => (internal_server_error, d)
    | _ =>
      let name := match answer with Some (LineOk name) => name | _ => None end in
      if negb (truthy name)
      then (c_json (JObj [field "ok" (JBool false);
                          field "error" (JStr (lit "Could not resolve name from LINE API"))])
                   404, d)
      else
        let name := default [] name in
        (c_json (alias_ok id name) 200,
         upsert_alias rowid id name (JSDate.toISOString now) d)
    end.

End Resolve.

(** [export default { fetch }]: [res] is what the app answers, [assets]
    what [env.ASSETS.fetch(request)] answers. *)
Definition worker_fetch (assets res : Response) : Response :=
  if status res =? 404 then assets else res.

(** A LINE API that knows one group, and a deployment with a LINE token. *)
Definition line_knows_team : jsstring -> jsstring -> LineOutcome :=
  fun url _ => if bool_decide (url = line_group_url (lit "C0ffee"))
               then LineOk (Some (lit "Team")) else LineNotOk.
Definition line_env : Env := mkEnv None (Some (lit "line-token")).
Definition spa_page : Response := mkResponse 200 (JStr (lit "<!doctype html>")).

(** ** Auto-alias (auto-alias.ts) *)

Module LineSource.
(** [ev.source], its ids being strings or absent. *)
Record t := mk { groupId : option jsstring; userId : option jsstring }.
End LineSource.

(** An element of [parsed.events] as the loop of [extractIds] meets it:
    it is null, so that reading [ev.source] throws; it has no source; or
    it has one. *)
Inductive LineEvent :=
| EventNull
| EventNoSource
| EventSource (src : LineSource.t).

(** [Set.prototype.add] and [Map.prototype.set], in insertion order. *)
Definition Set_add (x : jsstring) (s : list jsstring) : list jsstring :=
  if bool_decide (x ∈ s) then s else s ++ [x].

Definition Map_set (k v : jsstring) (m : list (jsstring * jsstring))
  : list (jsstring * jsstring) :=
  if bool_decide (k ∈ map fst m)
  then map (fun kv => if bool_decide (fst kv = k) then (k, v) else kv) m
  else m ++ [(k, v)].

Record Ids := mkIds {
  groupIds : list jsstring;
  userIds : list (jsstring * jsstring)
}.

(** The loop of [extractIds]; a throw ends it and what was collected stays. *)
Fixpoint scan_events (events : list LineEvent) (acc : Ids) : Ids :=
  match events with
  | [] => acc
  | EventNull :: _ => acc
  | EventNoSource :: rest => scan_events rest acc
  | EventSource src :: rest =>
    let gid := default [] (LineSource.groupId src) in
    let uid := default [] (LineSource.userId src) in
    let acc :=
      if truthy (LineSource.groupId src)
      then mkIds (Set_add gid (groupIds acc))
                 (if truthy (LineSource.userId src) then Map_set uid gid (userIds acc)
                  else userIds acc)
      else if truthy (LineSource.userId src)
           then mkIds (groupIds acc) (Map_set uid [] (userIds acc))
           else acc in
    scan_events rest acc
  end.


(** What [scan_events] keeps true of the collections, and where what it
    adds comes from. *)
Definition ids_ok (events : list LineEvent) (ids : Ids) : Prop :=
  NoDup (groupIds ids) /\ NoDup (map fst (userIds ids))
  /\ (forall g, g ∈ groupIds ids ->
                g <> [] /\ exists src, EventSource src ∈ events
                                       /\ LineSource.groupId src = Some g)
  /\ (forall u g, (u, g) ∈ userIds ids ->
                  u <> [] /\ exists src, EventSource src ∈ events
                                         /\ LineSource.userId src = Some u
                                         /\ default [] (LineSource.groupId src) = g).

Section AutoAlias.

(** [JSON.parse(body).events ?? []]; [None] when that throws. *)
Variable parse_events : jsstring -> option (list LineEvent).

Variable line : jsstring -> jsstring -> LineOutcome.

(** The order in which the parallel lookups complete. *)
Variable completion : list (jsstring * jsstring) -> list (jsstring * jsstring).

(** The id the engine gives a new row of [aliases]. *)
Variable next_rowid : list Alias.t -> Z.

(** The reading of the clock at each insert. *)
Variable clock : nat -> Z.

Definition extractIds (body : jsstring) : Ids :=
  match parse_events body with
  | Some events => scan_events events (mkIds [] [])
  | None => mkIds [] []
  end.

Definition fetchGroupName (groupId token : jsstring) : option jsstring :=
  match line (line_group_url groupId) token with
  | LineOk name => name
  | _ => None
  end.

Definition fetchUserName (userId groupId token : jsstring) : option jsstring :=
  let url := if truthy (Some groupId) then line_member_url groupId userId
             else line_profile_url userId in
  match line url token with
  | LineOk name => name
  | _ => None
  end.

(** What the lookups push to [results], in the order they were started. *)
Definition lookups (unknownGroups : list jsstring)
           (unknownUsers : list (jsstring * jsstring)) (token : jsstring)
  : list (jsstring * jsstring) :=
  omap (fun gid => let name := fetchGroupName gid token in
                   if truthy name then Some (gid, default [] name) else None)
       unknownGroups
  ++ omap (fun '(uid, gid) => let name := fetchUserName uid gid token in
                              if truthy name then Some (uid, default [] name) else None)
          unknownUsers.

(** The loop of inserts, the [i]-th reading the clock at [clock i]. *)
Fixpoint insert_results (i : nat) (results : list (jsstring * jsstring)) (d : D1Database)
  : D1Database :=
  match results with
  | [] => d
  | (value, label) :: rest =>
    insert_results (S i) rest
      (upsert_alias (next_rowid (aliases d)) value label (JSDate.toISOString (clock i)) d)
  end.

(** auto-alias.ts, autoAlias *)
Definition autoAlias (d : D1Database) (body lineToken : jsstring) : D1Database :=
  let ids := extractIds body in
  if bool_decide (groupIds ids = []) && bool_decide (userIds ids = []) then d
  else
    let known := map Alias.value (aliases d) in
    let unknownGroups := filter (fun id => id ∉ known) (groupIds ids) in
    let unknownUsers := filter (fun kv => fst kv ∉ known) (userIds ids) in
    if bool_decide (unknownGroups = []) && bool_decide (unknownUsers = []) then d
    else
      let results := completion (lookups unknownGroups unknownUsers lineToken) in
      insert_results 0 results d.

End AutoAlias.

(** A body with one event from user [Ubeef] in group [C0ffee], as parsed. *)
Definition parse_one_event : jsstring -> option (list LineEvent) :=
  fun _ => Some [EventSource (LineSource.mk (Some (lit "C0ffee")) (Some (lit "Ubeef")))].

(** Row ids counted up from the largest in the table. *)
Definition count_up (rows : list Alias.t) : Z :=
  1 + foldr Z.max 0 (map Alias.id rows).

(** ** Vocabulary of the scheduling statements *)

(** The auto-alias tasks handed to [waitUntil] in a trace. *)
Definition scheduled_aliases (tr : list Event) : list Task :=
  filter (fun t => is_forward t = false) (scheduled tr).

(** A request with a JSON body. *)
Definition line_request : Request :=
  mkRequest [(lit "content-type", lit "application/json")] (lit "{}").

(** ** Vocabulary of the calendar statements *)

(** The date parameter [YYYY-MM] of a month. *)
Definition month_string (y m : Z) : jsstring :=
  JSDate.pad_dec 4 y ++ 45 :: JSDate.pad_dec 2 m.

(** The UTC+7 calendar date an instant falls on. *)
Definition local_date (t : Z) : Z * Z * Z :=
  JSDate.civil_from_days ((t + GMT7_OFFSET_MS) / JSDate.MS_PER_DAY).

(** The rows [/api/hits] lists under a date, any endpoint. *)
Definition listed_on (legacy : jsstring -> option Z) (y m d : Z) (now : Z)
           (db : D1Database) : list WebhookHit.t :=
  match day_window legacy (Some (date_string y m d)) now with
  | Some (fromISO, toISO) => select_hits db fromISO toISO None
  | None => []
  end.

(** A date within the range of four-digit years whose day window lies in
    that range as well. *)
Definition valid_date (y m d : Z) : Prop :=
  0 <= y <= 9999 /\ 1 <= m <= 12 /\ 1 <= d <= 31
  /\ four_digit_year (day_start y m d) /\ four_digit_year (day_start y m d + 86399999).

(** * Properties

    ** Known answers for the primitives *)

Example sha256_abc :
  hex_of_bytes (SHA256.hash (lit "abc"))
  = lit "ba7816bf8f01cfea414140de5dae2223b00361a396177a9cb410ff61f20015ad".
Proof. vm_compute. reflexivity. Qed.

Example hmac_rfc4231_case2 :
  hex_of_bytes (HMAC.sign (lit "Jefe") (lit "what do ya want for nothing?"))
  = lit "5bdcc146bf60754e6a042426089575c75a003f089d2739839dec58b964ec3843".
Proof. vm_compute. reflexivity. Qed.

Example token_line :
  generateWebhookToken (lit "line") (lit "admin:hunter2")
  = Some (lit "iLpI1jWqo23MHNM3dfan8Y01IIf7-qNyeHp3ySCQkNc").
Proof. vm_compute. reflexivity. Qed.

(** A non-ASCII id (U+00E9, then U+1F600 as a surrogate pair) under a
    210-byte secret (70 times U+0E01), which HMAC hashes first. *)
Example token_non_ascii :
  generateWebhookToken [0xE9; 0xD83D; 0xDE00] (repeat 0x0E01 70)
  = Some (lit "bKhGbqVsxnRGnhI_8iihQRJJhKwW0jrNvJKxRxVK3aE").
Proof. vm_compute. reflexivity. Qed.

(** ** Token codec *)

Section Base64Facts.

Lemma list_ind3 {A} (P : list A -> Prop) :
  P [] -> (forall a, P [a]) -> (forall a b, P [a; b]) ->
  (forall a b c l, P l -> P (a :: b :: c :: l)) ->
  forall l, P l.
Proof.
  intros H0 H1 H2 H3 l.
  assert (P l /\ (forall a, P (a :: l)) /\ (forall a b, P (a :: b :: l))) as [? _].
  { induction l as [|x l (IH0 & IH1 & IH2)]; [by auto|].
    split; [apply IH1|]. split; [intros a; apply IH2|]. intros a b. by apply H3. }
  done.
Qed.

Lemma land_byte_range x : 0 <= Z.land x 255 < 256.
Proof.
  change 255 with (Z.ones 8). rewrite Z.land_ones by lia.
  apply Z.mod_pos_bound. lia.
Qed.

Lemma land_ones_range x n : 0 <= n -> 0 <= Z.land x (Z.ones n) < 2 ^ n.
Proof.
  intros Hn. rewrite Z.land_ones by lia. apply Z.mod_pos_bound.
  by apply Z.pow_pos_nonneg.
Qed.

Lemma sextet1_nonneg a : 0 <= a -> 0 <= Base64.sextet1 a.
Proof. intros. unfold Base64.sextet1. by apply Z.shiftr_nonneg. Qed.

Lemma sextet2_nonneg a b : 0 <= b -> 0 <= Base64.sextet2 a b.
Proof.
  intros. unfold Base64.sextet2. apply Z.lor_nonneg. split.
  - apply Z.shiftl_nonneg. change 3 with (Z.ones 2).
    pose proof (land_ones_range a 2). lia.
  - by apply Z.shiftr_nonneg.
Qed.

Lemma sextet3_nonneg b c : 0 <= c -> 0 <= Base64.sextet3 b c.
Proof.
  intros. unfold Base64.sextet3. apply Z.lor_nonneg. split.
  - apply Z.shiftl_nonneg. change 15 with (Z.ones 4).
    pose proof (land_ones_range b 4). lia.
  - by apply Z.shiftr_nonneg.
Qed.

Lemma sextet4_nonneg c : 0 <= Base64.sextet4 c.
Proof.
  unfold Base64.sextet4. change 63 with (Z.ones 6).
  pose proof (land_ones_range c 6). lia.
Qed.

(** No character of the standard alphabet is the padding character, and
    the two replacements turn it into the URL-safe one. *)
Lemma char_not_pad i : 0 <= i -> Base64.char i <> Base64.pad_char.
Proof.
  intros Hi. unfold Base64.char, Base64.pad_char.
  repeat case_match; lia.
Qed.

Lemma to_url_char i : 0 <= i -> to_url (Base64.char i) = Base64.url_char i.
Proof.
  intros Hi. unfold to_url, Base64.char, Base64.url_char.
  repeat case_match; lia.
Qed.

Lemma url_char_not_pad i : 0 <= i -> Base64.url_char i <> Base64.pad_char.
Proof.
  intros Hi. unfold Base64.url_char, Base64.pad_char.
  repeat case_match; lia.
Qed.

Lemma to_url_pad : to_url Base64.pad_char = Base64.pad_char.
Proof. reflexivity. Qed.

Lemma replace_all_to_url s :
  replace_all 47 95 (replace_all 43 45 s) = map to_url s.
Proof. unfold replace_all. rewrite map_map. reflexivity. Qed.

Lemma strip_cons c s :
  c <> Base64.pad_char -> strip_trailing_pad (c :: s) = c :: strip_trailing_pad s.
Proof.
  intros Hc. unfold strip_trailing_pad at 1. simpl.
  destruct (Z.eqb_spec c Base64.pad_char) as [->|_]; [done|]. reflexivity.
Qed.

Lemma strip_pad_only n : strip_trailing_pad (repeat Base64.pad_char n) = [].
Proof.
  induction n as [|n IH]; [reflexivity|].
  unfold strip_trailing_pad in *. simpl. rewrite IH. reflexivity.
Qed.

(** The three string replacements of the source turn padded standard
    Base64 into unpadded base64url. *)
Lemma btoa_url_nopad bs :
  Forall (fun b => 0 <= b) bs ->
  strip_trailing_pad (map to_url (Base64.btoa bs)) = Base64.base64url_nopad bs.
Proof.
  induction bs as [|a|a b|a b c l IH] using list_ind3; intros Hb.
  - reflexivity.
  - apply Forall_cons in Hb as [Ha _].
    cbn [Base64.btoa Base64.base64url_nopad map].
    rewrite !to_url_char by auto using sextet1_nonneg, sextet2_nonneg with lia.
    rewrite !strip_cons by auto using url_char_not_pad, sextet1_nonneg, sextet2_nonneg with lia.
    reflexivity.
  - apply Forall_cons in Hb as [Ha Hb]. apply Forall_cons in Hb as [Hb _].
    cbn [Base64.btoa Base64.base64url_nopad map].
    rewrite !to_url_char
      by auto using sextet1_nonneg, sextet2_nonneg, sextet3_nonneg with lia.
    rewrite !strip_cons
      by auto using url_char_not_pad, sextet1_nonneg, sextet2_nonneg, sextet3_nonneg with lia.
    reflexivity.
  - apply Forall_cons in Hb as [Ha Hb]. apply Forall_cons in Hb as [Hb Hc].
    apply Forall_cons in Hc as [Hc Hl].
    cbn [Base64.btoa Base64.base64url_nopad map].
    rewrite !to_url_char
      by auto using sextet1_nonneg, sextet2_nonneg, sextet3_nonneg, sextet4_nonneg.
    rewrite !strip_cons
      by auto using url_char_not_pad, sextet1_nonneg, sextet2_nonneg, sextet3_nonneg,
                    sextet4_nonneg.
    by rewrite IH.
Qed.

(** A digest is made of octets, whatever the input. *)
Lemma word_bytes_range w : Forall is_byte (SHA256.word_bytes w).
Proof. unfold SHA256.word_bytes. repeat constructor; apply land_byte_range. Qed.

Lemma digest_bytes_range s : Forall is_byte (SHA256.digest_bytes s).
Proof. unfold SHA256.digest_bytes. repeat apply Forall_app_2; apply word_bytes_range. Qed.

Lemma digest_bytes_length s : length (SHA256.digest_bytes s) = 32%nat.
Proof. reflexivity. Qed.

Lemma hmac_sign_range key msg : Forall is_byte (HMAC.sign key msg).
Proof. unfold HMAC.sign, SHA256.hash. apply digest_bytes_range. Qed.

Lemma hmac_sign_length key msg : length (HMAC.sign key msg) = 32%nat.
Proof. unfold HMAC.sign, SHA256.hash. apply digest_bytes_length. Qed.

End Base64Facts.

(** A string that is not empty has bytes. *)
Lemma encode_nonempty c s : TextEncoder.encode (c :: s) <> [].
Proof.
  assert (Hcp : forall cp rest, TextEncoder.encode_code_point cp ++ rest <> []).
  { intros cp rest. unfold TextEncoder.encode_code_point. by repeat case_match. }
  cbn [TextEncoder.encode]. repeat case_match; try apply Hcp.
  specialize (Hcp 0xFFFD []). by rewrite app_nil_r in Hcp.
Qed.

Lemma importKey_nonempty secret :
  secret <> [] -> importKey (TextEncoder.encode secret) = Some (TextEncoder.encode secret).
Proof.
  destruct secret as [|c s]; [done|]. intros _.
  pose proof (encode_nonempty c s) as Hne. by destruct (TextEncoder.encode (c :: s)).
Qed.

Lemma generateWebhookToken_spec id secret :
  secret <> [] -> generateWebhookToken id secret = Some (issue_spec id secret).
Proof.
  intros Hne. unfold generateWebhookToken, issue_spec.
  rewrite importKey_nonempty by done. cbv zeta. f_equal.
  rewrite replace_all_to_url. apply btoa_url_nopad.
  eapply Forall_impl; [apply hmac_sign_range|]. unfold is_byte. intros; lia.
Qed.

(** With the empty secret the key is refused, and neither function
    returns. *)
Lemma empty_secret_rejects id token :
  generateWebhookToken id [] = None /\ verifyWebhookToken id token [] = None.
Proof. split; reflexivity. Qed.

Lemma verifyWebhookToken_spec id token secret :
  secret <> [] ->
  verifyWebhookToken id token secret = Some (bool_decide (token = issue_spec id secret)).
Proof.
  intros Hne. unfold verifyWebhookToken. by rewrite generateWebhookToken_spec.
Qed.

Lemma verifyWebhookToken_true id token secret :
  secret <> [] ->
  verifyWebhookToken id token secret = Some true
  <-> generateWebhookToken id secret = Some token.
Proof.
  intros Hne. rewrite verifyWebhookToken_spec, generateWebhookToken_spec by done.
  split.
  - intros [= H]. apply bool_decide_eq_true in H. by subst.
  - intros [= <-]. by rewrite bool_decide_eq_true_2.
Qed.

Lemma verifyWebhookToken_false id token secret :
  secret <> [] ->
  verifyWebhookToken id token secret = Some false
  <-> generateWebhookToken id secret <> Some token.
Proof.
  intros Hne. rewrite verifyWebhookToken_spec, generateWebhookToken_spec by done.
  split.
  - intros [= H]. apply bool_decide_eq_false in H. congruence.
  - intros H. f_equal. apply bool_decide_eq_false. congruence.
Qed.

(** C1, as the code has it.  For a secret that is not empty, the token
    issued for an endpoint is the unpadded base64url of
    HMAC-SHA256(key = secret, message = endpointId) and verifies; every other
    token is rejected, in particular the issued token with one character
    changed.  No token is issued without a result and none is verified
    without one. *)
Theorem token_issue_verify (endpointId secret : jsstring) :
  secret <> [] ->
  generateWebhookToken endpointId secret = Some (issue_spec endpointId secret)
  /\ verifyWebhookToken endpointId (issue_spec endpointId secret) secret = Some true
  /\ (forall t, t <> issue_spec endpointId secret ->
                verifyWebhookToken endpointId t secret = Some false)
  /\ (forall (i : nat) (c c' : Z),
         issue_spec endpointId secret !! i = Some c -> c' <> c ->
         verifyWebhookToken endpointId
           (<[i := c']> (issue_spec endpointId secret)) secret = Some false).
Proof.
  intros Hne. pose proof (generateWebhookToken_spec endpointId secret Hne) as Hissue.
  split; [done|].
  split; [by apply verifyWebhookToken_true|].
  split; [intros t Ht; apply verifyWebhookToken_false; [done|congruence]|].
  intros i c c' Hi Hc. apply verifyWebhookToken_false; [done|].
  rewrite Hissue. intros [= Heq].
  apply (f_equal (fun l : list Z => l !! i)) in Heq. cbv beta in Heq.
  rewrite list_lookup_insert_eq in Heq by (by eapply lookup_lt_Some).
  congruence.
Qed.

Lemma token_issue_verify_witness :
  generateWebhookToken (lit "line") (lit "admin:hunter2")
  = Some (issue_spec (lit "line") (lit "admin:hunter2"))
  /\ verifyWebhookToken (lit "line") (lit "iLpI1jWqo23MHNM3dfan8Y01IIf7-qNyeHp3ySCQkNd")
                        (lit "admin:hunter2") = Some false.
Proof.
  pose proof (token_issue_verify (lit "line") (lit "admin:hunter2") ltac:(discriminate))
    as (Hissue & _ & Hother & _).
  split; [exact Hissue|].
  apply Hother. intros Heq.
  assert (Htoken : issue_spec (lit "line") (lit "admin:hunter2")
                   = lit "iLpI1jWqo23MHNM3dfan8Y01IIf7-qNyeHp3ySCQkNc")
    by (vm_compute; reflexivity).
  rewrite Htoken in Heq. discriminate Heq.
Defined.

(** C1 as stated fails for the empty secret: the key import refuses a key
    of length zero, so no token is issued and no token verifies. *)
Lemma empty_secret_issues_nothing :
  generateWebhookToken (lit "line") [] = None
  /\ verifyWebhookToken (lit "line") (lit "iLpI1jWqo23MHNM3dfan8Y01IIf7-qNyeHp3ySCQkNc") []
     = None
  /\ verifyWebhookToken (lit "line") [] [] <> Some true.
Proof. repeat split; [reflexivity..|discriminate]. Qed.

(** ** Traces *)

Section TraceFacts.

Lemma scheduled_snoc tr e :
  scheduled (tr ++ [e])
  = scheduled tr ++ match e with EvWaitUntil t => [t] | _ => [] end.
Proof. unfold scheduled. rewrite omap_app. by destruct e. Qed.

Lemma scheduled_forwards_snoc tr e :
  scheduled_forwards (tr ++ [e])
  = scheduled_forwards tr
    ++ match e with
       | EvWaitUntil (TForward h u b hs) => [TForward h u b hs]
       | _ => []
       end.
Proof.
  unfold scheduled_forwards. rewrite scheduled_snoc, filter_app.
  destruct e as [|[]|]; by rewrite ?app_nil_r.
Qed.

Lemma outbound_snoc tr e :
  outbound (tr ++ [e]) = outbound tr ++ match e with EvFetch r => [r] | _ => [] end.
Proof. unfold outbound. rewrite omap_app. by destruct e. Qed.

Lemma body_reads_snoc tr e :
  body_reads (tr ++ [e])
  = (body_reads tr + match e with EvReadBody => 1 | _ => 0 end)%nat.
Proof.
  unfold body_reads. rewrite filter_app, length_app. by destruct e.
Qed.

Lemma body_reads_app tr1 tr2 :
  body_reads (tr1 ++ tr2) = (body_reads tr1 + body_reads tr2)%nat.
Proof. unfold body_reads. by rewrite filter_app, length_app. Qed.

Lemma scheduled_forwards_app tr1 tr2 :
  scheduled_forwards (tr1 ++ tr2) = scheduled_forwards tr1 ++ scheduled_forwards tr2.
Proof. unfold scheduled_forwards, scheduled. by rewrite omap_app, filter_app. Qed.

Lemma outbound_app tr1 tr2 : outbound (tr1 ++ tr2) = outbound tr1 ++ outbound tr2.
Proof. unfold outbound. by rewrite omap_app. Qed.

End TraceFacts.

(** ** Receive pipeline *)

(** The token gate of the three receive handlers. *)
Lemma gate_rejects env id token :
  (if truthy (API_TOKEN env)
   then verifyWebhookToken id token (default [] (API_TOKEN env))
   else Some true) = Some false
  <-> exists secret, API_TOKEN env = Some secret /\ secret <> []
                     /\ verifyWebhookToken id token secret = Some false.
Proof.
  destruct (API_TOKEN env) as [[|c s]|]; cbn [truthy from_option Datatypes.id]; split;
    try discriminate; try (intros (? & ? & ? & ?); congruence); eauto.
Qed.

(** The gate never lets a handler throw: the secret it verifies against is
    not empty. *)
Lemma gate_accepts env id token :
  ~ (exists secret, API_TOKEN env = Some secret /\ secret <> []
                    /\ verifyWebhookToken id token secret = Some false) ->
  (if truthy (API_TOKEN env)
   then verifyWebhookToken id token (default [] (API_TOKEN env))
   else Some true) = Some true.
Proof.
  intros Hacc.
  destruct (API_TOKEN env) as [[|c s]|] eqn:Hs; cbn [truthy from_option Datatypes.id];
    try done.
  rewrite verifyWebhookToken_spec by done.
  destruct (bool_decide _) eqn:Hb; [done|]. exfalso. apply Hacc. exists (c :: s).
  split; [done|]. split; [done|]. by rewrite verifyWebhookToken_spec, Hb.
Qed.

Lemma post_w_rejected env id token request now elapsed w secret :
  API_TOKEN env = Some secret -> secret <> [] ->
  verifyWebhookToken id token secret = Some false ->
  post_w env id token request now elapsed w
  = (c_json (error_body "Invalid webhook token") 401, w).
Proof.
  intros Hs Hne Hv. unfold post_w.
  rewrite (proj2 (gate_rejects env id token)) by eauto. reflexivity.
Qed.

(** What an accepted raw request does: the acknowledgment, the row it
    writes unless the rule says otherwise, the events it adds. *)
Lemma post_w_accepted env id token request now elapsed w :
  ~ (exists secret, API_TOKEN env = Some secret /\ secret <> []
                    /\ verifyWebhookToken id token secret = Some false) ->
  post_w env id token request now elapsed w
  = (c_json (ack_envelope id (JSDate.toISOString now) elapsed) 200,
     mkWorld (if persist_is_false (getForwardRule (db w) id) then db w
              else (recordHit (db w) (raw_hit id request now elapsed)).2)
             (trace w ++ raw_events env id request (db w))).
Proof.
  intros Hacc. unfold post_w.
  rewrite (gate_accepts _ _ _ Hacc).
  unfold raw_events, receive_hitId, ack_envelope, raw_hit, emit, with_db. cbn [db trace].
  destruct (persist_is_false _); cbn [recordHit db trace fst snd];
    destruct (wants_forward _); cbn [db trace];
    destruct (bool_decide _ && truthy _); cbn [db trace];
    rewrite <- ?app_assoc; reflexivity.
Qed.

Ltac receive_cases :=
  unfold tagged_events, raw_events, receive_hitId, emit, with_db; cbn [db trace];
  destruct (persist_is_false _); cbn [recordHit db trace fst snd];
  destruct (wants_forward _); cbn [db trace];
  rewrite <- ?app_assoc.

Lemma post_w_suffix_rejected env id token suffix request now elapsed w secret :
  API_TOKEN env = Some secret -> secret <> [] ->
  verifyWebhookToken id token secret = Some false ->
  post_w_suffix env id token suffix request now elapsed w
  = (c_json (error_body "Invalid webhook token") 401, w).
Proof.
  intros Hs Hne Hv. unfold post_w_suffix.
  rewrite (proj2 (gate_rejects env id token)) by eauto. reflexivity.
Qed.

Lemma post_w_suffix_accepted env id token suffix request now elapsed w :
  ~ (exists secret, API_TOKEN env = Some secret /\ secret <> []
                    /\ verifyWebhookToken id token secret = Some false) ->
  (post_w_suffix env id token suffix request now elapsed w).2
  = mkWorld (if persist_is_false (getForwardRule (db w) id) then db w
             else (recordHit (db w) (suffix_hit id suffix request now elapsed)).2)
            (trace w ++ tagged_events id request (db w)).
Proof.
  intros Hacc. unfold post_w_suffix.
  rewrite (gate_accepts _ _ _ Hacc).
  unfold suffix_hit. receive_cases; reflexivity.
Qed.

Section GitHubFacts.

Variable parseGitHubEvent : jsstring -> jsstring -> option jsstring.

Lemma post_w_github_rejected env id token request now elapsed w secret :
  API_TOKEN env = Some secret -> secret <> [] ->
  verifyWebhookToken id token secret = Some false ->
  post_w_github parseGitHubEvent env id token request now elapsed w
  = (c_json (error_body "Invalid webhook token") 401, w).
Proof.
  intros Hs Hne Hv. unfold post_w_github.
  rewrite (proj2 (gate_rejects env id token)) by eauto. reflexivity.
Qed.

Lemma post_w_github_accepted env id token request now elapsed w :
  ~ (exists secret, API_TOKEN env = Some secret /\ secret <> []
                    /\ verifyWebhookToken id token secret = Some false) ->
  exists row,
    (post_w_github parseGitHubEvent env id token request now elapsed w).2
    = mkWorld (if persist_is_false (getForwardRule (db w) id) then db w
               else (recordHit (db w) row).2)
              (trace w ++ tagged_events id request (db w)).
Proof.
  intros Hacc. unfold post_w_github.
  rewrite (gate_accepts _ _ _ Hacc).
  eexists (NewWebhookHit.mk id (Some (lit "/github")) (JSDate.toISOString now) elapsed
             (js_length (text request)) (Some _)).
  receive_cases; reflexivity.
Qed.

End GitHubFacts.

Lemma raw_events_body_reads env id request d :
  body_reads (raw_events env id request d) = 1%nat.
Proof.
  unfold raw_events. by destruct (wants_forward _), (bool_decide _ && truthy _).
Qed.

(** Whether the gate lets a request through is decidable, so every request
    is either rejected or accepted. *)
Lemma gate_decides env id token :
  (exists secret, API_TOKEN env = Some secret /\ secret <> []
                  /\ verifyWebhookToken id token secret = Some false)
  \/ ~ (exists secret, API_TOKEN env = Some secret /\ secret <> []
                       /\ verifyWebhookToken id token secret = Some false).
Proof.
  destruct (if truthy (API_TOKEN env)
            then verifyWebhookToken id token (default [] (API_TOKEN env))
            else Some true) as [[|]|] eqn:Hgate.
  - right. intros H%gate_rejects. congruence.
  - left. by apply gate_rejects.
  - right. intros H%gate_rejects. congruence.
Qed.

(** C2. A request whose token does not verify under the configured secret
    gets 401 with an error and leaves the world as it was: the body is not
    read, no Hit is written, no forward is scheduled.  Every other request
    gets 200 with the envelope [{ok, endpoint, received_at, response_ms}]. *)
Theorem post_w_gate env id token request now elapsed w :
  (forall secret,
      API_TOKEN env = Some secret -> secret <> [] ->
      verifyWebhookToken id token secret = Some false ->
      let r := post_w env id token request now elapsed w in
      status r.1 = 401
      /\ payload r.1 = error_body "Invalid webhook token"
      /\ body_reads (trace r.2) = body_reads (trace w)
      /\ webhook_hits (db r.2) = webhook_hits (db w)
      /\ scheduled_forwards (trace r.2) = scheduled_forwards (trace w)
      /\ r.2 = w)
  /\ (~ (exists secret, API_TOKEN env = Some secret /\ secret <> []
                        /\ verifyWebhookToken id token secret = Some false) ->
      let r := post_w env id token request now elapsed w in
      status r.1 = 200
      /\ payload r.1 = ack_envelope id (JSDate.toISOString now) elapsed
      /\ body_reads (trace r.2) = S (body_reads (trace w))).
Proof.
  split.
  - intros secret Hs Hne Hv r. subst r.
    rewrite (post_w_rejected _ _ _ _ _ _ _ secret) by done. cbn. done.
  - intros Hacc r. subst r. rewrite post_w_accepted by done.
    cbn [fst snd status payload c_json trace]. split; [done|]. split; [done|].
    rewrite body_reads_app, raw_events_body_reads. lia.
Qed.

Lemma post_w_gate_witness :
  status (post_w sample_env (lit "line") (lit "bogus") sample_request sample_now 3
                 empty_world).1 = 401
  /\ status (post_w sample_env (lit "line") sample_token sample_request sample_now 3
                    empty_world).1 = 200.
Proof.
  split.
  - apply (proj1 (post_w_gate sample_env (lit "line") (lit "bogus") sample_request
                    sample_now 3 empty_world) sample_secret).
    + reflexivity.
    + discriminate.
    + vm_compute. reflexivity.
  - apply (proj2 (post_w_gate sample_env (lit "line") sample_token sample_request
                    sample_now 3 empty_world)).
    intros (secret & Hs & _ & Hv). injection Hs as <-.
    assert (Hok : verifyWebhookToken (lit "line") sample_token sample_secret = Some true)
      by (vm_compute; reflexivity).
    congruence.
Defined.

Lemma wants_forward_iff rule :
  wants_forward rule = true
  <-> exists r, rule = Some r /\ ForwardRule.enabled r = true
                /\ ForwardRule.forward_url r <> [].
Proof.
  unfold wants_forward. destruct rule as [r|].
  - rewrite andb_true_iff. split.
    + intros [He Hu]. exists r. repeat split; [done|].
      intros Hnil. rewrite Hnil in Hu. discriminate.
    + intros (r' & [= <-] & He & Hu). split; [done|].
      by destruct (ForwardRule.forward_url r).
  - split; [discriminate|]. by intros (r & ? & _).
Qed.

Lemma executeForward_null_db net elapsed forwardUrl body originalHeaders w :
  db (executeForward net elapsed None forwardUrl body originalHeaders w) = db w.
Proof. unfold executeForward. by destruct (net _). Qed.

(** With [persist = false] the id handed on is null, and the events of a
    request schedule a forward with no other id. *)
Lemma receive_hitId_null d id r :
  getForwardRule d id = Some r -> ForwardRule.persist r = false ->
  receive_hitId d id = None.
Proof. intros Hr Hp. unfold receive_hitId. rewrite Hr. cbn. by rewrite Hp. Qed.

Lemma tagged_events_forward id request d hitId u b hs :
  TForward hitId u b hs ∈ scheduled (tagged_events id request d) ->
  hitId = receive_hitId d id.
Proof.
  unfold tagged_events. destruct (wants_forward _); cbn.
  - intros [=]%list_elem_of_singleton. done.
  - intros H. by apply not_elem_of_nil in H.
Qed.

Lemma raw_events_forward env id request d hitId u b hs :
  TForward hitId u b hs ∈ scheduled (raw_events env id request d) ->
  hitId = receive_hitId d id.
Proof.
  unfold raw_events.
  destruct (wants_forward _), (bool_decide _ && truthy _); cbn;
    rewrite ?elem_of_cons, ?elem_of_nil; intros Hin; by intuition simplify_eq.
Qed.

(** C3. When the endpoint's rule has [persist = false], none of the three
    receive pipelines writes a Hit, whatever [enabled] is: the store is as
    before, any forward it schedules carries a null hit id, and the forward
    executor run with a null id records nothing. *)
Theorem persist_false_writes_nothing
        (parseGitHubEvent : jsstring -> jsstring -> option jsstring)
        env id token suffix request now elapsed w r w' :
  getForwardRule (db w) id = Some r ->
  ForwardRule.persist r = false ->
  w' = (post_w env id token request now elapsed w).2
  \/ w' = (post_w_suffix env id token suffix request now elapsed w).2
  \/ w' = (post_w_github parseGitHubEvent env id token request now elapsed w).2 ->
  db w' = db w
  /\ webhook_hits (db w') = webhook_hits (db w)
  /\ (exists new, trace w' = trace w ++ new
                  /\ forall hitId u b hs,
                       TForward hitId u b hs ∈ scheduled new -> hitId = None)
  /\ (forall net el u b hs,
        db (executeForward net el None u b hs w') = db w).
Proof.
  intros Hr Hp Hw'.
  assert (Hnull : receive_hitId (db w) id = None) by by eapply receive_hitId_null.
  assert (Hpf : persist_is_false (getForwardRule (db w) id) = true)
    by (rewrite Hr; cbn; by rewrite Hp).
  assert (db w' = db w
          /\ exists new, trace w' = trace w ++ new
               /\ forall hitId u b hs,
                    TForward hitId u b hs ∈ scheduled new -> hitId = None)
    as (Hdb & Htr).
  { destruct (gate_decides env id token) as [(secret & Hs & Hne & Hv)|Hacc].
    - assert (w' = w) as ->.
      { destruct Hw' as [->|[->| ->]].
        + by erewrite post_w_rejected.
        + by erewrite post_w_suffix_rejected.
        + by erewrite post_w_github_rejected. }
      split; [done|]. exists []. rewrite app_nil_r. split; [done|].
      intros ???? H. by apply not_elem_of_nil in H.
    - destruct Hw' as [->|[->| ->]].
      + rewrite post_w_accepted by done. cbn [snd db trace]. rewrite Hpf.
        split; [done|]. eexists; split; [done|]. intros ???? H.
        apply raw_events_forward in H. congruence.
      + rewrite post_w_suffix_accepted by done. cbn [snd db trace]. rewrite Hpf.
        split; [done|]. eexists; split; [done|]. intros ???? H.
        apply tagged_events_forward in H. congruence.
      + destruct (post_w_github_accepted parseGitHubEvent env id token request now
                    elapsed w Hacc) as [row ->].
        cbn [snd db trace]. rewrite Hpf.
        split; [done|]. eexists; split; [done|]. intros ???? H.
        apply tagged_events_forward in H. congruence. }
  split; [done|]. split; [by rewrite Hdb|]. split; [done|].
  intros. by rewrite executeForward_null_db.
Qed.

Lemma persist_false_writes_nothing_witness :
  webhook_hits
    (db (post_w open_env (lit "line") (lit "any") sample_request sample_now 3 quiet_world).2)
  = [].
Proof.
  apply (proj1 (proj2
    (persist_false_writes_nothing (fun _ _ => None) open_env (lit "line") (lit "any") []
       sample_request sample_now 3 quiet_world quiet_rule _
       eq_refl eq_refl (or_introl eq_refl)))).
Defined.

(** ** Stored body *)

Lemma encode_ascii s : Forall is_ascii s -> TextEncoder.encode s = s.
Proof.
  induction 1 as [|c s Hc _ IH]; [reflexivity|].
  unfold is_ascii in Hc. cbn [TextEncoder.encode].
  assert (TextEncoder.is_high_surrogate c = false) as ->
    by (unfold TextEncoder.is_high_surrogate; lia).
  assert (TextEncoder.is_low_surrogate c = false) as ->
    by (unfold TextEncoder.is_low_surrogate; lia).
  unfold TextEncoder.encode_code_point.
  assert ((c <? 128) = true) as -> by lia. cbn. by rewrite IH.
Qed.

Lemma jsstring_pair_ind (P : jsstring -> Prop) :
  P [] -> (forall c, P [c]) ->
  (forall c d s, P s -> P (d :: s) -> P (c :: d :: s)) ->
  forall s, P s.
Proof.
  intros Hnil Hone Hstep s.
  assert (H : P s /\ forall c, P (c :: s)); [|by destruct H].
  induction s as [|d s [IH1 IH2]]; [by split|].
  split; [apply IH2|]. intros c. apply Hstep; [done|apply IH2].
Qed.

Lemma D1_text_cons c rest :
  D1_text (c :: rest)
  = if TextEncoder.is_high_surrogate c then
      match rest with
      | d :: rest' =>
        if TextEncoder.is_low_surrogate d then c :: d :: D1_text rest'
        else REPLACED ++ D1_text rest
      | [] => REPLACED
      end
    else if TextEncoder.is_low_surrogate c then REPLACED ++ D1_text rest
    else c :: D1_text rest.
Proof. reflexivity. Qed.

Lemma well_formed_cons c rest :
  well_formed (c :: rest)
  = if TextEncoder.is_high_surrogate c then
      match rest with
      | d :: rest' => TextEncoder.is_low_surrogate d && well_formed rest'
      | [] => false
      end
    else negb (TextEncoder.is_low_surrogate c) && well_formed rest.
Proof. reflexivity. Qed.

(** A well-formed string is read back as written. *)
Lemma D1_text_wf s : well_formed s = true -> D1_text s = s.
Proof.
  induction s as [|c|c d s IH1 IH2] using jsstring_pair_ind.
  - done.
  - cbn. destruct (TextEncoder.is_high_surrogate c); [done|].
    by destruct (TextEncoder.is_low_surrogate c).
  - rewrite (well_formed_cons c), (D1_text_cons c).
    destruct (TextEncoder.is_high_surrogate c).
    + destruct (TextEncoder.is_low_surrogate d); [|done].
      cbn [andb]. intros H. by rewrite IH1.
    + destruct (TextEncoder.is_low_surrogate c); [done|].
      cbn [negb andb]. intros H. by rewrite IH2.
Qed.

Lemma well_formed_app a b :
  well_formed a = true -> well_formed (a ++ b) = well_formed b.
Proof.
  induction a as [|c|c d s IH1 IH2] using jsstring_pair_ind.
  - done.
  - cbn. destruct (TextEncoder.is_high_surrogate c); [done|].
    by destruct (TextEncoder.is_low_surrogate c).
  - cbn [app]. rewrite (well_formed_cons c (d :: s)), (well_formed_cons c (d :: s ++ b)).
    destruct (TextEncoder.is_high_surrogate c).
    + destruct (TextEncoder.is_low_surrogate d); [|done]. cbn [andb]. apply IH1.
    + destruct (TextEncoder.is_low_surrogate c); [done|]. cbn [negb andb]. apply IH2.
Qed.

Lemma D1_text_app a b :
  well_formed a = true -> D1_text (a ++ b) = a ++ D1_text b.
Proof.
  induction a as [|c|c d s IH1 IH2] using jsstring_pair_ind.
  - done.
  - cbn [well_formed]. destruct (TextEncoder.is_high_surrogate c) eqn:Hh; [done|].
    destruct (TextEncoder.is_low_surrogate c) eqn:Hl; [done|]. intros _.
    cbn [app D1_text]. by rewrite Hh, Hl.
  - cbn [app]. rewrite (well_formed_cons c (d :: s)), (D1_text_cons c (d :: s ++ b)).
    destruct (TextEncoder.is_high_surrogate c).
    + destruct (TextEncoder.is_low_surrogate d); [|done]. cbn [andb].
      intros H. by rewrite IH1.
    + destruct (TextEncoder.is_low_surrogate c); [done|]. cbn [negb andb].
      intros H. f_equal. by apply IH2.
Qed.

(** A prefix of a well-formed string is well formed, unless it ends on the
    first half of a pair. *)
Lemma take_well_formed s :
  well_formed s = true ->
  forall n,
    well_formed (take n s) = true
    \/ exists pre c, take n s = pre ++ [c] /\ well_formed pre = true
                     /\ TextEncoder.is_high_surrogate c = true
                     /\ n = S (length pre) /\ (n < length s)%nat.
Proof.
  induction s as [|c|c d s IH1 IH2] using jsstring_pair_ind.
  - intros _ n. left. by destruct n.
  - intros H [|n]; left; [done|]. by destruct n.
  - rewrite (well_formed_cons c (d :: s)).
    destruct (TextEncoder.is_high_surrogate c) eqn:Hh.
    + destruct (TextEncoder.is_low_surrogate d) eqn:Hl; [|done]. cbn [andb].
      intros Hs [|[|n]].
      * by left.
      * right. exists [], c. cbn. repeat split; try done. lia.
      * destruct (IH1 Hs n) as [Hw|(pre & e & Hpre & Hw & He & Hn & Hlt)].
        -- left. cbn [take]. rewrite well_formed_cons. by rewrite Hh, Hl.
        -- right. exists (c :: d :: pre), e. cbn [take app length].
           rewrite (well_formed_cons c (d :: pre)).
           rewrite Hh, Hl, Hpre. cbn [length] in Hlt. repeat split; try done; lia.
    + destruct (TextEncoder.is_low_surrogate c) eqn:Hl; [done|]. cbn [negb andb].
      intros Hs [|n]; [by left|].
      destruct (IH2 Hs n) as [Hw|(pre & e & Hpre & Hw & He & Hn & Hlt)].
      * left. change (take (S n) (c :: d :: s)) with (c :: take n (d :: s)).
        rewrite well_formed_cons. by rewrite Hh, Hl.
      * right. exists (c :: pre), e.
        change (take (S n) (c :: d :: s)) with (c :: take n (d :: s)).
        rewrite Hpre. cbn [app length]. rewrite (well_formed_cons c pre), Hh, Hl.
        cbn [length] in Hlt. repeat split; try done; lia.
Qed.

Lemma D1_text_cut pre c :
  well_formed pre = true -> TextEncoder.is_high_surrogate c = true ->
  D1_text (pre ++ [c]) = pre ++ REPLACED /\ well_formed (pre ++ [c]) = false.
Proof.
  intros Hw Hc. rewrite D1_text_app, well_formed_app by done. cbn. by rewrite Hc.
Qed.

Lemma ascii_well_formed s : Forall is_ascii s -> well_formed s = true.
Proof.
  induction 1 as [|c s Hc _ IH]; [done|].
  unfold is_ascii in Hc. cbn [well_formed].
  assert (TextEncoder.is_high_surrogate c = false) as ->
    by (unfold TextEncoder.is_high_surrogate; lia).
  assert (TextEncoder.is_low_surrogate c = false) as ->
    by (unfold TextEncoder.is_low_surrogate; lia).
  done.
Qed.

(** What the store gives back for the first [n] code units of a well-formed
    text. *)
Lemma D1_text_take s n :
  well_formed s = true ->
  (well_formed (take n s) = true /\ D1_text (take n s) = take n s)
  \/ (exists pre c, take n s = pre ++ [c] /\ well_formed pre = true
                    /\ TextEncoder.is_high_surrogate c = true
                    /\ n = S (length pre) /\ (n < length s)%nat
                    /\ well_formed (take n s) = false
                    /\ D1_text (take n s) = pre ++ REPLACED).
Proof.
  intros Hs. destruct (take_well_formed s Hs n) as [Hw|(pre & c & Hpre & Hw & Hc & Hn & Hlt)].
  - left. split; [done|]. by apply D1_text_wf.
  - right. exists pre, c. destruct (D1_text_cut pre c Hw Hc) as [H1 H2].
    rewrite Hpre. by repeat split.
Qed.

Lemma D1_text_length s :
  well_formed s = true -> forall n, (length (D1_text (take n s)) <= n + 2)%nat.
Proof.
  intros Hs n. destruct (D1_text_take s n Hs) as [[_ ->]|(pre & c & _ & _ & _ & Hn & _ & _ & ->)].
  - rewrite length_take. lia.
  - rewrite length_app. cbn. lia.
Qed.

Lemma recordHit_hits d hit :
  webhook_hits (recordHit d hit).2
  = webhook_hits d
    ++ [WebhookHit.mk (webhook_hits_seq d + 1) (NewWebhookHit.endpoint hit)
          (NewWebhookHit.suffix hit) (NewWebhookHit.received_at hit)
          (NewWebhookHit.response_ms hit) (NewWebhookHit.body_length hit)
          (D1_text <$> NewWebhookHit.body hit) None None None].
Proof. reflexivity. Qed.

(** C7, as the code has it.  The row an accepted raw request stores holds
    what the TEXT column gives back for the first 4096 UTF-16 code units of
    the request text, and [body_length] is the number of code units of the
    whole text.  The stored body is those 4096 code units themselves unless
    the cut falls inside a surrogate pair; then it is the first 4095 code
    units followed by three U+FFFD, 4098 code units in all.  For ASCII text
    these are the first 4096 bytes and the byte length. *)
Theorem stored_body_is_code_unit_prefix env id token request now elapsed w :
  ~ (exists secret, API_TOKEN env = Some secret /\ secret <> []
                    /\ verifyWebhookToken id token secret = Some false) ->
  persist_is_false (getForwardRule (db w) id) = false ->
  exists h,
    webhook_hits (db (post_w env id token request now elapsed w).2)
    = webhook_hits (db w) ++ [h]
    /\ WebhookHit.body h = Some (D1_text (take 4096 (text request)))
    /\ WebhookHit.body_length h = Z.of_nat (length (text request))
    /\ (well_formed (take 4096 (text request)) = true ->
        WebhookHit.body h = Some (take 4096 (text request)))
    /\ (well_formed (text request) = true ->
        well_formed (take 4096 (text request)) = false ->
        exists pre c,
          take 4096 (text request) = pre ++ [c] /\ length pre = 4095%nat
          /\ TextEncoder.is_high_surrogate c = true
          /\ (4096 < length (text request))%nat
          /\ WebhookHit.body h = Some (pre ++ REPLACED))
    /\ (Forall is_ascii (text request) ->
        WebhookHit.body h = Some (take 4096 (text request))
        /\ TextEncoder.encode (default [] (WebhookHit.body h))
           = take 4096 (TextEncoder.encode (text request))
        /\ WebhookHit.body_length h = byte_length (text request)).
Proof.
  intros Hacc Hp. rewrite post_w_accepted by done. cbn [snd db]. rewrite Hp.
  rewrite recordHit_hits. eexists. split; [reflexivity|].
  cbn [WebhookHit.body WebhookHit.body_length raw_hit NewWebhookHit.body
       NewWebhookHit.body_length default fmap option_fmap option_map].
  unfold js_slice0, js_length, byte_length.
  change (Z.to_nat 4096) with 4096%nat.
  split; [done|]. split; [done|]. split; [|split].
  - intros Hw. by rewrite D1_text_wf.
  - intros Hs Hcut.
    destruct (D1_text_take (text request) 4096 Hs)
      as [[Hw _]|(pre & c & Hpre & _ & Hc & Hn & Hlt & _ & Hd)]; [congruence|].
    exists pre, c. rewrite Hd. repeat split; try done. lia.
  - intros Hascii.
    assert (Hw : D1_text (take 4096 (text request)) = take 4096 (text request))
      by (apply D1_text_wf, ascii_well_formed; by apply Forall_take).
    rewrite Hw, (encode_ascii (text request)) by done.
    split; [done|]. split; [|done]. apply encode_ascii. by apply Forall_take.
Qed.

Lemma stored_body_is_code_unit_prefix_witness :
  exists h,
    webhook_hits (db (post_w open_env (lit "line") (lit "any") sample_request sample_now 3
                             empty_world).2) = [h]
    /\ WebhookHit.body h = Some (lit "hello")
    /\ WebhookHit.body_length h = 5.
Proof.
  destruct (stored_body_is_code_unit_prefix open_env (lit "line") (lit "any")
              sample_request sample_now 3 empty_world) as (h & Hh & Hb & Hl & _).
  - intros (secret & Hs & _). discriminate Hs.
  - reflexivity.
  - exists h. auto.
Defined.

(** A body cut inside a pair: 4095 letters and the two halves of U+1F600 at
    code units 4095 and 4096.  The row holds 4098 code units, the last
    three U+FFFD, and [body_length] is 4098 too, the length of the whole
    text. *)
Example stored_body_cut_pair :
  exists h,
    webhook_hits (db (post_w open_env (lit "line") (lit "any") astral_request sample_now 3
                             empty_world).2) = [h]
    /\ WebhookHit.body h = Some (repeat 97 4095 ++ REPLACED)
    /\ length (default [] (WebhookHit.body h)) = 4098%nat
    /\ WebhookHit.body_length h = 4098.
Proof.
  eexists. split; [vm_compute; reflexivity|].
  repeat split; vm_compute; reflexivity.
Qed.

(** C7 as stated fails: a body of 2000 Thai letters is 6000 bytes long;
    the stored body is all of it, not its first 4096 bytes, and
    [body_length] is 2000, not the byte length. *)
Lemma stored_body_not_byte_prefix :
  exists h,
    webhook_hits (db (post_w open_env (lit "line") (lit "any") thai_request sample_now 3
                             empty_world).2) = [h]
    /\ byte_length (text thai_request) = 6000
    /\ byte_length (default [] (WebhookHit.body h)) = 6000
    /\ TextEncoder.encode (default [] (WebhookHit.body h))
       <> take 4096 (TextEncoder.encode (text thai_request))
    /\ WebhookHit.body_length h <> byte_length (text thai_request).
Proof.
  eexists. split; [vm_compute; reflexivity|].
  split; [vm_compute; reflexivity|]. split; [vm_compute; reflexivity|]. split.
  - intros H. apply (f_equal length) in H. vm_compute in H. discriminate.
  - vm_compute. discriminate.
Qed.

(** ** Forwarding decision *)

Lemma raw_events_forwards env id request d :
  scheduled_forwards (raw_events env id request d)
  = if wants_forward (getForwardRule d id)
    then [TForward (receive_hitId d id)
            (default [] (ForwardRule.forward_url <$> getForwardRule d id))
            (text request) (headers request)]
    else [].
Proof.
  unfold raw_events.
  by destruct (wants_forward _), (bool_decide _ && truthy _).
Qed.

Lemma raw_events_outbound env id request d : outbound (raw_events env id request d) = [].
Proof.
  unfold raw_events.
  by destruct (wants_forward _), (bool_decide _ && truthy _).
Qed.



(** ** Failing open *)

Lemma no_secret_accepts env id token :
  truthy (API_TOKEN env) = false ->
  ~ (exists secret, API_TOKEN env = Some secret /\ secret <> []
                    /\ verifyWebhookToken id token secret = Some false).
Proof.
  intros Ht (secret & Hs & Hne & _). rewrite Hs in Ht. by destruct secret.
Qed.

(** C9. With no API secret configured (unset or empty), [checkAuth] is true
    for every request, no authenticated API endpoint answers 401, and the
    three receive handlers accept any token string. *)
Theorem fails_open_without_secret env :
  truthy (API_TOKEN env) = false ->
  (forall request, checkAuth request env = true)
  /\ (forall id token request now elapsed w,
        status (post_w env id token request now elapsed w).1 = 200)
  /\ (forall id token suffix request now elapsed w,
        status (post_w_suffix env id token suffix request now elapsed w).1 = 200)
  /\ (forall parseGitHubEvent id token request now elapsed w,
        status (post_w_github parseGitHubEvent env id token request now elapsed w).1 = 200)
  /\ (forall request now d, status (api_purge env request now d).1 = 200)
  /\ (forall legacy request dateParam endpointParam now d,
        status (api_hits legacy env request dateParam endpointParam now d) <> 401)
  /\ (forall URL_parses endpoint request body now d,
        status (put_forward_rule URL_parses env endpoint request body now d).1 <> 401).
Proof.
  intros Ht.
  assert (Hauth : forall request, checkAuth request env = true).
  { intros request. unfold checkAuth. by rewrite Ht. }
  split; [done|].
  split; [intros; rewrite post_w_accepted; [done|by apply no_secret_accepts]|].
  split; [intros; unfold post_w_suffix; rewrite Ht; by repeat case_match|].
  split; [intros; unfold post_w_github; rewrite Ht; by repeat case_match|].
  split; [intros; unfold api_purge; by rewrite Hauth|].
  split.
  - intros. unfold api_hits. rewrite Hauth. cbn [negb].
    destruct (day_window _ _) as [[]|]; cbn; lia.
  - intros. unfold put_forward_rule. rewrite Hauth. cbn [negb].
    destruct body as [body|]; [|cbn; lia].
    destruct (negb (truthy _)); [cbn; lia|].
    destruct (negb (URL_parses _)); cbn; lia.
Qed.

Lemma fails_open_without_secret_witness :
  checkAuth sample_request open_env = true
  /\ status (post_w (mkEnv (Some []) None) (lit "line") (lit "not-a-token")
                    sample_request sample_now 3 empty_world).1 = 200.
Proof.
  split.
  - apply (fails_open_without_secret open_env); reflexivity.
  - apply (fails_open_without_secret (mkEnv (Some []) None)); reflexivity.
Defined.

(** ** Forward executor *)

Lemma update_other_tables i status ms error d :
  forward_rules (update_forward_outcome i status ms error d) = forward_rules d
  /\ aliases (update_forward_outcome i status ms error d) = aliases d
  /\ webhook_hits_seq (update_forward_outcome i status ms error d) = webhook_hits_seq d.
Proof. done. Qed.

Lemma executeForward_unfold net elapsed hitId forwardUrl body originalHeaders w :
  executeForward net elapsed hitId forwardUrl body originalHeaders w
  = let request := mkOutbound forwardUrl (lit "POST") (forward_headers originalHeaders)
                              body FORWARD_TIMEOUT_MS in
    let status :=
      match net request with Responded code => Some code | Threw _ => Some 0 end in
    let error :=
      match net request with
      | Responded _ => None
      | Threw message => Some (default (lit "Unknown fetch error") message)
      end in
    mkWorld (match hitId with
             | Some i => update_forward_outcome i status elapsed error (db w)
             | None => db w
             end)
            (trace w ++ [EvFetch request]).
Proof. unfold executeForward. by destruct (net _), hitId. Qed.

(** C4. One run of the forward executor makes exactly one outbound call, a
    POST to the target with the body and a 10 s timeout.  A failed call is
    recorded as status 0 with the error message, an answered one as its
    status code with no error, either with the elapsed time.  The outcome is
    written to the rows with the given hit id and nowhere else; with a null
    id the store is left as it was. *)
Theorem executeForward_contract net elapsed hitId forwardUrl body originalHeaders w :
  let w' := executeForward net elapsed hitId forwardUrl body originalHeaders w in
  let request := mkOutbound forwardUrl (lit "POST") (forward_headers originalHeaders)
                            body FORWARD_TIMEOUT_MS in
  trace w' = trace w ++ [EvFetch request]
  /\ outbound (trace w') = outbound (trace w) ++ [request]
  /\ out_timeout_ms request = 10000
  /\ (hitId = None -> db w' = db w)
  /\ (forall i, hitId = Some i ->
        forward_rules (db w') = forward_rules (db w)
        /\ aliases (db w') = aliases (db w)
        /\ length (webhook_hits (db w')) = length (webhook_hits (db w))
        /\ forall (k : nat) h, webhook_hits (db w) !! k = Some h ->
             exists h', webhook_hits (db w') !! k = Some h'
               /\ (WebhookHit.id h <> i -> h' = h)
               /\ (WebhookHit.id h = i ->
                   WebhookHit.forward_ms h' = Some elapsed
                   /\ (forall code, net request = Responded code ->
                         WebhookHit.forward_status h' = Some code
                         /\ WebhookHit.forward_error h' = None)
                   /\ (forall message, net request = Threw message ->
                         WebhookHit.forward_status h' = Some 0
                         /\ exists text, WebhookHit.forward_error h' = Some text)
                   /\ WebhookHit.id h' = WebhookHit.id h
                   /\ WebhookHit.endpoint h' = WebhookHit.endpoint h
                   /\ WebhookHit.suffix h' = WebhookHit.suffix h
                   /\ WebhookHit.received_at h' = WebhookHit.received_at h
                   /\ WebhookHit.response_ms h' = WebhookHit.response_ms h
                   /\ WebhookHit.body_length h' = WebhookHit.body_length h
                   /\ WebhookHit.body h' = WebhookHit.body h)).
Proof.
  intros w' request. subst w'. rewrite executeForward_unfold. fold request.
  cbn [db trace].
  split; [done|]. split; [by rewrite outbound_snoc|]. split; [done|].
  split; [by intros ->|]. intros i ->.
  split; [done|]. split; [done|].
  cbn [update_forward_outcome with_hits webhook_hits].
  split; [by rewrite length_map|].
  intros k h Hk. rewrite list_lookup_fmap, Hk. cbn [fmap option_fmap option_map].
  eexists. split; [reflexivity|].
  destruct (Z.eqb_spec (WebhookHit.id h) i) as [Heq|Hne]; [|by split].
  split; [done|]. intros _. cbn.
  split; [done|]. split; [by intros code ->|].
  split; [intros message ->; eauto|done].
Qed.

Lemma executeForward_contract_witness :
  (WebhookHit.forward_status <$> webhook_hits (db
     (executeForward net_down 12 (Some 1) (lit "https://example.com/hook") (lit "hello") []
                     one_hit_world)) !! 0%nat) = Some (Some 0)
  /\ db (executeForward net_down 12 None (lit "https://example.com/hook") (lit "hello") []
                        one_hit_world) = db one_hit_world.
Proof.
  pose proof (executeForward_contract net_down 12 (Some 1) (lit "https://example.com/hook")
                (lit "hello") [] one_hit_world) as (_ & _ & _ & _ & Hsome).
  destruct (Hsome 1 eq_refl) as (_ & _ & _ & Hrow).
  pose proof (executeForward_contract net_down 12 None (lit "https://example.com/hook")
                (lit "hello") [] one_hit_world) as (_ & _ & _ & Hnone & _).
  split; [|exact (Hnone eq_refl)].
  destruct (Hrow 0%nat _ eq_refl) as (h' & Hlook & _ & Hupd).
  destruct (Hupd eq_refl) as (_ & _ & Hthrew & _).
  destruct (Hthrew _ eq_refl) as [Hst _].
  rewrite Hlook. cbn. by rewrite Hst.
Defined.

(** The ids of the store stay below the high-water mark, so the id
    [recordHit] returns names the new row only. *)
Lemma recordHit_ids_bounded d hit : ids_bounded d -> ids_bounded (recordHit d hit).2.
Proof.
  unfold ids_bounded. cbn. intros H. apply Forall_app. split.
  - eapply Forall_impl; [exact H|]. cbn. intros; lia.
  - repeat constructor. cbn. lia.
Qed.

Lemma update_ids_bounded i status ms error d :
  ids_bounded d -> ids_bounded (update_forward_outcome i status ms error d).
Proof.
  unfold ids_bounded. cbn. intros H. apply Forall_fmap.
  eapply Forall_impl; [exact H|]. intros h Hh. cbn. by destruct (_ =? _).
Qed.

Lemma purge_ids_bounded now d : ids_bounded d -> ids_bounded (purgeOldHits now d).2.
Proof.
  unfold ids_bounded. cbn. rewrite !Forall_forall.
  intros H h [_ Hin]%list_elem_of_filter. by apply H.
Qed.

Lemma post_w_ids_bounded env id token request now elapsed w :
  ids_bounded (db w) -> ids_bounded (db (post_w env id token request now elapsed w).2).
Proof.
  intros H. destruct (gate_decides env id token) as [(secret & Hs & Hne & Hv)|Hacc].
  - by erewrite post_w_rejected.
  - rewrite post_w_accepted by done. cbn [snd db].
    destruct (persist_is_false _); [done|]. by apply recordHit_ids_bounded.
Qed.

(** Receive, then forward: the outcome lands on the row just written and
    on no other. *)
Lemma receive_then_forward env id token request now elapsed w ru net forward_ms :
  ids_bounded (db w) ->
  ~ (exists secret, API_TOKEN env = Some secret /\ secret <> []
                    /\ verifyWebhookToken id token secret = Some false) ->
  getForwardRule (db w) id = Some ru -> ForwardRule.persist ru = true ->
  let w1 := (post_w env id token request now elapsed w).2 in
  let hitId := receive_hitId (db w) id in
  let w2 := executeForward net forward_ms hitId (ForwardRule.forward_url ru)
                           (text request) (headers request) w1 in
  exists row row',
    webhook_hits (db w1) = webhook_hits (db w) ++ [row]
    /\ webhook_hits (db w2) = webhook_hits (db w) ++ [row']
    /\ hitId = Some (WebhookHit.id row)
    /\ WebhookHit.forward_status row = None
    /\ WebhookHit.forward_ms row' = Some forward_ms
    /\ is_Some (WebhookHit.forward_status row').
Proof.
  intros Hb Hacc Hru Hp w1 hitId w2. subst w1 hitId w2.
  rewrite post_w_accepted by done. unfold receive_hitId. rewrite Hru.
  cbn [persist_is_false]. rewrite Hp. cbn [negb snd db].
  rewrite executeForward_unfold. cbn [db].
  unfold update_forward_outcome. cbn [with_hits webhook_hits].
  rewrite recordHit_hits. do 2 eexists. split; [reflexivity|].
  rewrite map_app. cbn [map WebhookHit.id]. rewrite Z.eqb_refl.
  rewrite (map_ext_Forall _ Datatypes.id).
  2:{ eapply Forall_impl; [exact Hb|]. cbn. intros h Hh.
      destruct (Z.eqb_spec (WebhookHit.id h) (webhook_hits_seq (db w) + 1)); [lia|done]. }
  rewrite map_id. split; [reflexivity|]. cbn.
  split; [done|]. split; [done|]. split; [done|].
  by destruct (net _).
Qed.

(** ** Rule upsert *)

Lemma upsert_lookup endpoint forward_url enabled persist now d :
  forward_rules (upsert_forward_rule endpoint forward_url enabled persist now d) !! endpoint
  = Some (ForwardRule.mk forward_url enabled persist
            (default now (ForwardRule.created_at <$> forward_rules d !! endpoint)) now).
Proof.
  unfold upsert_forward_rule. cbn [with_rules forward_rules].
  rewrite lookup_insert_eq. by destruct (forward_rules d !! endpoint).
Qed.

Lemma upsert_frame endpoint forward_url enabled persist now d :
  (forall other, other <> endpoint ->
     forward_rules (upsert_forward_rule endpoint forward_url enabled persist now d) !! other
     = forward_rules d !! other)
  /\ webhook_hits (upsert_forward_rule endpoint forward_url enabled persist now d)
     = webhook_hits d
  /\ aliases (upsert_forward_rule endpoint forward_url enabled persist now d) = aliases d.
Proof.
  split; [|done]. intros other Hne. unfold upsert_forward_rule.
  cbn [with_rules forward_rules]. by rewrite lookup_insert_ne.
Qed.

(** C10. An upsert over an existing rule, by the REST endpoint or the MCP
    tool, stores the given [forward_url], a fresh [updated_at], and for
    [enabled] and [persist] the given value or, when the field is left out,
    [true], whatever the rule held before; of the old row only
    [created_at] survives.  Other rules are untouched. *)
Theorem upsert_resets_omitted_flags (URL_parses : jsstring -> bool)
        env endpoint request fwd enabled persist now d old :
  checkAuth request env = true ->
  fwd <> [] ->
  URL_parses fwd = true ->
  forward_rules d !! endpoint = Some old ->
  let stored :=
    ForwardRule.mk fwd (default true enabled) (default true persist)
                   (ForwardRule.created_at old) (JSDate.toISOString now) in
  let rest := (put_forward_rule URL_parses env endpoint request
                 (Some (mkRuleBody (Some fwd) enabled persist)) now d) in
  let mcp := set_forward_rule URL_parses endpoint fwd enabled persist now d in
  status rest.1 = 200
  /\ forward_rules rest.2 !! endpoint = Some stored
  /\ forward_rules mcp.2 !! endpoint = Some stored
  /\ (enabled = None -> ForwardRule.enabled stored = true)
  /\ (persist = None -> ForwardRule.persist stored = true)
  /\ ForwardRule.created_at stored = ForwardRule.created_at old
  /\ (forall other, other <> endpoint ->
        forward_rules rest.2 !! other = forward_rules d !! other
        /\ forward_rules mcp.2 !! other = forward_rules d !! other).
Proof.
  intros Hauth Hfwd Hurl Hold stored rest mcp. subst stored rest mcp.
  unfold put_forward_rule, set_forward_rule. rewrite Hauth.
  cbn [negb body_forward_url body_enabled body_persist from_option Datatypes.id].
  assert (truthy (Some fwd) = true) as -> by by destruct fwd.
  rewrite Hurl. cbn [negb fst snd status c_json].
  rewrite !upsert_lookup, Hold.
  cbn [fmap option_fmap option_map from_option Datatypes.id].
  split; [done|]. split; [done|]. split; [done|].
  split; [by intros ->|]. split; [by intros ->|]. split; [done|].
  intros other Hne. split; by apply upsert_frame.
Qed.

Lemma upsert_resets_omitted_flags_witness :
  forward_rules (put_forward_rule starts_with_http open_env (lit "line") sample_request
                   (Some (mkRuleBody (Some (lit "https://new.example.com/")) None None))
                   sample_now off_db).2 !! lit "line"
  = Some (ForwardRule.mk (lit "https://new.example.com/") true true
            (lit "2025-01-01T00:00:00.000Z") (lit "2025-11-02T05:27:14.567Z")).
Proof.
  apply (upsert_resets_omitted_flags starts_with_http open_env (lit "line") sample_request
           (lit "https://new.example.com/") None None sample_now off_db off_rule);
    [reflexivity|discriminate|reflexivity|reflexivity].
Defined.

(** ** Dates and their ISO strings *)

Section Calendar.

(** The year of the era is monotone in the day of the era, and the day of
    the year stays within a year. *)
Lemma year_of_era_mono a b :
  0 <= a <= b -> b < 146097 ->
  (a - a / 1460 + a / 36524 - a / 146096) / 365
  <= (b - b / 1460 + b / 36524 - b / 146096) / 365.
Proof. intros. apply Z.div_le_mono; [lia|]. Z.div_mod_to_equations; lia. Qed.

Lemma year_of_era_range d :
  0 <= d < 146097 ->
  let yoe := (d - d / 1460 + d / 36524 - d / 146096) / 365 in
  0 <= yoe <= 399 /\ 0 <= d - (365 * yoe + yoe / 4 - yoe / 100) <= 365.
Proof. intros H. cbv zeta. Z.div_mod_to_equations; lia. Qed.

Lemma month_day_mono a b :
  0 <= a < b -> b <= 365 ->
  let mpa := (5 * a + 2) / 153 in
  let mpb := (5 * b + 2) / 153 in
  mpa <= mpb /\ (mpa = mpb -> a - (153 * mpa + 2) / 5 + 1 < b - (153 * mpb + 2) / 5 + 1).
Proof. intros H H'. cbv zeta. Z.div_mod_to_equations; lia. Qed.

Lemma month_day_range a :
  0 <= a <= 365 ->
  let mp := (5 * a + 2) / 153 in
  0 <= mp <= 11 /\ 1 <= a - (153 * mp + 2) / 5 + 1 <= 31.
Proof. intros H. cbv zeta. Z.div_mod_to_equations; lia. Qed.

Lemma civil_from_days_lt z1 z2 :
  z1 < z2 -> civil_lt (JSDate.civil_from_days z1) (JSDate.civil_from_days z2).
Proof.
  intros Hlt. unfold JSDate.civil_from_days. cbv zeta.
  set (e1 := (z1 + 719468) / 146097). set (e2 := (z2 + 719468) / 146097).
  set (d1 := z1 + 719468 - e1 * 146097). set (d2 := z2 + 719468 - e2 * 146097).
  assert (Hd1 : 0 <= d1 < 146097) by (subst d1 e1; Z.div_mod_to_equations; lia).
  assert (Hd2 : 0 <= d2 < 146097) by (subst d2 e2; Z.div_mod_to_equations; lia).
  assert (He : e1 < e2 \/ (e1 = e2 /\ d1 < d2))
    by (subst d1 d2 e1 e2; Z.div_mod_to_equations; lia).
  clearbody d1 d2 e1 e2. clear Hlt z1 z2.
  pose proof (year_of_era_range d1 Hd1) as Hr1.
  pose proof (year_of_era_range d2 Hd2) as Hr2.
  pose proof (fun H1 => year_of_era_mono d1 d2 H1 (proj2 Hd2)) as Hmono.
  cbv zeta in Hr1, Hr2.
  set (y1 := (d1 - d1 / 1460 + d1 / 36524 - d1 / 146096) / 365) in *.
  set (y2 := (d2 - d2 / 1460 + d2 / 36524 - d2 / 146096) / 365) in *.
  set (c1 := 365 * y1 + y1 / 4 - y1 / 100) in *.
  set (c2 := 365 * y2 + y2 / 4 - y2 / 100) in *.
  assert (Hc : y1 = y2 -> c1 = c2) by (subst c1 c2; by intros ->).
  clearbody c1 c2 y1 y2.
  set (n1 := d1 - c1) in *. set (n2 := d2 - c2) in *.
  assert (Hn : e1 < e2 \/ (e1 = e2 /\ (y1 < y2 \/ (y1 = y2 /\ n1 < n2)))).
  { subst n1 n2. destruct He as [?|[-> Hd]]; [by left|right; split; [done|]].
    assert (y1 <= y2) by (apply Hmono; lia).
    destruct (Z.eq_dec y1 y2) as [Hy|Hy]; [right; split; [done|]; rewrite (Hc Hy); lia|lia]. }
  clearbody n1 n2. clear Hc Hmono He Hd1 Hd2 d1 d2 c1 c2.
  pose proof (month_day_range n1 (proj2 Hr1)) as Hm1.
  pose proof (month_day_range n2 (proj2 Hr2)) as Hm2.
  pose proof (fun H1 => month_day_mono n1 n2 H1 (proj2 (proj2 Hr2))) as Hmm.
  cbv zeta in Hm1, Hm2, Hmm.
  set (mp1 := (5 * n1 + 2) / 153) in *. set (mp2 := (5 * n2 + 2) / 153) in *.
  set (dom1 := n1 - (153 * mp1 + 2) / 5 + 1) in *.
  set (dom2 := n2 - (153 * mp2 + 2) / 5 + 1) in *.
  assert (Hfin : e1 < e2 \/ (e1 = e2 /\ (y1 < y2 \/ (y1 = y2
                   /\ (mp1 < mp2 \/ (mp1 = mp2 /\ dom1 < dom2)))))).
  { destruct Hn as [?|[-> [?|[-> Hn]]]]; [by left|right; split; [done|by left]|].
    right. split; [done|]. right. split; [done|].
    destruct (Hmm ltac:(lia)) as [Hle Heq].
    destruct (Z.eq_dec mp1 mp2); [right; split; [done|by apply Heq]|left; lia]. }
  clearbody dom1 dom2 mp1 mp2. clear Hmm Hn.
  unfold civil_lt. cbn [fst snd].
  destruct (Z.ltb_spec mp1 10), (Z.ltb_spec mp2 10);
    repeat match goal with |- context [?a <=? ?b] => destruct (Z.leb_spec a b) end; lia.
Qed.

End Calendar.

Lemma civil_from_days_range z :
  let c := JSDate.civil_from_days z in 1 <= c.1.2 <= 12 /\ 1 <= c.2 <= 31.
Proof.
  unfold JSDate.civil_from_days. cbv zeta. cbn [fst snd].
  repeat match goal with |- context [if ?b then _ else _] => destruct b eqn:? end;
    Z.div_mod_to_equations; lia.
Qed.

Section Digits.

Lemma digit_range n : 48 <= JSDate.digit n <= 57.
Proof. unfold JSDate.digit. Z.div_mod_to_equations; lia. Qed.

Lemma pad_dec_length w n : length (JSDate.pad_dec w n) = w.
Proof.
  revert n. induction w as [|w IH]; intros n; [done|].
  cbn. rewrite length_app, IH. cbn. lia.
Qed.

Lemma pad_dec_ascii w n : Forall is_ascii (JSDate.pad_dec w n).
Proof.
  revert n. induction w as [|w IH]; intros n; cbn; [constructor|].
  apply Forall_app. split; [apply IH|]. apply Forall_singleton.
  pose proof (digit_range n). unfold is_ascii. lia.
Qed.

(** Zero-padded numbers of one width compare as the numbers do. *)
Lemma bytes_ltb_pad w n m x y :
  0 <= n < 10 ^ Z.of_nat w -> 0 <= m < 10 ^ Z.of_nat w ->
  bytes_ltb (JSDate.pad_dec w n ++ x) (JSDate.pad_dec w m ++ y)
  = (n <? m) || ((n =? m) && bytes_ltb x y).
Proof.
  revert n m x y. induction w as [|w IH]; intros n m x y Hn Hm.
  - cbn in *. assert (n = 0) as -> by lia. assert (m = 0) as -> by lia. done.
  - rewrite Nat2Z.inj_succ, Z.pow_succ_r in Hn, Hm by lia.
    cbn [JSDate.pad_dec]. rewrite <- !app_assoc. rewrite IH by (Z.div_mod_to_equations; lia).
    cbn [app bytes_ltb]. unfold JSDate.digit.
    destruct (bytes_ltb x y); rewrite ?andb_true_r, ?andb_false_r, ?orb_false_r;
      apply eq_true_iff_eq;
      rewrite ?orb_true_iff, ?andb_true_iff, ?orb_true_iff, ?Z.ltb_lt, ?Z.eqb_eq;
      Z.div_mod_to_equations; lia.
Qed.

Lemma bytes_ltb_cons c x y : bytes_ltb (c :: x) (c :: y) = bytes_ltb x y.
Proof. cbn. by rewrite Z.ltb_irrefl, Z.eqb_refl. Qed.

End Digits.

Section IsoOrder.

Lemma four_digit_year_fields t :
  four_digit_year t ->
  let c := JSDate.civil_from_days (t / JSDate.MS_PER_DAY) in
  0 <= c.1.1 <= 9999 /\ 1 <= c.1.2 <= 12 /\ 1 <= c.2 <= 31.
Proof.
  intros Ht. cbv zeta.
  pose proof (civil_from_days_range (t / JSDate.MS_PER_DAY)) as Hr. cbv zeta in Hr.
  split; [|done].
  assert (Hd : -719528 <= t / JSDate.MS_PER_DAY <= 2932896)
    by (unfold four_digit_year, JSDate.MS_PER_DAY in *; Z.div_mod_to_equations; lia).
  split.
  - destruct (Z.eq_dec (t / JSDate.MS_PER_DAY) (-719528)) as [->|Hne]; [done|].
    pose proof (civil_from_days_lt (-719528) (t / JSDate.MS_PER_DAY) ltac:(lia)) as Hlt.
    unfold civil_lt in Hlt. change (JSDate.civil_from_days (-719528)) with (0, 1, 1) in Hlt.
    cbn [fst snd] in Hlt. lia.
  - destruct (Z.eq_dec (t / JSDate.MS_PER_DAY) 2932896) as [->|Hne]; [done|].
    pose proof (civil_from_days_lt (t / JSDate.MS_PER_DAY) 2932896 ltac:(lia)) as Hlt.
    unfold civil_lt in Hlt. change (JSDate.civil_from_days 2932896) with (9999, 12, 31) in Hlt.
    cbn [fst snd] in Hlt. lia.
Qed.

(** The ISO string of an instant with a four-digit year, field by field. *)
Lemma toISOString_fields t :
  four_digit_year t ->
  let c := JSDate.civil_from_days (t / JSDate.MS_PER_DAY) in
  let ms := t mod JSDate.MS_PER_DAY in
  JSDate.toISOString t
  = JSDate.pad_dec 4 c.1.1 ++ 45 :: JSDate.pad_dec 2 c.1.2 ++ 45 :: JSDate.pad_dec 2 c.2
    ++ 84 :: JSDate.pad_dec 2 (ms / 3600000) ++ 58 :: JSDate.pad_dec 2 (ms / 60000 mod 60)
    ++ 58 :: JSDate.pad_dec 2 (ms / 1000 mod 60) ++ 46 :: JSDate.pad_dec 3 (ms mod 1000)
    ++ [90].
Proof.
  intros Ht c ms. pose proof (four_digit_year_fields t Ht) as [Hy _]. fold c in Hy.
  unfold JSDate.toISOString. fold c ms. destruct c as [[y m] d]. cbn [fst snd] in *.
  unfold JSDate.year_string.
  assert ((0 <=? y) && (y <=? 9999) = true) as -> by lia.
  reflexivity.
Qed.

Lemma toISOString_ascii t : four_digit_year t -> Forall is_ascii (JSDate.toISOString t).
Proof.
  intros Ht. rewrite toISOString_fields by done. cbv zeta.
  repeat first [apply pad_dec_ascii | apply Forall_app_2 | apply Forall_cons_2
               | apply Forall_nil_2 | (unfold is_ascii; lia)].
Qed.

Lemma time_fields_lt r1 r2 :
  0 <= r1 < JSDate.MS_PER_DAY -> 0 <= r2 < JSDate.MS_PER_DAY ->
  (r1 / 3600000 <? r2 / 3600000)
  || ((r1 / 3600000 =? r2 / 3600000)
      && ((r1 / 60000 mod 60 <? r2 / 60000 mod 60)
          || ((r1 / 60000 mod 60 =? r2 / 60000 mod 60)
              && ((r1 / 1000 mod 60 <? r2 / 1000 mod 60)
                  || ((r1 / 1000 mod 60 =? r2 / 1000 mod 60)
                      && ((r1 mod 1000 <? r2 mod 1000)
                          || ((r1 mod 1000 =? r2 mod 1000) && false)))))))
  = (r1 <? r2).
Proof.
  unfold JSDate.MS_PER_DAY. intros H1 H2. apply eq_true_iff_eq.
  rewrite ?orb_true_iff, ?andb_true_iff, ?orb_true_iff, ?andb_true_iff,
          ?orb_true_iff, ?andb_true_iff, ?orb_true_iff, ?andb_true_iff,
          ?Z.ltb_lt, ?Z.eqb_eq.
  Z.div_mod_to_equations. lia.
Qed.

Lemma date_fields_lt (c1 c2 : Z * Z * Z) (rest : bool) :
  let F := (c1.1.1 <? c2.1.1)
           || ((c1.1.1 =? c2.1.1)
               && ((c1.1.2 <? c2.1.2)
                   || ((c1.1.2 =? c2.1.2)
                       && ((c1.2 <? c2.2) || ((c1.2 =? c2.2) && rest))))) in
  (civil_lt c1 c2 -> F = true) /\ (civil_lt c2 c1 -> F = false) /\ (c1 = c2 -> F = rest).
Proof.
  destruct c1 as [[y1 m1] d1], c2 as [[y2 m2] d2]. unfold civil_lt. cbn [fst snd].
  split; [|split].
  - intros H. rewrite !orb_true_iff, !andb_true_iff, !orb_true_iff, !andb_true_iff,
                      !orb_true_iff, !Z.ltb_lt, !Z.eqb_eq. lia.
  - intros H. apply not_true_is_false.
    rewrite !orb_true_iff, !andb_true_iff, !orb_true_iff, !andb_true_iff,
            !orb_true_iff, !andb_true_iff, !Z.ltb_lt, !Z.eqb_eq. lia.
  - intros [= -> -> ->]. by rewrite !Z.ltb_irrefl, !Z.eqb_refl.
Qed.

(** ISO strings of instants with four-digit years are ordered, as TEXT, the
    way the instants are. *)
Lemma toISOString_lt t1 t2 :
  four_digit_year t1 -> four_digit_year t2 ->
  text_lt (JSDate.toISOString t1) (JSDate.toISOString t2) = (t1 <? t2).
Proof.
  intros H1 H2. unfold text_lt.
  rewrite !encode_ascii by by apply toISOString_ascii.
  rewrite !toISOString_fields by done. cbv zeta.
  pose proof (four_digit_year_fields t1 H1) as (Hy1 & Hm1 & Hd1).
  pose proof (four_digit_year_fields t2 H2) as (Hy2 & Hm2 & Hd2).
  cbv zeta in *.
  assert (Hcmp : (t1 <? t2)
                 = (t1 / JSDate.MS_PER_DAY <? t2 / JSDate.MS_PER_DAY)
                   || ((t1 / JSDate.MS_PER_DAY =? t2 / JSDate.MS_PER_DAY)
                       && (t1 mod JSDate.MS_PER_DAY <? t2 mod JSDate.MS_PER_DAY))).
  { apply eq_true_iff_eq.
    rewrite orb_true_iff, andb_true_iff, !Z.ltb_lt, Z.eqb_eq.
    unfold JSDate.MS_PER_DAY. Z.div_mod_to_equations. lia. }
  assert (Hr1 : 0 <= t1 mod JSDate.MS_PER_DAY < JSDate.MS_PER_DAY)
    by (apply Z.mod_pos_bound; done).
  assert (Hr2 : 0 <= t2 mod JSDate.MS_PER_DAY < JSDate.MS_PER_DAY)
    by (apply Z.mod_pos_bound; done).
  rewrite Hcmp, <- (time_fields_lt _ _ Hr1 Hr2). clear Hcmp.
  set (c1 := JSDate.civil_from_days (t1 / JSDate.MS_PER_DAY)) in *.
  set (c2 := JSDate.civil_from_days (t2 / JSDate.MS_PER_DAY)) in *.
  set (r1 := t1 mod JSDate.MS_PER_DAY) in *.
  set (r2 := t2 mod JSDate.MS_PER_DAY) in *.
  unfold JSDate.MS_PER_DAY in Hr1, Hr2.
  rewrite (bytes_ltb_pad 4) by (change (10 ^ Z.of_nat 4) with 10000; lia).
  rewrite bytes_ltb_cons.
  rewrite (bytes_ltb_pad 2) by (change (10 ^ Z.of_nat 2) with 100; lia).
  rewrite bytes_ltb_cons.
  rewrite (bytes_ltb_pad 2) by (change (10 ^ Z.of_nat 2) with 100; lia).
  rewrite bytes_ltb_cons.
  rewrite (bytes_ltb_pad 2)
    by (change (10 ^ Z.of_nat 2) with 100; Z.div_mod_to_equations; lia).
  rewrite bytes_ltb_cons.
  rewrite (bytes_ltb_pad 2)
    by (change (10 ^ Z.of_nat 2) with 100; Z.div_mod_to_equations; lia).
  rewrite bytes_ltb_cons.
  rewrite (bytes_ltb_pad 2)
    by (change (10 ^ Z.of_nat 2) with 100; Z.div_mod_to_equations; lia).
  rewrite bytes_ltb_cons.
  rewrite (bytes_ltb_pad 3)
    by (change (10 ^ Z.of_nat 3) with 1000; Z.div_mod_to_equations; lia).
  change (bytes_ltb [90] [90]) with false.
  set (rest := (r1 / 3600000 <? _) || _). clearbody rest.
  destruct (date_fields_lt c1 c2 rest) as (Hlt & Hgt & Heq). cbv zeta in Hlt, Hgt, Heq.
  destruct (Z.lt_trichotomy (t1 / JSDate.MS_PER_DAY) (t2 / JSDate.MS_PER_DAY))
    as [Hd|[Hd|Hd]].
  - rewrite Hlt by by apply civil_from_days_lt.
    assert ((t1 / JSDate.MS_PER_DAY <? t2 / JSDate.MS_PER_DAY) = true) as -> by lia. done.
  - rewrite Heq by (subst c1 c2; by rewrite Hd). rewrite Hd, Z.ltb_irrefl, Z.eqb_refl. done.
  - rewrite Hgt by by apply civil_from_days_lt.
    assert ((t1 / JSDate.MS_PER_DAY <? t2 / JSDate.MS_PER_DAY) = false) as -> by lia.
    assert ((t1 / JSDate.MS_PER_DAY =? t2 / JSDate.MS_PER_DAY) = false) as -> by lia. done.
Qed.

End IsoOrder.

(** ** Purge *)

(** C6. [purgeOldHits] keeps, in order, exactly the Hits whose
    [received_at] is not below the ISO string of now - 7 d, deletes the
    others, reports how many it deleted, leaves rules, aliases and the id
    counter alone, and run again at the same time deletes nothing.  For a
    Hit stamped by the pipeline at instant [t], being kept means
    [now - 7 d <= t]: a Hit is deleted exactly when it is older than that. *)
Theorem purge_deletes_old_only now d :
  let cutoff := JSDate.toISOString (now - SEVEN_DAYS_MS) in
  let r := purgeOldHits now d in
  (forall h, h ∈ webhook_hits r.2
             <-> h ∈ webhook_hits d /\ text_lt (WebhookHit.received_at h) cutoff = false)
  /\ (four_digit_year (now - SEVEN_DAYS_MS) ->
      forall h t, h ∈ webhook_hits d ->
                  WebhookHit.received_at h = JSDate.toISOString t -> four_digit_year t ->
                  (h ∈ webhook_hits r.2 <-> now - SEVEN_DAYS_MS <= t))
  /\ webhook_hits r.2 `sublist_of` webhook_hits d
  /\ forward_rules r.2 = forward_rules d
  /\ aliases r.2 = aliases d
  /\ webhook_hits_seq r.2 = webhook_hits_seq d
  /\ r.1 = Z.of_nat (length (webhook_hits d)) - Z.of_nat (length (webhook_hits r.2))
  /\ r.1 = Z.of_nat (length (filter (fun h => text_lt (WebhookHit.received_at h) cutoff = true)
                                    (webhook_hits d)))
  /\ purgeOldHits now r.2 = (0, r.2).
Proof.
  intros cutoff r. subst r. unfold purgeOldHits. fold cutoff.
  cbn [fst snd with_hits webhook_hits forward_rules aliases webhook_hits_seq].
  assert (Hkept : forall h, h ∈ filter (fun h => text_lt (WebhookHit.received_at h) cutoff
                                                 = false) (webhook_hits d)
                            <-> h ∈ webhook_hits d
                                /\ text_lt (WebhookHit.received_at h) cutoff = false)
    by (intros h; rewrite list_elem_of_filter; tauto).
  split; [done|].
  split.
  { intros Hnow h t Hin Hat Ht. rewrite Hkept, Hat. unfold cutoff.
    rewrite toISOString_lt by done. rewrite Z.ltb_ge. tauto. }
  split; [apply sublist_filter|].
  split; [done|]. split; [done|]. split; [done|].
  split.
  { pose proof (Permutation_length
                  (filter_app_complement
                     (fun h => text_lt (WebhookHit.received_at h) cutoff = true)
                     (webhook_hits d))) as Hlen.
    rewrite length_app in Hlen.
    rewrite (list_filter_iff (fun h => text_lt (WebhookHit.received_at h) cutoff = false)
               (fun h => ~ text_lt (WebhookHit.received_at h) cutoff = true))
      by (intros h; symmetry; apply not_true_iff_false).
    lia. }
  split; [done|].
  rewrite !list_filter_filter.
  rewrite (list_filter_iff (fun h => text_lt _ cutoff = true /\ text_lt _ cutoff = false)
                           (fun _ => False)) by (intros h; split; [intros [? ?]; congruence|done]).
  rewrite (list_filter_iff (fun h => text_lt _ cutoff = false /\ text_lt _ cutoff = false)
                           (fun h => text_lt (WebhookHit.received_at h) cutoff = false))
    by (intros h; tauto).
  f_equal. f_equal. clear. by induction (webhook_hits d).
Qed.

Lemma purge_deletes_old_only_witness :
  (hit_before_midnight ∉
     webhook_hits (purgeOldHits (t_last_millisecond + SEVEN_DAYS_MS) (db boundary_world)).2)
  /\ (hit_last_millisecond ∈
      webhook_hits (purgeOldHits (t_last_millisecond + SEVEN_DAYS_MS) (db boundary_world)).2).
Proof.
  pose proof (purge_deletes_old_only (t_last_millisecond + SEVEN_DAYS_MS) (db boundary_world))
    as (_ & Htime & _).
  assert (Hcut : four_digit_year (t_last_millisecond + SEVEN_DAYS_MS - SEVEN_DAYS_MS))
    by (vm_compute; split; [discriminate|reflexivity]).
  split.
  - rewrite (Htime Hcut hit_before_midnight t_before_midnight).
    + vm_compute. by intros H.
    + apply list_elem_of_here.
    + reflexivity.
    + vm_compute. split; [discriminate|reflexivity].
  - apply (Htime Hcut hit_last_millisecond t_last_millisecond).
    + apply list_elem_of_further, list_elem_of_here.
    + reflexivity.
    + vm_compute. split; [discriminate|reflexivity].
    + vm_compute. discriminate.
Defined.

(** ** The order of TEXT values *)

Section TextOrder.

Lemma bytes_ltb_irrefl a : bytes_ltb a a = false.
Proof.
  induction a as [|x a IH]; [done|]. cbn. rewrite IH, Z.ltb_irrefl. by rewrite andb_false_r.
Qed.

Lemma bytes_ltb_trans a b c :
  bytes_ltb a b = true -> bytes_ltb b c = true -> bytes_ltb a c = true.
Proof.
  revert b c. induction a as [|x a IH]; intros [|y b] [|z c]; cbn; try done.
  rewrite !orb_true_iff, !andb_true_iff, !Z.ltb_lt, !Z.eqb_eq.
  intros [Hxy|[-> Hab]] [Hyz|[-> Hbc]]; try (left; lia).
  right. split; [done|]. by eapply IH.
Qed.

Lemma bytes_ltb_trichotomy a b :
  bytes_ltb a b = true \/ a = b \/ bytes_ltb b a = true.
Proof.
  revert b. induction a as [|x a IH]; intros [|y b]; cbn; auto.
  rewrite !orb_true_iff, !andb_true_iff, !Z.ltb_lt, !Z.eqb_eq.
  destruct (Z.lt_trichotomy x y) as [?|[->|?]]; [by auto| |by auto].
  destruct (IH b) as [?|[->|?]]; auto.
Qed.

Lemma bytes_ltb_asym a b : bytes_ltb a b = true -> bytes_ltb b a = false.
Proof.
  intros Hab. destruct (bytes_ltb b a) eqn:Hba; [|done].
  pose proof (bytes_ltb_trans _ _ _ Hab Hba) as Haa.
  by rewrite bytes_ltb_irrefl in Haa.
Qed.

#[global] Instance newer_first_total : Total newer_first.
Proof.
  intros a b. unfold newer_first, text_lt.
  destruct (bytes_ltb (TextEncoder.encode (WebhookHit.received_at a)) _) eqn:Hab; [|by left].
  right. by apply bytes_ltb_asym.
Qed.

#[global] Instance newer_first_trans : Transitive newer_first.
Proof.
  intros a b c. unfold newer_first, text_lt.
  set (x := TextEncoder.encode (WebhookHit.received_at a)).
  set (y := TextEncoder.encode (WebhookHit.received_at b)).
  set (z := TextEncoder.encode (WebhookHit.received_at c)).
  intros Hxy Hyz. destruct (bytes_ltb x z) eqn:Hxz; [|done].
  destruct (bytes_ltb_trichotomy x y) as [H|[H|H]]; [congruence|subst; congruence|].
  pose proof (bytes_ltb_trans _ _ _ H Hxz). congruence.
Qed.

End TextOrder.

(** ** The hits query *)

(** What the query returns: rows of the table that are in the window (and
    of the endpoint, when one is given), newest first, at most 500 of them,
    and all of them when no more than 500 match. *)
Lemma select_hits_spec d fromISO toISO endpointParam :
  let matching := filter (fun h => in_window fromISO toISO endpointParam h = true)
                         (webhook_hits d) in
  (forall h, h ∈ select_hits d fromISO toISO endpointParam ->
             h ∈ webhook_hits d
             /\ text_lt (WebhookHit.received_at h) fromISO = false
             /\ text_lt (WebhookHit.received_at h) toISO = true)
  /\ StronglySorted newer_first (select_hits d fromISO toISO endpointParam)
  /\ (length (select_hits d fromISO toISO endpointParam) <= 500)%nat
  /\ select_hits d fromISO toISO endpointParam `sublist_of` merge_sort newer_first matching
  /\ ((length matching <= 500)%nat ->
      select_hits d fromISO toISO endpointParam ≡ₚ matching).
Proof.
  intros matching. unfold select_hits. fold matching.
  split; [|split; [|split; [|split]]].
  - intros h Hh%(subseteq_take _ _).
    rewrite (merge_sort_Permutation newer_first matching) in Hh.
    apply list_elem_of_filter in Hh as [Hw Hin]. split; [done|].
    unfold in_window, text_gte in Hw.
    apply andb_true_iff in Hw as [[Hge Hlt]%andb_true_iff _].
    by apply negb_true_iff in Hge.
  - pose proof (StronglySorted_merge_sort newer_first matching) as Hs.
    rewrite <- (take_drop PAGE_SIZE (merge_sort newer_first matching)) in Hs.
    by apply StronglySorted_app_1_l in Hs.
  - rewrite length_take. unfold PAGE_SIZE. lia.
  - apply sublist_take.
  - intros Hlen. rewrite take_ge.
    + apply merge_sort_Permutation.
    + rewrite (Permutation_length (merge_sort_Permutation newer_first matching)).
      unfold PAGE_SIZE. lia.
Qed.

(** ** The window of a calendar day *)

Section DayWindow.

Lemma is_digit_digit n : JSDate.is_digit (JSDate.digit n) = true.
Proof. pose proof (digit_range n). unfold JSDate.is_digit. lia. Qed.

Lemma forallb_is_digit_pad w n : forallb JSDate.is_digit (JSDate.pad_dec w n) = true.
Proof.
  revert n. induction w as [|w IH]; intros n; [done|].
  cbn [JSDate.pad_dec]. rewrite forallb_app, IH. cbn. by rewrite is_digit_digit.
Qed.

Lemma fold_digits_pad w n acc :
  0 <= n < 10 ^ Z.of_nat w ->
  fold_left (fun a c => 10 * a + (c - 48)) (JSDate.pad_dec w n) acc
  = acc * 10 ^ Z.of_nat w + n.
Proof.
  revert n acc. induction w as [|w IH]; intros n acc Hn.
  - cbn in *. lia.
  - rewrite Nat2Z.inj_succ, Z.pow_succ_r in * by lia.
    cbn [JSDate.pad_dec]. rewrite fold_left_app, IH by (Z.div_mod_to_equations; lia).
    cbn [fold_left]. unfold JSDate.digit.
    generalize (10 ^ Z.of_nat w). intros p. Z.div_mod_to_equations. nia.
Qed.

Lemma digits_value_pad w n :
  (0 < w)%nat -> 0 <= n < 10 ^ Z.of_nat w ->
  JSDate.digits_value (JSDate.pad_dec w n) = Some n.
Proof.
  intros Hw Hn. unfold JSDate.digits_value.
  rewrite forallb_is_digit_pad, fold_digits_pad by done.
  assert (JSDate.pad_dec w n <> []) as Hne.
  { intros Hnil. apply (f_equal length) in Hnil. rewrite pad_dec_length in Hnil.
    cbn in Hnil. lia. }
  rewrite bool_decide_eq_false_2 by done. cbn [negb andb]. f_equal; lia.
Qed.

Lemma parse_date_full y m d :
  0 <= y <= 9999 -> 1 <= m <= 12 -> 1 <= d <= 31 ->
  JSDate.parse_date (date_string y m d) = Some (y, m, d).
Proof.
  intros Hy Hm Hd.
  pose proof (digits_value_pad 4 y ltac:(lia) ltac:(change (10 ^ Z.of_nat 4) with 10000; lia)) as Ey.
  pose proof (digits_value_pad 2 m ltac:(lia) ltac:(change (10 ^ Z.of_nat 2) with 100; lia)) as Em.
  pose proof (digits_value_pad 2 d ltac:(lia) ltac:(change (10 ^ Z.of_nat 2) with 100; lia)) as Ed.
  change (date_string y m d)
    with [JSDate.digit (y / 10 / 10 / 10); JSDate.digit (y / 10 / 10); JSDate.digit (y / 10);
          JSDate.digit y; 45; JSDate.digit (m / 10); JSDate.digit m; 45;
          JSDate.digit (d / 10); JSDate.digit d].
  change (JSDate.pad_dec 4 y)
    with [JSDate.digit (y / 10 / 10 / 10); JSDate.digit (y / 10 / 10); JSDate.digit (y / 10);
          JSDate.digit y] in Ey.
  change (JSDate.pad_dec 2 m) with [JSDate.digit (m / 10); JSDate.digit m] in Em.
  change (JSDate.pad_dec 2 d) with [JSDate.digit (d / 10); JSDate.digit d] in Ed.
  cbv beta iota zeta delta [JSDate.parse_date].
  rewrite Ey, Em, Ed. change ((45 =? 45) && (45 =? 45)) with true. cbv beta iota.
  by assert ((1 <=? m) && (m <=? 12) && (1 <=? d) && (d <=? 31) = true) as -> by lia.
Qed.

(** A complete date followed by [T] and a time is read by the first of the
    three date forms, whatever the engine makes of other strings. *)
Lemma parse_complete legacy y m d time ms :
  0 <= y <= 9999 -> 1 <= m <= 12 -> 1 <= d <= 31 ->
  JSDate.parse_time time = Some ms ->
  JSDate.parse legacy (date_string y m d ++ 84 :: time)
  = Some (JSDate.days_from_civil y m d * JSDate.MS_PER_DAY + ms).
Proof.
  intros Hy Hm Hd Ht. unfold JSDate.parse, JSDate.parse_date_time, JSDate.parse_date_time_at.
  assert (Hlen : length (date_string y m d) = 10%nat) by reflexivity.
  rewrite drop_app_length', take_app_length' by done.
  by rewrite parse_date_full, Ht.
Qed.

Lemma parse_day_start legacy y m d :
  0 <= y <= 9999 -> 1 <= m <= 12 -> 1 <= d <= 31 ->
  JSDate.parse legacy (date_string y m d ++ lit "T00:00:00+07:00") = Some (day_start y m d).
Proof.
  intros Hy Hm Hd.
  change (lit "T00:00:00+07:00") with (84 :: lit "00:00:00+07:00").
  rewrite (parse_complete legacy y m d _ (-25200000)) by (done || reflexivity).
  unfold day_start, GMT7_OFFSET_MS. f_equal; lia.
Qed.

Lemma parse_day_end legacy y m d :
  0 <= y <= 9999 -> 1 <= m <= 12 -> 1 <= d <= 31 ->
  JSDate.parse legacy (date_string y m d ++ lit "T23:59:59.999+07:00")
  = Some (day_start y m d + 86399999).
Proof.
  intros Hy Hm Hd.
  change (lit "T23:59:59.999+07:00") with (84 :: lit "23:59:59.999+07:00").
  rewrite (parse_complete legacy y m d _ 61199999) by (done || reflexivity).
  unfold day_start, GMT7_OFFSET_MS, JSDate.MS_PER_DAY. f_equal; lia.
Qed.

(** The window the handler computes for the date parameter of a calendar
    day: from its first instant in UTC+7 to 86399999 ms later. *)
Lemma day_window_of_date legacy y m d now :
  0 <= y <= 9999 -> 1 <= m <= 12 -> 1 <= d <= 31 ->
  day_window legacy (Some (date_string y m d)) now
  = Some (JSDate.toISOString (day_start y m d),
          JSDate.toISOString (day_start y m d + 86399999)).
Proof.
  intros Hy Hm Hd. unfold day_window.
  assert (bool_decide (Some (date_string y m d) = Some (lit "today")) = false) as ->.
  { apply bool_decide_eq_false. intros Heq.
    assert (H0 : Some (JSDate.digit (y / 10 / 10 / 10)) = Some 116)
      by exact (f_equal (fun o : option (list Z) => head (default [] o)) Heq).
    pose proof (digit_range (y / 10 / 10 / 10)). injection H0 as H0. lia. }
  assert (truthy (Some (date_string y m d)) = true) as -> by reflexivity.
  cbn [orb negb from_option Datatypes.id].
  by rewrite parse_day_start, parse_day_end.
Qed.

(** For a Hit stamped at instant [t], being in the window is
    [from <= t < to]: the upper bound is exclusive. *)
Lemma in_window_time from to t h :
  four_digit_year from -> four_digit_year to -> four_digit_year t ->
  WebhookHit.received_at h = JSDate.toISOString t ->
  in_window (JSDate.toISOString from) (JSDate.toISOString to) None h
  = (from <=? t) && (t <? to).
Proof.
  intros Hf Hto Ht Hat. unfold in_window, text_gte. rewrite Hat.
  rewrite !toISOString_lt by done. cbn [truthy]. rewrite andb_true_r.
  f_equal. rewrite Z.leb_antisym. done.
Qed.

(** The query for a calendar day, in instants: what it returns was stamped
    in [day_start, day_start + 86399999), so a Hit stamped exactly at
    23:59:59.999 of the day is never returned; and when no more than 500
    Hits match, every Hit stamped in that half-open window is returned. *)
Lemma select_hits_of_date legacy y m d now d1 fromISO toISO :
  0 <= y <= 9999 -> 1 <= m <= 12 -> 1 <= d <= 31 ->
  four_digit_year (day_start y m d) -> four_digit_year (day_start y m d + 86399999) ->
  day_window legacy (Some (date_string y m d)) now = Some (fromISO, toISO) ->
  (forall h t, WebhookHit.received_at h = JSDate.toISOString t -> four_digit_year t ->
     (h ∈ select_hits d1 fromISO toISO None ->
      day_start y m d <= t < day_start y m d + 86399999)
     /\ (t = day_start y m d + 86399999 -> h ∉ select_hits d1 fromISO toISO None)
     /\ ((length (filter (fun h => in_window fromISO toISO None h = true)
                         (webhook_hits d1)) <= 500)%nat ->
         h ∈ webhook_hits d1 -> day_start y m d <= t < day_start y m d + 86399999 ->
         h ∈ select_hits d1 fromISO toISO None)).
Proof.
  intros Hy Hm Hd Hs He Hw h t Hat Ht.
  rewrite day_window_of_date in Hw by done. injection Hw as <- <-.
  pose proof (select_hits_spec d1 (JSDate.toISOString (day_start y m d))
                (JSDate.toISOString (day_start y m d + 86399999)) None)
    as (Hsound & _ & _ & _ & Hcomplete). cbv zeta in Hcomplete.
  assert (Hin : h ∈ select_hits d1 (JSDate.toISOString (day_start y m d))
                      (JSDate.toISOString (day_start y m d + 86399999)) None ->
                day_start y m d <= t < day_start y m d + 86399999).
  { intros (_ & Hge & Hlt)%Hsound. rewrite Hat in Hge, Hlt.
    rewrite toISOString_lt in Hge, Hlt by done. lia. }
  split; [done|]. split.
  - intros -> Hsel. apply Hin in Hsel. lia.
  - intros Hlen Hmem Hrange. rewrite (Hcomplete Hlen).
    apply list_elem_of_filter. split; [|done].
    rewrite (in_window_time _ _ t) by done. lia.
Qed.

End DayWindow.

(** C5, on the code.  Three Hits around midnight of 2025-01-01 in UTC+7:
    one at 23:59:59.500, one at 23:59:59.999, one at 00:00:00.500 of the
    next day.  The query for 2025-01-01 returns the first only, the query
    for 2025-01-02 the third only: the Hit stamped in the last millisecond
    of the day lies inside the inclusive window [00:00:00, 23:59:59.999],
    yet belongs to no day, because the upper bound 23:59:59.999 is compared
    with a strict [lt]. *)
Theorem hit_in_last_millisecond_is_dropped :
  map WebhookHit.received_at (webhook_hits (db boundary_world))
  = [lit "2025-01-01T16:59:59.500Z"; lit "2025-01-01T16:59:59.999Z";
     lit "2025-01-01T17:00:00.500Z"]
  /\ (forall legacy,
        day_window legacy (Some (lit "2025-01-01")) sample_now
        = Some (lit "2024-12-31T17:00:00.000Z", lit "2025-01-01T16:59:59.999Z"))
  /\ (forall legacy,
        day_window legacy (Some (lit "2025-01-02")) sample_now
        = Some (lit "2025-01-01T17:00:00.000Z", lit "2025-01-02T16:59:59.999Z"))
  /\ map WebhookHit.received_at
         (select_hits (db boundary_world) (lit "2024-12-31T17:00:00.000Z")
                      (lit "2025-01-01T16:59:59.999Z") None)
     = [lit "2025-01-01T16:59:59.500Z"]
  /\ map WebhookHit.received_at
         (select_hits (db boundary_world) (lit "2025-01-01T17:00:00.000Z")
                      (lit "2025-01-02T16:59:59.999Z") None)
     = [lit "2025-01-01T17:00:00.500Z"]
  /\ forall legacy,
       api_hits legacy open_env sample_request (Some (lit "2025-01-01")) None sample_now
                (db boundary_world)
       = c_json (JObj [field "date" (JStr (lit "2025-01-01"));
                     field "from" (JStr (lit "2024-12-31T17:00:00.000Z"));
                     field "to" (JStr (lit "2025-01-01T16:59:59.999Z"));
                     field "count" (JNum 1);
                     field "hits"
                       (JArr [json_of_hit
                                (WebhookHit.mk 1 (lit "line") None
                                   (lit "2025-01-01T16:59:59.500Z") 1 5
                                   (Some (lit "hello")) None None None)])]) 200.
Proof. repeat split; try intros legacy; vm_compute; reflexivity. Qed.

(** ** Worked examples *)

Example checkAuth_bearer : checkAuth bearer_request sample_env = true.
Proof. vm_compute. reflexivity. Qed.

Example checkAuth_cookie : checkAuth cookie_request sample_env = true.
Proof. vm_compute. reflexivity. Qed.

Example checkAuth_stranger : checkAuth stranger_request sample_env = false.
Proof. vm_compute. reflexivity. Qed.

Example getCookie_keeps_equals_signs :
  getCookie (mkRequest [(lit "cookie", lit " a=1;  api_token = x=y=z ")] [])
            (lit "api_token ")
  = Some (lit " x=y=z").
Proof. vm_compute. reflexivity. Qed.

Example day_window_today legacy :
  day_window legacy None sample_now
  = Some (lit "2025-11-01T17:00:00.000Z", lit "2025-11-02T16:59:59.999Z").
Proof. vm_compute. reflexivity. Qed.

(** A date parameter outside the date-time format is the engine's to read;
    when it reads no date, there is no window. *)
Example day_window_invalid legacy :
  legacy (lit "yesterdayT00:00:00+07:00") = None ->
  day_window legacy (Some (lit "yesterday")) sample_now = None.
Proof.
  intros Hl.
  assert (H : JSDate.parse legacy (lit "yesterdayT00:00:00+07:00") = None)
    by (unfold JSDate.parse; by rewrite Hl).
  unfold day_window.
  change (bool_decide (Some (lit "yesterday") = Some (lit "today"))
          || negb (truthy (Some (lit "yesterday")))) with false.
  cbv iota zeta.
  change (default [] (Some (lit "yesterday")) ++ lit "T00:00:00+07:00")
    with (lit "yesterdayT00:00:00+07:00").
  by rewrite H.
Qed.

(** A month without a day is a date of the format: the window of
    [date=2025-01] is that of 2025-01-01. *)
Example day_window_reduced_date legacy :
  day_window legacy (Some (lit "2025-01")) sample_now
  = Some (lit "2024-12-31T17:00:00.000Z", lit "2025-01-01T16:59:59.999Z")
  /\ day_window legacy (Some (lit "2025")) sample_now
     = Some (lit "2024-12-31T17:00:00.000Z", lit "2025-01-01T16:59:59.999Z").
Proof. split; vm_compute; reflexivity. Qed.

Example forward_answered :
  WebhookHit.forward_status
    <$> webhook_hits (db (executeForward net_ok 12 (Some 1) (lit "https://example.com/hook")
                                         (lit "hello") [] one_hit_world)) !! 0%nat
  = Some (Some 204).
Proof. vm_compute. reflexivity. Qed.

Example forward_headers_github :
  forward_headers [(lit "content-type", lit ""); (lit "x-github-event", lit "push")]
  = [(lit "content-type", lit "application/json");
     (lit "user-agent", lit "webhook-relay/0.5.0");
     (lit "x-github-event", lit "push")].
Proof. vm_compute. reflexivity. Qed.

Example purge_boundary :
  (purgeOldHits (t_last_millisecond + SEVEN_DAYS_MS) (db boundary_world)).1 = 1.
Proof. vm_compute. reflexivity. Qed.


(** * Further properties

    ** The shape of a token *)

Section TokenShape.

Lemma base64url_nopad_length bs :
  length (Base64.base64url_nopad bs) = ((4 * length bs + 2) / 3)%nat.
Proof.
  induction bs as [|a|a b|a b c l IH] using list_ind3; [done..|].
  cbn [Base64.base64url_nopad length]. rewrite IH.
  replace (4 * S (S (S (length l))) + 2)%nat with ((4 * length l + 2) + 4 * 3)%nat by lia.
  rewrite Nat.div_add by lia. lia.
Qed.

Lemma url_char_safe i : 0 <= i -> is_url_safe (Base64.url_char i) = true.
Proof.
  intros Hi. unfold is_url_safe, Base64.url_char.
  repeat case_match; lia.
Qed.

Lemma base64url_nopad_safe bs :
  Forall (fun b => 0 <= b) bs ->
  Forall (fun c => is_url_safe c = true) (Base64.base64url_nopad bs).
Proof.
  induction bs as [|a|a b|a b c l IH] using list_ind3; intros Hb;
    cbn [Base64.base64url_nopad].
  - constructor.
  - apply Forall_cons in Hb as [Ha _].
    repeat constructor; apply url_char_safe;
      auto using sextet1_nonneg, sextet2_nonneg with lia.
  - apply Forall_cons in Hb as [Ha Hb]. apply Forall_cons in Hb as [Hb _].
    repeat constructor; apply url_char_safe;
      auto using sextet1_nonneg, sextet2_nonneg, sextet3_nonneg with lia.
  - apply Forall_cons in Hb as [Ha Hb]. apply Forall_cons in Hb as [Hb Hc].
    apply Forall_cons in Hc as [Hc Hl].
    repeat (apply Forall_cons_2; [apply url_char_safe;
      auto using sextet1_nonneg, sextet2_nonneg, sextet3_nonneg, sextet4_nonneg|]).
    by apply IH.
Qed.

End TokenShape.

(** X1. Every issued token is 43 characters long and made of letters,
    digits, [-] and [_] only: it has no [+], [/] or [=] and can stand in a
    URL path segment as it is.  A token is issued for every secret that is
    not empty. *)
Theorem token_url_safe (id secret : jsstring) :
  (secret <> [] -> is_Some (generateWebhookToken id secret))
  /\ forall token,
       generateWebhookToken id secret = Some token ->
       length token = 43%nat
       /\ Forall (fun c => is_url_safe c = true) token
       /\ (43 ∉ token)
       /\ (47 ∉ token)
       /\ (61 ∉ token).
Proof.
  split; [intros Hne; by rewrite generateWebhookToken_spec|].
  intros token Hissue.
  assert (Hne : secret <> []).
  { intros ->. by rewrite (proj1 (empty_secret_rejects id [])) in Hissue. }
  rewrite generateWebhookToken_spec in Hissue by done. injection Hissue as <-.
  unfold issue_spec.
  assert (Hsafe : Forall (fun c => is_url_safe c = true)
                         (Base64.base64url_nopad
                            (HMAC.sign (TextEncoder.encode secret) (TextEncoder.encode id)))).
  { apply base64url_nopad_safe. eapply Forall_impl; [apply hmac_sign_range|].
    unfold is_byte. intros; lia. }
  split; [by rewrite base64url_nopad_length, hmac_sign_length|].
  split; [done|].
  rewrite Forall_forall in Hsafe.
  repeat split; intros Hin%Hsafe; discriminate Hin.
Qed.

Lemma token_url_safe_witness :
  is_Some (generateWebhookToken (lit "line") sample_secret)
  /\ length sample_token = 43%nat
  /\ (47 ∉ sample_token).
Proof.
  pose proof (token_url_safe (lit "line") sample_secret) as [Hsome Hshape].
  split; [apply Hsome; discriminate|].
  destruct (Hshape sample_token) as (Hlen & _ & _ & Hslash & _).
  - vm_compute. reflexivity.
  - split; [exact Hlen|exact Hslash].
Defined.

(** ** What a forward carries *)

Section ForwardHeaders.

Lemma forward_headers_cases originalHeaders :
  forward_headers originalHeaders
  = (lit "content-type",
     or_else (Headers_get originalHeaders (lit "content-type")) (lit "application/json"))
    :: (lit "user-agent", lit "webhook-relay/0.5.0")
    :: match Headers_get originalHeaders (lit "x-github-event") with
       | Some (c :: event) => [(lit "x-github-event", c :: event)]
       | _ => []
       end.
Proof.
  unfold forward_headers.
  by destruct (Headers_get originalHeaders (lit "x-github-event")) as [[|c event]|].
Qed.

Lemma Headers_get_cons name value rest wanted :
  Headers_get ((name, value) :: rest) wanted
  = if bool_decide (name = wanted) then Some value else Headers_get rest wanted.
Proof. unfold Headers_get. cbn. by destruct (bool_decide _). Qed.

End ForwardHeaders.

(** X2. The forward request carries exactly a content-type (the sender's,
    or application/json when there is none or it is empty), the fixed
    user-agent, and the sender's x-github-event when it has one that is not
    empty; each of them once, and no other header of the sender, such as
    authorization or cookie.  These are the headers of the one outbound
    call the executor makes. *)
Theorem forward_headers_whitelist (originalHeaders : Headers) :
  let sent := forward_headers originalHeaders in
  Headers_get sent (lit "content-type")
  = Some (or_else (Headers_get originalHeaders (lit "content-type"))
                  (lit "application/json"))
  /\ (forall value,
        Headers_get originalHeaders (lit "content-type") = Some value -> value <> [] ->
        Headers_get sent (lit "content-type") = Some value)
  /\ (truthy (Headers_get originalHeaders (lit "content-type")) = false ->
      Headers_get sent (lit "content-type") = Some (lit "application/json"))
  /\ Headers_get sent (lit "user-agent") = Some (lit "webhook-relay/0.5.0")
  /\ (forall value,
        Headers_get originalHeaders (lit "x-github-event") = Some value -> value <> [] ->
        Headers_get sent (lit "x-github-event") = Some value)
  /\ (truthy (Headers_get originalHeaders (lit "x-github-event")) = false ->
      Headers_get sent (lit "x-github-event") = None)
  /\ (forall name,
        name <> lit "content-type" -> name <> lit "user-agent" ->
        name <> lit "x-github-event" ->
        Headers_get sent name = None)
  /\ NoDup (fst <$> sent)
  /\ (forall name value,
        (name, value) ∈ sent ->
        (name = lit "content-type" /\ value <> []
         /\ (Headers_get originalHeaders (lit "content-type") = Some value
             \/ value = lit "application/json"))
        \/ (name = lit "user-agent" /\ value = lit "webhook-relay/0.5.0")
        \/ (name = lit "x-github-event" /\ value <> []
            /\ Headers_get originalHeaders (lit "x-github-event") = Some value))
  /\ (forall value, (lit "authorization", value) ∉ sent)
  /\ (forall value, (lit "cookie", value) ∉ sent)
  /\ (2 <= length sent <= 3)%nat
  /\ (forall net elapsed hitId forwardUrl body w,
        outbound (trace (executeForward net elapsed hitId forwardUrl body originalHeaders w))
        = outbound (trace w)
          ++ [mkOutbound forwardUrl (lit "POST") sent body FORWARD_TIMEOUT_MS]).
Proof.
  intros sent.
  assert (Hall : forall name value,
      (name, value) ∈ sent ->
      (name = lit "content-type" /\ value <> []
       /\ (Headers_get originalHeaders (lit "content-type") = Some value
           \/ value = lit "application/json"))
      \/ (name = lit "user-agent" /\ value = lit "webhook-relay/0.5.0")
      \/ (name = lit "x-github-event" /\ value <> []
          /\ Headers_get originalHeaders (lit "x-github-event") = Some value)).
  { intros name value. subst sent. unfold forward_headers, or_else.
    destruct (Headers_get originalHeaders (lit "content-type")) as [[|c ct]|] eqn:Hct;
      destruct (Headers_get originalHeaders (lit "x-github-event")) as [[|g gh]|] eqn:Hgh;
      cbn [truthy from_option Datatypes.id app];
      rewrite ?elem_of_cons, ?elem_of_nil;
      intros Hin; repeat destruct Hin as [Hin|Hin]; try done;
      injection Hin as -> ->; auto 10. }
  assert (Hct : Headers_get sent (lit "content-type")
                = Some (or_else (Headers_get originalHeaders (lit "content-type"))
                                (lit "application/json"))).
  { subst sent. by rewrite forward_headers_cases, Headers_get_cons. }
  split; [done|].
  split; [intros value Hv Hne; rewrite Hct, Hv; by destruct value|].
  split; [intros Hf; rewrite Hct; unfold or_else; by rewrite Hf|].
  split; [subst sent; by rewrite forward_headers_cases, !Headers_get_cons|].
  split.
  { intros value Hv Hne. subst sent.
    rewrite forward_headers_cases, !Headers_get_cons, Hv.
    destruct value as [|c event]; [done|]. by rewrite Headers_get_cons. }
  split.
  { intros Hf. subst sent. rewrite forward_headers_cases, !Headers_get_cons.
    by destruct (Headers_get originalHeaders (lit "x-github-event")) as [[|c event]|]. }
  split.
  { intros name H1 H2 H3. subst sent. rewrite forward_headers_cases, !Headers_get_cons.
    rewrite !bool_decide_eq_false_2 by congruence.
    destruct (Headers_get originalHeaders (lit "x-github-event")) as [[|c event]|];
      try done.
    rewrite Headers_get_cons. by rewrite bool_decide_eq_false_2 by congruence. }
  split.
  { subst sent. rewrite forward_headers_cases.
    destruct (Headers_get originalHeaders (lit "x-github-event")) as [[|c event]|];
      cbn [fmap list_fmap fst]; repeat constructor;
      rewrite ?elem_of_cons, ?elem_of_nil; intros H;
      repeat destruct H as [H|H]; done. }
  split; [done|].
  split; [|split; [|split]].
  - intros value Hin. apply Hall in Hin as [(H & _)|[(H & _)|(H & _)]]; discriminate H.
  - intros value Hin. apply Hall in Hin as [(H & _)|[(H & _)|(H & _)]]; discriminate H.
  - subst sent. unfold forward_headers. destruct (truthy _); cbn; lia.
  - intros. rewrite executeForward_unfold. cbn [trace]. by rewrite outbound_snoc.
Qed.

Lemma forward_headers_whitelist_witness :
  forward_headers (headers signed_in_request)
  = [(lit "content-type", lit "application/json");
     (lit "user-agent", lit "webhook-relay/0.5.0");
     (lit "x-github-event", lit "push")]
  /\ Headers_get (forward_headers (headers signed_in_request)) (lit "x-github-event")
     = Some (lit "push")
  /\ Headers_get (forward_headers (headers sample_request)) (lit "x-github-event") = None
  /\ (lit "authorization", lit "Bearer admin:hunter2")
     ∉ forward_headers (headers signed_in_request).
Proof.
  split; [reflexivity|].
  pose proof (forward_headers_whitelist (headers signed_in_request)) as H.
  cbv zeta in H. destruct H as (_ & _ & _ & _ & Hgh & _ & _ & _ & _ & Hauth & _).
  pose proof (forward_headers_whitelist (headers sample_request)) as H.
  cbv zeta in H. destruct H as (_ & _ & _ & _ & _ & Hnone & _).
  split; [apply Hgh; [reflexivity|discriminate]|].
  split; [apply Hnone; reflexivity|].
  apply Hauth.
Defined.

(** ** The size of a stored body *)

Section EncodedLength.

Lemma encode_code_point_length cp :
  (length (TextEncoder.encode_code_point cp) <= 4)%nat
  /\ (cp < 65536 -> (length (TextEncoder.encode_code_point cp) <= 3)%nat).
Proof. unfold TextEncoder.encode_code_point. repeat case_match; cbn; lia. Qed.

Lemma encode_length_le_fuel n s :
  (length s <= n)%nat -> wf_text s ->
  (length (TextEncoder.encode s) <= 3 * length s)%nat.
Proof.
  revert s. induction n as [|n IH]; intros s Hn Hwf.
  - destruct s; [cbn; lia|cbn in Hn; lia].
  - destruct s as [|c rest]; [cbn; lia|].
    apply Forall_cons in Hwf as [Hc Hrest]. cbn [length] in Hn.
    pose proof (IH rest ltac:(lia) Hrest) as IHrest.
    cbn [TextEncoder.encode].
    destruct (TextEncoder.is_high_surrogate c).
    + destruct rest as [|d rest'].
      * pose proof (proj2 (encode_code_point_length 65533) ltac:(lia)). cbn [length]. lia.
      * destruct (TextEncoder.is_low_surrogate d).
        -- apply Forall_cons in Hrest as [_ Hrest']. cbn [length] in *.
           pose proof (IH rest' ltac:(lia) Hrest').
           rewrite length_app.
           pose proof (proj1 (encode_code_point_length
                                (65536 + Z.shiftl (c - 55296) 10 + (d - 56320)))). lia.
        -- rewrite length_app.
           pose proof (proj2 (encode_code_point_length 65533) ltac:(lia)).
           cbn [length] in *. lia.
    + destruct (TextEncoder.is_low_surrogate c); rewrite length_app; cbn [length].
      * pose proof (proj2 (encode_code_point_length 65533) ltac:(lia)). lia.
      * pose proof (proj2 (encode_code_point_length c) ltac:(lia)). lia.
Qed.

Lemma encode_length_le s :
  wf_text s -> (length (TextEncoder.encode s) <= 3 * length s)%nat.
Proof. by apply (encode_length_le_fuel (length s)). Qed.

End EncodedLength.

(** X3. The body the raw and the suffix pipelines store is what the TEXT
    column gives back for the first 4096 code units of the request text.
    For the text of a request, in which every surrogate has its partner,
    that is at most 4098 code units and 12294 bytes of UTF-8, however
    large the request was; and it is the 4096 code units themselves, at
    most 12288 bytes, unless the cut falls inside a surrogate pair. *)
Theorem stored_body_bound env id token suffix request now elapsed w h :
  wf_text (text request) ->
  h ∈ webhook_hits (db (post_w env id token request now elapsed w).2)
  \/ h ∈ webhook_hits (db (post_w_suffix env id token suffix request now elapsed w).2) ->
  h ∉ webhook_hits (db w) ->
  exists stored,
    WebhookHit.body h = Some stored
    /\ stored = D1_text (take 4096 (text request))
    /\ (well_formed (take 4096 (text request)) = true ->
        stored = take 4096 (text request)
        /\ (length stored <= 4096)%nat
        /\ byte_length stored <= 12288)
    /\ (well_formed (text request) = true ->
        (length stored <= 4098)%nat
        /\ byte_length stored <= 12294
        /\ (well_formed (take 4096 (text request)) = false ->
            length stored = 4098%nat
            /\ exists pre, length pre = 4095%nat
                           /\ take 4095 (text request) = pre
                           /\ stored = pre ++ REPLACED)).
Proof.
  intros Hwf Hin Hnew.
  assert (Hrow : WebhookHit.body h = Some (D1_text (take 4096 (text request)))).
  { destruct (gate_decides env id token) as [(secret & Hs & Hne & Hv)|Hacc].
    - erewrite post_w_rejected, post_w_suffix_rejected in Hin by done.
      cbn [snd] in Hin. by destruct Hin.
    - rewrite post_w_accepted, post_w_suffix_accepted in Hin by done.
      cbn [snd db] in Hin.
      destruct (persist_is_false _); [by destruct Hin|].
      rewrite !recordHit_hits, !elem_of_app, !list_elem_of_singleton in Hin.
      destruct Hin as [[?| ->]|[?| ->]]; done. }
  eexists. split; [exact Hrow|]. split; [done|].
  assert (Hexact : well_formed (take 4096 (text request)) = true ->
                   D1_text (take 4096 (text request)) = take 4096 (text request)
                   /\ (length (D1_text (take 4096 (text request))) <= 4096)%nat
                   /\ byte_length (D1_text (take 4096 (text request))) <= 12288).
  { intros Hw. rewrite D1_text_wf by done. split; [done|].
    assert (Hlen : (length (take 4096 (text request)) <= 4096)%nat)
      by (rewrite length_take; lia).
    split; [done|]. unfold byte_length.
    pose proof (encode_length_le (take 4096 (text request)) ltac:(by apply Forall_take)).
    lia. }
  split; [done|]. intros Hs.
  destruct (D1_text_take (text request) 4096 Hs)
    as [[Hw _]|(pre & c & Hpre & Hwpre & Hc & Hn & Hlt & Hcut & Hd)].
  - destruct (Hexact Hw) as (_ & Hlen & Hbytes).
    split; [lia|]. split; [lia|]. congruence.
  - assert (Hlen : length pre = 4095%nat) by lia.
    assert (Hwfpre : wf_text (pre ++ REPLACED)).
    { apply Forall_app. split.
      - assert (Ht : wf_text (take 4096 (text request))) by by apply Forall_take.
        rewrite Hpre in Ht. by apply Forall_app in Ht as [Ht _].
      - repeat constructor; lia. }
    rewrite Hd.
    assert (Hl : length (pre ++ REPLACED) = 4098%nat) by (rewrite length_app, Hlen; done).
    split; [lia|]. split.
    + unfold byte_length. pose proof (encode_length_le _ Hwfpre). lia.
    + intros _. split; [done|]. exists pre. split; [done|]. split; [|done].
      apply (f_equal (take 4095)) in Hpre.
      rewrite take_take, <- Hlen, take_app_length, Hlen in Hpre.
      by rewrite <- Hpre.
Qed.

Lemma stored_body_bound_witness :
  exists stored,
    WebhookHit.body (WebhookHit.mk 1 (lit "line") None (lit "2025-11-02T05:27:14.567Z") 3
                       2000 (Some (text thai_request)) None None None) = Some stored
    /\ byte_length stored <= 12294.
Proof.
  destruct (stored_body_bound open_env (lit "line") (lit "any") [] thai_request sample_now 3
              empty_world
              (WebhookHit.mk 1 (lit "line") None (lit "2025-11-02T05:27:14.567Z") 3
                 2000 (Some (text thai_request)) None None None))
    as (stored & Hb & _ & _ & Hbound).
  - apply Forall_forall. intros c Hc. apply list_elem_of_In, repeat_spec in Hc. lia.
  - left. vm_compute. apply list_elem_of_here.
  - apply not_elem_of_nil.
  - exists stored. split; [exact Hb|]. apply Hbound. vm_compute. reflexivity.
Defined.

(** ** Hit ids *)

Section HitIds.

Lemma recordHit_wf d hit : hits_wf d -> hits_wf (recordHit d hit).2.
Proof.
  intros [Hb Hnd]. split; [by apply recordHit_ids_bounded|].
  rewrite recordHit_hits, map_app. cbn [map WebhookHit.id].
  apply NoDup_app. split; [done|]. split; [|apply NoDup_singleton].
  intros i Hi Hi'. apply list_elem_of_singleton in Hi'. subst i.
  apply list_elem_of_fmap in Hi as (h & Hid & Hh).
  unfold ids_bounded in Hb. rewrite Forall_forall in Hb. specialize (Hb h Hh). lia.
Qed.

Lemma update_ids i status ms error d :
  map WebhookHit.id (webhook_hits (update_forward_outcome i status ms error d))
  = map WebhookHit.id (webhook_hits d).
Proof.
  cbn. rewrite map_map. apply map_ext. intros h. by destruct (_ =? _).
Qed.

Lemma update_wf i status ms error d :
  hits_wf d -> hits_wf (update_forward_outcome i status ms error d).
Proof.
  intros [Hb Hnd]. split; [by apply update_ids_bounded|]. by rewrite update_ids.
Qed.

Lemma purge_wf now d : hits_wf d -> hits_wf (purgeOldHits now d).2.
Proof.
  intros [Hb Hnd]. split; [by apply purge_ids_bounded|].
  cbn. eapply sublist_NoDup; [exact Hnd|apply (fmap_sublist WebhookHit.id), sublist_filter].
Qed.

Lemma executeForward_wf net elapsed hitId forwardUrl body originalHeaders w :
  hits_wf (db w) ->
  hits_wf (db (executeForward net elapsed hitId forwardUrl body originalHeaders w)).
Proof.
  intros Hwf. rewrite executeForward_unfold. cbn [db].
  destruct hitId; [by apply update_wf|done].
Qed.

End HitIds.

(** X4. Hit ids stay unique and below the AUTOINCREMENT counter through
    everything the pipeline does to the store: the three receive handlers,
    the forward executor and the purge.  The empty store starts that way. *)
Theorem hits_wf_preserved
        (parseGitHubEvent : jsstring -> jsstring -> option jsstring)
        env id token suffix request now elapsed net hitId forwardUrl body hs w :
  hits_wf empty_db
  /\ (hits_wf (db w) ->
      hits_wf (db (post_w env id token request now elapsed w).2)
      /\ hits_wf (db (post_w_suffix env id token suffix request now elapsed w).2)
      /\ hits_wf (db (post_w_github parseGitHubEvent env id token request now elapsed w).2)
      /\ hits_wf (db (executeForward net elapsed hitId forwardUrl body hs w))
      /\ hits_wf (purgeOldHits now (db w)).2).
Proof.
  split; [split; [constructor|constructor]|].
  intros Hwf.
  split; [|split; [|split; [|split]]].
  - destruct (gate_decides env id token) as [(secret & Hs & Hne & Hv)|Hacc].
    + by erewrite post_w_rejected.
    + rewrite post_w_accepted by done. cbn [snd db].
      destruct (persist_is_false _); [done|by apply recordHit_wf].
  - destruct (gate_decides env id token) as [(secret & Hs & Hne & Hv)|Hacc].
    + by erewrite post_w_suffix_rejected.
    + rewrite post_w_suffix_accepted by done. cbn [snd db].
      destruct (persist_is_false _); [done|by apply recordHit_wf].
  - destruct (gate_decides env id token) as [(secret & Hs & Hne & Hv)|Hacc].
    + by erewrite post_w_github_rejected.
    + destruct (post_w_github_accepted parseGitHubEvent env id token request now
                  elapsed w Hacc) as [row ->]. cbn [snd db].
      destruct (persist_is_false _); [done|by apply recordHit_wf].
  - by apply executeForward_wf.
  - by apply purge_wf.
Qed.

Lemma hits_wf_preserved_witness :
  hits_wf (db (post_w open_env (lit "line") (lit "any") sample_request sample_now 3
                      boundary_world).2).
Proof.
  apply (hits_wf_preserved (fun _ _ => None) open_env (lit "line") (lit "any") []
           sample_request sample_now 3 net_ok None [] [] [] boundary_world).
  split.
  - unfold ids_bounded. vm_compute. repeat constructor; discriminate.
  - vm_compute. repeat constructor; rewrite ?elem_of_cons, ?elem_of_nil;
      intros H; repeat destruct H as [H|H]; discriminate H || done.
Defined.

(** X5. Receive, then forward: when a request is persisted and its forward
    later settles, the outcome lands on the row that request wrote, which
    until then had no forward status, and every older row is as it was: an
    answer records its status code, a failure records 0 and the message. *)
Theorem forward_outcome_lands_on_new_row env id token request now elapsed w ru net
        forward_ms :
  ids_bounded (db w) ->
  ~ (exists secret, API_TOKEN env = Some secret /\ secret <> []
                    /\ verifyWebhookToken id token secret = Some false) ->
  getForwardRule (db w) id = Some ru -> ForwardRule.persist ru = true ->
  let w1 := (post_w env id token request now elapsed w).2 in
  let hitId := receive_hitId (db w) id in
  let w2 := executeForward net forward_ms hitId (ForwardRule.forward_url ru)
                           (text request) (headers request) w1 in
  let outbound_request :=
    mkOutbound (ForwardRule.forward_url ru) (lit "POST")
               (forward_headers (headers request)) (text request) FORWARD_TIMEOUT_MS in
  exists row,
    webhook_hits (db w1) = webhook_hits (db w) ++ [row]
    /\ hitId = Some (WebhookHit.id row)
    /\ WebhookHit.forward_status row = None
    /\ (forall code, net outbound_request = Responded code ->
          webhook_hits (db w2)
          = webhook_hits (db w) ++ [set_forward_outcome (Some code) forward_ms None row])
    /\ (forall message, net outbound_request = Threw message ->
          webhook_hits (db w2)
          = webhook_hits (db w)
            ++ [set_forward_outcome (Some 0) forward_ms
                  (Some (default (lit "Unknown fetch error") message)) row]).
Proof.
  intros Hb Hacc Hru Hp w1 hitId w2 outbound_request. subst w1 hitId w2.
  rewrite post_w_accepted by done. unfold receive_hitId. rewrite Hru.
  cbn [persist_is_false]. rewrite Hp. cbn [negb snd db].
  rewrite executeForward_unfold. cbn [db]. fold outbound_request.
  unfold update_forward_outcome. cbn [with_hits webhook_hits].
  rewrite recordHit_hits. eexists. split; [reflexivity|].
  split; [reflexivity|]. split; [reflexivity|].
  assert (Hold : forall st er,
             map (fun h => if WebhookHit.id h =? webhook_hits_seq (db w) + 1
                           then set_forward_outcome st forward_ms er h else h)
                 (webhook_hits (db w)) = webhook_hits (db w)).
  { intros st er. rewrite <- (map_id (webhook_hits (db w))) at 2.
    apply map_ext_Forall. eapply Forall_impl; [exact Hb|]. cbn. intros h Hh.
    destruct (Z.eqb_spec (WebhookHit.id h) (webhook_hits_seq (db w) + 1)); [lia|done]. }
  split.
  - intros code ->. rewrite map_app, Hold. cbn [map WebhookHit.id].
    by rewrite Z.eqb_refl.
  - intros message ->. rewrite map_app, Hold. cbn [map WebhookHit.id].
    by rewrite Z.eqb_refl.
Qed.

Lemma forward_outcome_lands_on_new_row_witness :
  WebhookHit.forward_status
    <$> webhook_hits
          (db (executeForward net_down 12 (receive_hitId (db relay_world) (lit "line"))
                 (ForwardRule.forward_url relay_rule) (text sample_request)
                 (headers sample_request)
                 (post_w open_env (lit "line") (lit "any") sample_request sample_now 3
                         relay_world).2)) !! 0%nat
  = Some (Some 0).
Proof.
  destruct (forward_outcome_lands_on_new_row open_env (lit "line") (lit "any")
              sample_request sample_now 3 relay_world relay_rule net_down 12)
    as (row & _ & _ & _ & _ & Hthrew).
  - constructor.
  - intros (secret & Hs & _). discriminate Hs.
  - reflexivity.
  - reflexivity.
  - rewrite (Hthrew _ eq_refl). reflexivity.
Defined.

(** X6. A forward that settles late cannot land on another Hit: once a Hit
    has been purged its id is not given out again, so the outcome of its
    forward, arriving after the purge and after newer Hits were written,
    changes nothing in the store. *)
Theorem late_forward_after_purge d now h hit net elapsed forwardUrl body hs tr :
  hits_wf d ->
  h ∈ webhook_hits d ->
  h ∉ webhook_hits (purgeOldHits now d).2 ->
  let d2 := (recordHit (purgeOldHits now d).2 hit).2 in
  (recordHit (purgeOldHits now d).2 hit).1 <> WebhookHit.id h
  /\ db (executeForward net elapsed (Some (WebhookHit.id h)) forwardUrl body hs
                        (mkWorld d2 tr)) = d2.
Proof.
  intros [Hb Hnd] Hin Hgone d2.
  assert (Hfresh : webhook_hits_seq d + 1 <> WebhookHit.id h).
  { unfold ids_bounded in Hb. rewrite Forall_forall in Hb. specialize (Hb h Hin). lia. }
  split; [done|].
  rewrite executeForward_unfold. cbn [db]. subst d2.
  unfold update_forward_outcome, with_hits. cbn [recordHit snd webhook_hits purgeOldHits
    with_hits webhook_hits_seq forward_rules aliases].
  f_equal. rewrite <- (map_id (_ ++ _)) at 2. apply map_ext_Forall.
  apply Forall_app. split.
  - apply Forall_forall. intros h' Hh'.
    destruct (Z.eqb_spec (WebhookHit.id h') (WebhookHit.id h)) as [Heq|]; [|done].
    exfalso. apply Hgone. cbn.
    assert (h' = h) as <-; [|done].
    apply list_elem_of_filter in Hh' as [_ Hh'].
    apply list_elem_of_lookup in Hh' as [i Hi]. apply list_elem_of_lookup in Hin as [j Hj].
    assert (i = j) as ->; [|congruence].
    eapply NoDup_lookup; [exact Hnd| |]; rewrite list_lookup_fmap.
    + by rewrite Hi.
    + rewrite Hj. cbn. by rewrite Heq.
  - apply Forall_singleton. cbn.
    destruct (Z.eqb_spec (webhook_hits_seq d + 1) (WebhookHit.id h)); done.
Qed.

Lemma late_forward_after_purge_witness :
  db (executeForward net_ok 9 (Some 1) (lit "https://example.com/hook") (lit "hello") []
        (mkWorld (recordHit (purgeOldHits sample_now (db aged_world)).2
                            (raw_hit (lit "line") sample_request sample_now 3)).2 []))
  = (recordHit (purgeOldHits sample_now (db aged_world)).2
               (raw_hit (lit "line") sample_request sample_now 3)).2.
Proof.
  apply (late_forward_after_purge (db aged_world) sample_now
           (WebhookHit.mk 1 (lit "line") None (lit "1970-01-01T00:00:00.000Z") 1 5
                          (Some (lit "hello")) None None None)).
  - split.
    + unfold ids_bounded. vm_compute. repeat constructor; discriminate.
    + vm_compute. repeat constructor. apply not_elem_of_nil.
  - vm_compute. apply list_elem_of_here.
  - vm_compute. apply not_elem_of_nil.
Defined.

(** ** The hits query as the handler answers it *)

Section ReducedDates.

Variable legacy : jsstring -> option Z.

Lemma parse_date_month y m :
  0 <= y <= 9999 -> 1 <= m <= 12 ->
  JSDate.parse_date (month_string y m) = Some (y, m, 1).
Proof.
  intros Hy Hm.
  pose proof (digits_value_pad 4 y ltac:(lia) ltac:(change (10 ^ Z.of_nat 4) with 10000; lia)) as Ey.
  pose proof (digits_value_pad 2 m ltac:(lia) ltac:(change (10 ^ Z.of_nat 2) with 100; lia)) as Em.
  change (month_string y m)
    with [JSDate.digit (y / 10 / 10 / 10); JSDate.digit (y / 10 / 10); JSDate.digit (y / 10);
          JSDate.digit y; 45; JSDate.digit (m / 10); JSDate.digit m].
  change (JSDate.pad_dec 4 y)
    with [JSDate.digit (y / 10 / 10 / 10); JSDate.digit (y / 10 / 10); JSDate.digit (y / 10);
          JSDate.digit y] in Ey.
  change (JSDate.pad_dec 2 m) with [JSDate.digit (m / 10); JSDate.digit m] in Em.
  cbv beta iota zeta delta [JSDate.parse_date].
  rewrite Ey, Em. change (45 =? 45) with true. cbv beta iota.
  by assert ((1 <=? m) && (m <=? 12) && (1 <=? 1) && (1 <=? 31) = true) as -> by lia.
Qed.

Lemma parse_date_year y :
  0 <= y <= 9999 -> JSDate.parse_date (JSDate.pad_dec 4 y) = Some (y, 1, 1).
Proof.
  intros Hy.
  pose proof (digits_value_pad 4 y ltac:(lia) ltac:(change (10 ^ Z.of_nat 4) with 10000; lia)) as Ey.
  change (JSDate.pad_dec 4 y)
    with [JSDate.digit (y / 10 / 10 / 10); JSDate.digit (y / 10 / 10); JSDate.digit (y / 10);
          JSDate.digit y] in *.
  cbv beta iota zeta delta [JSDate.parse_date]. by rewrite Ey.
Qed.

(** A month followed by [T] and a time is read by the second of the three
    date forms: its day is the first of the month. *)
Lemma parse_month y m h1 h2 rest ms :
  0 <= y <= 9999 -> 1 <= m <= 12 ->
  JSDate.parse_time (h1 :: h2 :: 58 :: rest) = Some ms ->
  JSDate.parse legacy (month_string y m ++ 84 :: h1 :: h2 :: 58 :: rest)
  = Some (JSDate.days_from_civil y m 1 * JSDate.MS_PER_DAY + ms).
Proof.
  intros Hy Hm Ht. unfold JSDate.parse, JSDate.parse_date_time.
  assert (JSDate.parse_date_time_at 10 (month_string y m ++ 84 :: h1 :: h2 :: 58 :: rest)
          = None) as -> by reflexivity.
  unfold JSDate.parse_date_time_at.
  assert (Hlen : length (month_string y m) = 7%nat) by reflexivity.
  rewrite drop_app_length', take_app_length' by done.
  by rewrite parse_date_month, Ht.
Qed.

(** A year followed by [T] and a time is read by the third: its day is the
    first of January. *)
Lemma parse_year y h1 h2 mi1 mi2 rest ms :
  0 <= y <= 9999 ->
  JSDate.parse_time (h1 :: h2 :: 58 :: mi1 :: mi2 :: 58 :: rest) = Some ms ->
  JSDate.parse legacy (JSDate.pad_dec 4 y ++ 84 :: h1 :: h2 :: 58 :: mi1 :: mi2 :: 58 :: rest)
  = Some (JSDate.days_from_civil y 1 1 * JSDate.MS_PER_DAY + ms).
Proof.
  intros Hy Ht. unfold JSDate.parse, JSDate.parse_date_time.
  assert (JSDate.parse_date_time_at 10
            (JSDate.pad_dec 4 y ++ 84 :: h1 :: h2 :: 58 :: mi1 :: mi2 :: 58 :: rest)
          = None) as -> by reflexivity.
  assert (JSDate.parse_date_time_at 7
            (JSDate.pad_dec 4 y ++ 84 :: h1 :: h2 :: 58 :: mi1 :: mi2 :: 58 :: rest)
          = None) as -> by reflexivity.
  unfold JSDate.parse_date_time_at.
  assert (Hlen : length (JSDate.pad_dec 4 y) = 4%nat) by reflexivity.
  rewrite drop_app_length', take_app_length' by done.
  by rewrite parse_date_year, Ht.
Qed.

Lemma not_today y rest : Some (JSDate.pad_dec 4 y ++ rest) <> Some (lit "today").
Proof.
  intros Heq.
  assert (H0 : Some (JSDate.digit (y / 10 / 10 / 10)) = Some 116)
    by exact (f_equal (fun o : option (list Z) => head (default [] o)) Heq).
  pose proof (digit_range (y / 10 / 10 / 10)). injection H0 as H0. lia.
Qed.

Lemma day_window_of_month y m now :
  0 <= y <= 9999 -> 1 <= m <= 12 ->
  day_window legacy (Some (month_string y m)) now
  = Some (JSDate.toISOString (day_start y m 1),
          JSDate.toISOString (day_start y m 1 + 86399999)).
Proof.
  intros Hy Hm. unfold day_window.
  assert (bool_decide (Some (month_string y m) = Some (lit "today")) = false) as ->
    by apply bool_decide_eq_false, (not_today y (45 :: JSDate.pad_dec 2 m)).
  assert (truthy (Some (month_string y m)) = true) as -> by reflexivity.
  cbn [orb negb from_option Datatypes.id].
  change (lit "T00:00:00+07:00") with (84 :: 48 :: 48 :: 58 :: lit "00:00+07:00").
  change (lit "T23:59:59.999+07:00") with (84 :: 50 :: 51 :: 58 :: lit "59:59.999+07:00").
  rewrite (parse_month y m _ _ _ (-25200000)) by (done || reflexivity).
  rewrite (parse_month y m _ _ _ 61199999) by (done || reflexivity).
  unfold day_start, GMT7_OFFSET_MS, JSDate.MS_PER_DAY. do 3 f_equal; lia.
Qed.

Lemma day_window_of_year y now :
  0 <= y <= 9999 ->
  day_window legacy (Some (JSDate.pad_dec 4 y)) now
  = Some (JSDate.toISOString (day_start y 1 1),
          JSDate.toISOString (day_start y 1 1 + 86399999)).
Proof.
  intros Hy. unfold day_window.
  assert (Hnt : Some (JSDate.pad_dec 4 y) <> Some (lit "today")).
  { rewrite <- (app_nil_r (JSDate.pad_dec 4 y)). apply not_today. }
  rewrite (bool_decide_eq_false_2 _ Hnt).
  assert (truthy (Some (JSDate.pad_dec 4 y)) = true) as -> by reflexivity.
  cbn [orb negb from_option Datatypes.id].
  change (lit "T00:00:00+07:00")
    with (84 :: 48 :: 48 :: 58 :: 48 :: 48 :: 58 :: lit "00+07:00").
  change (lit "T23:59:59.999+07:00")
    with (84 :: 50 :: 51 :: 58 :: 53 :: 57 :: 58 :: lit "59.999+07:00").
  rewrite (parse_year y _ _ _ _ _ (-25200000)) by (done || reflexivity).
  rewrite (parse_year y _ _ _ _ _ 61199999) by (done || reflexivity).
  unfold day_start, GMT7_OFFSET_MS, JSDate.MS_PER_DAY. do 3 f_equal; lia.
Qed.

End ReducedDates.

(** X7. An authorized [/api/hits] whose date parameter the engine reads as
    a date answers 200 with the window, the count and the rows; the rows
    come from the table, lie in the window (lower bound included, upper
    bound excluded), belong to the endpoint when one is asked for, are
    newest first and at most 500, and are all the matching rows when no
    more than 500 match.  Without authorization the answer is 401; with a
    date parameter that is no date it is 500.  A complete date
    [YYYY-MM-DD] is always read, as the day it names; so are a month
    [YYYY-MM] and a year [YYYY] alone, as their first day.  What other
    strings are read as is the engine's choice, [legacy]. *)
Theorem api_hits_contract (legacy : jsstring -> option Z)
        env request dateParam endpointParam now d :
  (checkAuth request env = false ->
   api_hits legacy env request dateParam endpointParam now d
   = c_json (error_body "Unauthorized") 401)
  /\ (checkAuth request env = true -> day_window legacy dateParam now = None ->
      api_hits legacy env request dateParam endpointParam now d = internal_server_error
      /\ status (api_hits legacy env request dateParam endpointParam now d) = 500)
  /\ (forall fromISO toISO,
        checkAuth request env = true ->
        day_window legacy dateParam now = Some (fromISO, toISO) ->
        exists hits,
          api_hits legacy env request dateParam endpointParam now d
          = c_json (JObj [field "date" (JStr (or_else dateParam (lit "today")));
                          field "from" (JStr fromISO);
                          field "to" (JStr toISO);
                          field "count" (JNum (Z.of_nat (length hits)));
                          field "hits" (JArr (map json_of_hit hits))]) 200
          /\ (length hits <= 500)%nat
          /\ StronglySorted newer_first hits
          /\ (forall h, h ∈ hits ->
                h ∈ webhook_hits d
                /\ text_lt (WebhookHit.received_at h) fromISO = false
                /\ text_lt (WebhookHit.received_at h) toISO = true
                /\ (truthy endpointParam = true ->
                    Some (WebhookHit.endpoint h) = endpointParam))
          /\ ((length (filter (fun h => in_window fromISO toISO endpointParam h = true)
                              (webhook_hits d)) <= 500)%nat ->
              forall h, h ∈ webhook_hits d ->
                        in_window fromISO toISO endpointParam h = true -> h ∈ hits))
  /\ (status (api_hits legacy env request dateParam endpointParam now d) = 200
      <-> checkAuth request env = true /\ is_Some (day_window legacy dateParam now))
  /\ (forall y m dd,
        0 <= y <= 9999 -> 1 <= m <= 12 -> 1 <= dd <= 31 ->
        day_window legacy (Some (date_string y m dd)) now
        = Some (JSDate.toISOString (day_start y m dd),
                JSDate.toISOString (day_start y m dd + 86399999)))
  /\ (forall y m,
        0 <= y <= 9999 -> 1 <= m <= 12 ->
        day_window legacy (Some (month_string y m)) now
        = day_window legacy (Some (date_string y m 1)) now)
  /\ (forall y,
        0 <= y <= 9999 ->
        day_window legacy (Some (JSDate.pad_dec 4 y)) now
        = day_window legacy (Some (date_string y 1 1)) now).
Proof.
  split; [intros Hauth; unfold api_hits; by rewrite Hauth|].
  split; [intros Hauth Hw; unfold api_hits; by rewrite Hauth, Hw|].
  split.
  { intros fromISO toISO Hauth Hw. unfold api_hits. rewrite Hauth, Hw. cbn [negb].
    exists (select_hits d fromISO toISO endpointParam). split; [done|].
    pose proof (select_hits_spec d fromISO toISO endpointParam)
      as (Hsound & Hsorted & Hlen & Hsub & Hcomplete). cbv zeta in Hcomplete.
    split; [done|]. split; [done|]. split.
    - intros h Hh. destruct (Hsound h Hh) as (Hin & Hge & Hlt).
      repeat split; try done. intros Htruthy.
      apply (fun H => elem_of_sublist _ _ _ H Hsub) in Hh.
      rewrite (merge_sort_Permutation newer_first) in Hh.
      apply list_elem_of_filter in Hh as [Hwin _]. unfold in_window in Hwin.
      rewrite Htruthy in Hwin. apply andb_true_iff in Hwin as [_ Hep].
      by apply bool_decide_eq_true in Hep.
    - intros Hfew h Hin Hwin. rewrite (Hcomplete Hfew).
      by apply list_elem_of_filter. }
  split.
  { unfold api_hits. destruct (checkAuth request env); cbn [negb].
    - destruct (day_window legacy dateParam now) as [[fromISO toISO]|]; cbn.
      + split; [eauto|done].
      + split; [lia|]. by intros [_ [? ?]].
    - cbn. split; [lia|]. by intros [? _]. }
  split; [intros; by apply day_window_of_date|].
  split.
  - intros y m Hy Hm. rewrite day_window_of_month, day_window_of_date by (done || lia). done.
  - intros y Hy. rewrite day_window_of_year, day_window_of_date by (done || lia). done.
Qed.

Lemma api_hits_contract_witness :
  status (api_hits no_legacy sample_env stranger_request (Some (lit "2025-01-01")) None
                   sample_now (db boundary_world)) = 401
  /\ status (api_hits no_legacy open_env sample_request (Some (lit "yesterday")) None
                      sample_now (db boundary_world)) = 500
  /\ day_window no_legacy (Some (lit "2025-01")) sample_now
     = Some (lit "2024-12-31T17:00:00.000Z", lit "2025-01-01T16:59:59.999Z")
  /\ exists hits,
       api_hits no_legacy open_env sample_request (Some (lit "2025-01")) (Some (lit "line"))
                sample_now (db boundary_world)
       = c_json (JObj [field "date" (JStr (lit "2025-01"));
                       field "from" (JStr (lit "2024-12-31T17:00:00.000Z"));
                       field "to" (JStr (lit "2025-01-01T16:59:59.999Z"));
                       field "count" (JNum (Z.of_nat (length hits)));
                       field "hits" (JArr (map json_of_hit hits))]) 200
       /\ (length hits <= 500)%nat.
Proof.
  pose proof (api_hits_contract no_legacy sample_env stranger_request
                (Some (lit "2025-01-01")) None sample_now (db boundary_world))
    as (H401 & _).
  pose proof (api_hits_contract no_legacy open_env sample_request
                (Some (lit "yesterday")) None sample_now (db boundary_world))
    as (_ & H500 & _).
  pose proof (api_hits_contract no_legacy open_env sample_request
                (Some (lit "2025-01")) (Some (lit "line")) sample_now (db boundary_world))
    as (_ & _ & H200 & _ & _ & Hmonth & _).
  assert (Hw : day_window no_legacy (Some (lit "2025-01")) sample_now
               = Some (lit "2024-12-31T17:00:00.000Z", lit "2025-01-01T16:59:59.999Z")).
  { change (lit "2025-01") with (month_string 2025 1).
    rewrite Hmonth by lia. vm_compute. reflexivity. }
  split.
  { rewrite H401; [reflexivity|]. vm_compute. reflexivity. }
  split.
  { apply H500; vm_compute; reflexivity. }
  split; [exact Hw|].
  destruct (H200 (lit "2024-12-31T17:00:00.000Z") (lit "2025-01-01T16:59:59.999Z"))
    as (hits & Heq & Hlen & _).
  - reflexivity.
  - exact Hw.
  - exists hits. split; [exact Heq|exact Hlen].
Defined.

(** ** Timestamps of stored Hits *)

Section Stamps.

Lemma recordHit_stamped d hit t :
  stamped d -> four_digit_year t ->
  NewWebhookHit.received_at hit = JSDate.toISOString t ->
  stamped (recordHit d hit).2.
Proof.
  intros Hs Ht Hat. unfold stamped. rewrite recordHit_hits.
  apply Forall_app. split; [done|]. apply Forall_singleton. cbn. eauto.
Qed.

Lemma update_stamped i status ms error d :
  stamped d -> stamped (update_forward_outcome i status ms error d).
Proof.
  unfold stamped. cbn. intros Hs. apply Forall_fmap.
  eapply Forall_impl; [exact Hs|]. intros h Hh. cbn. by destruct (_ =? _).
Qed.

End Stamps.

Section ReceiveRow.

Variable parseGitHubEvent : jsstring -> jsstring -> option jsstring.

(** What the three receive handlers do to the store: nothing when the
    token is refused or the rule says not to persist, and one [recordHit]
    of a row stamped with the instant of the request otherwise. *)
Lemma receive_row env id token suffix request now elapsed w w' :
  w' = (post_w env id token request now elapsed w).2
  \/ w' = (post_w_suffix env id token suffix request now elapsed w).2
  \/ w' = (post_w_github parseGitHubEvent env id token request now elapsed w).2 ->
  ((exists secret, API_TOKEN env = Some secret /\ secret <> []
                   /\ verifyWebhookToken id token secret = Some false) ->
   db w' = db w)
  /\ (~ (exists secret, API_TOKEN env = Some secret /\ secret <> []
                        /\ verifyWebhookToken id token secret = Some false) ->
      exists row,
        NewWebhookHit.received_at row = JSDate.toISOString now
        /\ db w' = if persist_is_false (getForwardRule (db w) id) then db w
                   else (recordHit (db w) row).2).
Proof.
  intros Hw'. split.
  - intros (secret & Hs & Hne & Hv). destruct Hw' as [->|[->| ->]].
    + by erewrite post_w_rejected.
    + by erewrite post_w_suffix_rejected.
    + by erewrite post_w_github_rejected.
  - intros Hacc. destruct Hw' as [->|[->| ->]].
    + rewrite post_w_accepted by done. by eexists (raw_hit id request now elapsed).
    + rewrite post_w_suffix_accepted by done.
      by eexists (suffix_hit id suffix request now elapsed).
    + unfold post_w_github. rewrite (gate_accepts _ _ _ Hacc).
      eexists (NewWebhookHit.mk id (Some (lit "/github")) (JSDate.toISOString now) elapsed
                 (js_length (text request)) (Some _)).
      split; [reflexivity|].
      receive_cases; reflexivity.
Qed.

End ReceiveRow.

(** X8. Every Hit the pipeline stores is stamped with the ISO string of the
    instant it was received: each receive handler leaves the Hits as they
    are or appends one row whose [received_at] is [toISOString] of the
    instant of the request, and it appends that row whenever the token is
    accepted and the rule does not say [persist = false].  Nothing the
    pipeline does later changes a stamp: a forward keeps every
    [received_at], a purge only removes rows.  For Hits stamped so the TEXT
    order the queries use is the order of the instants, so newest first
    means latest first. *)
Theorem stamps_are_chronological
        (parseGitHubEvent : jsstring -> jsstring -> option jsstring)
        env id token suffix request now elapsed net hitId forwardUrl body hs w :
  stamped empty_db
  /\ (forall w',
        w' = (post_w env id token request now elapsed w).2
        \/ w' = (post_w_suffix env id token suffix request now elapsed w).2
        \/ w' = (post_w_github parseGitHubEvent env id token request now elapsed w).2 ->
        (webhook_hits (db w') = webhook_hits (db w)
         \/ exists h, webhook_hits (db w') = webhook_hits (db w) ++ [h]
                      /\ WebhookHit.received_at h = JSDate.toISOString now)
        /\ (~ (exists secret, API_TOKEN env = Some secret /\ secret <> []
                              /\ verifyWebhookToken id token secret = Some false) ->
            persist_is_false (getForwardRule (db w) id) = false ->
            exists h, webhook_hits (db w') = webhook_hits (db w) ++ [h]
                      /\ WebhookHit.received_at h = JSDate.toISOString now)
        /\ (stamped (db w) -> four_digit_year now -> stamped (db w')))
  /\ map WebhookHit.received_at
         (webhook_hits (db (executeForward net elapsed hitId forwardUrl body hs w)))
     = map WebhookHit.received_at (webhook_hits (db w))
  /\ webhook_hits (purgeOldHits now (db w)).2 `sublist_of` webhook_hits (db w)
  /\ (stamped (db w) ->
      stamped (db (executeForward net elapsed hitId forwardUrl body hs w))
      /\ stamped (purgeOldHits now (db w)).2)
  /\ (forall a b ta tb,
        four_digit_year ta -> four_digit_year tb ->
        WebhookHit.received_at a = JSDate.toISOString ta ->
        WebhookHit.received_at b = JSDate.toISOString tb ->
        (newer_first a b <-> tb <= ta)).
Proof.
  split; [constructor|]. split; [|split; [|split; [|split]]].
  - intros w' Hw'.
    destruct (receive_row parseGitHubEvent env id token suffix request now elapsed w w' Hw')
      as [Hrej Hacc].
    assert (Hrow : ~ (exists secret, API_TOKEN env = Some secret /\ secret <> []
                        /\ verifyWebhookToken id token secret = Some false) ->
                   persist_is_false (getForwardRule (db w) id) = false ->
                   exists h, webhook_hits (db w') = webhook_hits (db w) ++ [h]
                             /\ WebhookHit.received_at h = JSDate.toISOString now).
    { intros Ha Hp. destruct (Hacc Ha) as (row & Hat & Hdb).
      rewrite Hdb, Hp, recordHit_hits.
      eexists. split; [reflexivity|]. exact Hat. }
    assert (Hone : webhook_hits (db w') = webhook_hits (db w)
                   \/ exists h, webhook_hits (db w') = webhook_hits (db w) ++ [h]
                                /\ WebhookHit.received_at h = JSDate.toISOString now).
    { destruct (gate_decides env id token) as [Hr|Ha].
      - left. by rewrite (Hrej Hr).
      - destruct (persist_is_false (getForwardRule (db w) id)) eqn:Hp.
        + left. destruct (Hacc Ha) as (row & _ & Hdb). by rewrite Hdb.
        + right. by apply Hrow. }
    split; [done|]. split; [done|].
    intros Hs Hnow. unfold stamped.
    destruct Hone as [->|(h & -> & Hat)]; [done|].
    apply Forall_app. split; [done|]. apply Forall_singleton. eauto.
  - rewrite executeForward_unfold. cbn [db]. destruct hitId as [i|]; [|done].
    cbn. rewrite map_map. apply map_ext. intros h. by destruct (_ =? _).
  - cbn. apply sublist_filter.
  - intros Hs. split.
    + rewrite executeForward_unfold. cbn [db]. destruct hitId; [by apply update_stamped|done].
    + unfold stamped in *. cbn. rewrite !Forall_forall in *.
      intros h [_ Hin]%list_elem_of_filter. by apply Hs.
  - intros a b ta tb Hta Htb Ha Hb. unfold newer_first. rewrite Ha, Hb.
    rewrite toISOString_lt by done. apply Z.ltb_ge.
Qed.

Lemma stamps_are_chronological_witness :
  (exists h,
     webhook_hits (db (post_w open_env (lit "line") (lit "any") sample_request sample_now 3
                              empty_world).2) = [h]
     /\ WebhookHit.received_at h = lit "2025-11-02T05:27:14.567Z")
  /\ stamped (db (post_w open_env (lit "line") (lit "any") sample_request sample_now 3
                         empty_world).2)
  /\ (newer_first hit_last_millisecond hit_before_midnight
      <-> t_before_midnight <= t_last_millisecond).
Proof.
  pose proof (stamps_are_chronological (fun _ _ => None) open_env (lit "line") (lit "any")
                [] sample_request sample_now 3 net_ok None [] [] [] empty_world)
    as (Hempty & Hreceive & _ & _ & _ & Horder).
  destruct (Hreceive _ (or_introl eq_refl)) as (_ & Hrow & Hstamped).
  split.
  - destruct Hrow as (h & Hh & Hat).
    + intros (secret & Hs & _). discriminate Hs.
    + reflexivity.
    + exists h. split; [exact Hh|exact Hat].
  - split.
    + apply Hstamped; [exact Hempty|]. vm_compute. split; [discriminate|reflexivity].
    + apply Horder; [vm_compute; split; [discriminate|reflexivity]..|reflexivity|reflexivity].
Defined.

(** ** Writing, toggling and deleting rules *)



(** X10. The REST handler and the MCP tool [set_forward_rule] write the same
    store for the same rule: for an authorized request with a non-empty
    [forward_url], [PUT] and the tool leave identical databases, and the one
    answers 200 exactly when the other reports no error.  The tool has no
    check for an empty URL of its own. *)
Theorem rest_and_mcp_write_same_rule (URL_parses : jsstring -> bool)
        env endpoint request fwd enabled persist now d :
  checkAuth request env = true ->
  fwd <> [] ->
  let rest := put_forward_rule URL_parses env endpoint request
                (Some (mkRuleBody (Some fwd) enabled persist)) now d in
  let tool := set_forward_rule URL_parses endpoint fwd enabled persist now d in
  rest.2 = tool.2
  /\ (status rest.1 = 200 <-> isError tool.1 = false)
  /\ (isError tool.1 = false -> payload rest.1 = content tool.1).
Proof.
  intros Hauth Hne. cbv zeta. unfold put_forward_rule, set_forward_rule.
  rewrite Hauth. cbn [negb body_forward_url body_enabled body_persist].
  assert (truthy (Some fwd) = true) as -> by by destruct fwd.
  cbn [negb from_option Datatypes.id].
  destruct (URL_parses fwd); cbn [negb fst snd isError status c_json content payload].
  - done.
  - split; [done|]. split; [split; [lia|discriminate]|discriminate].
Qed.

Lemma rest_and_mcp_write_same_rule_witness :
  (put_forward_rule starts_with_http sample_env (lit "line") bearer_request
     (Some (mkRuleBody (Some (lit "https://new.example.com/")) (Some false) None))
     sample_now off_db).2
  = (set_forward_rule starts_with_http (lit "line") (lit "https://new.example.com/")
       (Some false) None sample_now off_db).2.
Proof.
  apply (rest_and_mcp_write_same_rule starts_with_http sample_env (lit "line")
           bearer_request (lit "https://new.example.com/") (Some false) None
           sample_now off_db).
  - vm_compute. reflexivity.
  - discriminate.
Defined.

(** X11. The dashboard's two toggles, sent through [PUT], flip one flag of a
    stored rule and keep the other flag, the URL and [created_at]; toggling
    [enabled] twice brings both flags back. *)
Theorem dashboard_toggle_flips_one_flag (URL_parses : jsstring -> bool)
        env endpoint request rule now now' d :
  checkAuth request env = true ->
  getForwardRule d endpoint = Some rule ->
  ForwardRule.forward_url rule <> [] ->
  URL_parses (ForwardRule.forward_url rule) = true ->
  let put b t s := (put_forward_rule URL_parses env endpoint request (Some b) t s).2 in
  let toggled := ForwardRule.mk (ForwardRule.forward_url rule)
                   (negb (ForwardRule.enabled rule)) (ForwardRule.persist rule)
                   (ForwardRule.created_at rule) (JSDate.toISOString now) in
  getForwardRule (put (handleToggle rule) now d) endpoint = Some toggled
  /\ getForwardRule (put (handleTogglePersist rule) now d) endpoint
     = Some (ForwardRule.mk (ForwardRule.forward_url rule)
               (ForwardRule.enabled rule) (negb (ForwardRule.persist rule))
               (ForwardRule.created_at rule) (JSDate.toISOString now))
  /\ getForwardRule (put (handleToggle toggled) now' (put (handleToggle rule) now d)) endpoint
     = Some (ForwardRule.mk (ForwardRule.forward_url rule)
               (ForwardRule.enabled rule) (ForwardRule.persist rule)
               (ForwardRule.created_at rule) (JSDate.toISOString now')).
Proof.
  intros Hauth Hrule Hne Hparse. cbv zeta.
  assert (truthy (Some (ForwardRule.forward_url rule)) = true) as Htruthy
      by by destruct (ForwardRule.forward_url rule).
  assert (forall b t s,
             body_forward_url b = Some (ForwardRule.forward_url rule) ->
             (put_forward_rule URL_parses env endpoint request (Some b) t s).2
             = upsert_forward_rule endpoint (ForwardRule.forward_url rule)
                 (default true (body_enabled b)) (default true (body_persist b))
                 (JSDate.toISOString t) s) as Hput.
  { intros b t s Hb. unfold put_forward_rule. rewrite Hauth, Hb, Htruthy.
    cbn [negb from_option Datatypes.id]. by rewrite Hparse. }
  unfold getForwardRule in *.
  rewrite !Hput by done. rewrite !upsert_lookup, Hrule.
  cbn [handleToggle handleTogglePersist body_enabled body_persist from_option Datatypes.id
       fmap option_fmap option_map ForwardRule.created_at ForwardRule.enabled
       ForwardRule.persist].
  by rewrite negb_involutive.
Qed.

Lemma dashboard_toggle_flips_one_flag_witness :
  getForwardRule
    (put_forward_rule starts_with_http sample_env (lit "line") bearer_request
       (Some (handleToggle off_rule)) sample_now off_db).2 (lit "line")
  = Some (ForwardRule.mk (lit "https://old.example.com/") true false
            (lit "2025-01-01T00:00:00.000Z") (lit "2025-11-02T05:27:14.567Z")).
Proof.
  pose proof (dashboard_toggle_flips_one_flag starts_with_http sample_env (lit "line")
                bearer_request off_rule sample_now sample_now off_db) as Htoggle.
  destruct Htoggle as (Hflip & _).
  - vm_compute. reflexivity.
  - reflexivity.
  - discriminate.
  - vm_compute. reflexivity.
  - rewrite Hflip. vm_compute. reflexivity.
Defined.

Section RulesParse.

Variable URL_parses : jsstring -> bool.

Lemma upsert_rules_parse endpoint fwd enabled persist now d :
  rules_parse URL_parses d -> URL_parses fwd = true ->
  rules_parse URL_parses (upsert_forward_rule endpoint fwd enabled persist now d).
Proof.
  intros Hd Hfwd other r Hr.
  destruct (decide (other = endpoint)) as [->|Hne].
  - rewrite upsert_lookup in Hr. by simplify_eq.
  - rewrite (proj1 (upsert_frame endpoint fwd enabled persist now d)) in Hr by done.
    by eapply Hd.
Qed.

Lemma delete_rules_parse endpoint d :
  rules_parse URL_parses d -> rules_parse URL_parses (delete_rule_row endpoint d).
Proof.
  intros Hd other r Hr. unfold delete_rule_row in Hr. cbn in Hr.
  apply lookup_delete_Some in Hr as [_ Hr]. by eapply Hd.
Qed.

End RulesParse.

(** X12. Every way of writing a rule checks the URL first, so a store whose
    rules all parse as URLs keeps that property under the REST upsert, the
    MCP upsert and both deletes, and the receive pipeline leaves the rules
    alone; hence every forward a receive handler schedules is addressed to
    a URL that parsed when it was stored. *)
Theorem scheduled_forward_url_parsed (URL_parses : jsstring -> bool)
        env endpoint request body fwd enabled persist now elapsed id token w :
  rules_parse URL_parses (db w) ->
  rules_parse URL_parses (put_forward_rule URL_parses env endpoint request body now (db w)).2
  /\ rules_parse URL_parses
       (set_forward_rule URL_parses endpoint fwd enabled persist now (db w)).2
  /\ rules_parse URL_parses (api_delete_forward_rule env endpoint request (db w)).2
  /\ rules_parse URL_parses (delete_forward_rule endpoint (db w)).2
  /\ forward_rules (db (post_w env id token request now elapsed w).2) = forward_rules (db w)
  /\ (forall hitId url b hs,
        TForward hitId url b hs
        ∈ scheduled (trace (post_w env id token request now elapsed w).2) ->
        TForward hitId url b hs ∈ scheduled (trace w) \/ URL_parses url = true).
Proof.
  intros Hd. split; [|split; [|split; [|split; [|split]]]].
  - unfold put_forward_rule.
    destruct (negb (checkAuth _ _)); [done|]. destruct body as [body|]; [|done].
    destruct (negb (truthy _)); [done|].
    destruct (URL_parses _) eqn:Hp; [|done]. by apply upsert_rules_parse.
  - unfold set_forward_rule. destruct (URL_parses fwd) eqn:Hp; [|done].
    by apply upsert_rules_parse.
  - unfold api_delete_forward_rule. destruct (negb _); [done|]. by apply delete_rules_parse.
  - by apply delete_rules_parse.
  - destruct (gate_decides env id token) as [(secret & Hs & Hne & Hv)|Hacc].
    + by erewrite post_w_rejected.
    + rewrite post_w_accepted by done. cbn [snd db]. by destruct (persist_is_false _).
  - intros hitId url b hs.
    destruct (gate_decides env id token) as [(secret & Hs & Hne & Hv)|Hacc].
    { erewrite post_w_rejected by done. by left. }
    rewrite post_w_accepted by done. cbn [snd trace]. unfold scheduled.
    rewrite omap_app, elem_of_app. intros [Hold|Hnew]; [by left|right].
    assert (TForward hitId url b hs ∈ scheduled_forwards (raw_events env id request (db w)))
      as Hfwd by (unfold scheduled_forwards; apply list_elem_of_filter; by split).
    rewrite raw_events_forwards in Hfwd.
    destruct (wants_forward _) eqn:Hwants; [|by apply elem_of_nil in Hfwd].
    apply list_elem_of_singleton in Hfwd. simplify_eq.
    apply wants_forward_iff in Hwants as (r & Hr & _). rewrite Hr. cbn.
    by eapply Hd.
Qed.

Lemma scheduled_forward_url_parsed_witness :
  TForward (Some 1) (lit "https://example.com/hook") (lit "hello")
           [(lit "content-type", lit "text/plain")]
  ∈ scheduled (trace relay_world)
  \/ starts_with_http (lit "https://example.com/hook") = true.
Proof.
  pose proof (scheduled_forward_url_parsed starts_with_http open_env (lit "line")
                sample_request (Some (mkRuleBody None None None)) [] None None sample_now 3
                (lit "line") (lit "any") relay_world) as Hparsed.
  destruct Hparsed as (_ & _ & _ & _ & _ & Hurl).
  - intros endpoint r Hr. cbn in Hr.
    apply lookup_singleton_Some in Hr as [_ <-]. vm_compute. reflexivity.
  - apply Hurl. vm_compute. constructor.
Defined.

(** X13. Deleting a rule, by [DELETE /api/forward-rules/:endpoint] or by the
    MCP tool, removes that endpoint's rule only; unauthorized, the REST
    delete changes nothing.  Deleting an endpoint that has no rule is
    accepted and changes nothing.  After the delete the endpoint behaves as
    one that never had a rule: an accepted request is stored and no forward
    is scheduled, whatever the deleted rule said. *)
Theorem delete_rule_contract env endpoint request d :
  let rest := api_delete_forward_rule env endpoint request d in
  let tool := delete_forward_rule endpoint d in
  (checkAuth request env = false -> rest = (c_json (error_body "Unauthorized") 401, d))
  /\ (checkAuth request env = true -> status rest.1 = 200 /\ rest.2 = tool.2)
  /\ getForwardRule tool.2 endpoint = None
  /\ (forall other, other <> endpoint ->
                    getForwardRule tool.2 other = getForwardRule d other)
  /\ webhook_hits tool.2 = webhook_hits d
  /\ aliases tool.2 = aliases d
  /\ (getForwardRule d endpoint = None -> forward_rules tool.2 = forward_rules d)
  /\ (forall env' token req now elapsed tr,
        ~ (exists secret, API_TOKEN env' = Some secret /\ secret <> []
                          /\ verifyWebhookToken endpoint token secret = Some false) ->
        let r := post_w env' endpoint token req now elapsed (mkWorld tool.2 tr) in
        length (webhook_hits (db r.2)) = S (length (webhook_hits d))
        /\ scheduled_forwards (trace r.2) = scheduled_forwards tr).
Proof.
  cbv zeta. unfold api_delete_forward_rule, delete_forward_rule, getForwardRule.
  cbn [fst snd delete_rule_row with_rules forward_rules webhook_hits aliases].
  split; [by intros ->|]. split; [by intros ->|].
  split; [apply lookup_delete_eq|].
  split; [intros other Hne; by apply lookup_delete_ne|].
  split; [done|]. split; [done|].
  split; [intros Hnone; by apply delete_id|].
  intros env' token req now elapsed tr Hacc.
  rewrite post_w_accepted by done. cbn [snd db trace].
  assert (getForwardRule (delete_rule_row endpoint d) endpoint = None) as Hgone
      by apply lookup_delete_eq.
  rewrite Hgone. cbn [persist_is_false]. rewrite recordHit_hits. cbn [webhook_hits].
  rewrite length_app, scheduled_forwards_app, raw_events_forwards, Hgone. cbn.
  split; [lia|]. by rewrite app_nil_r.
Qed.

Lemma delete_rule_contract_witness :
  let r := post_w open_env (lit "line") (lit "any") sample_request sample_now 3
             (mkWorld (delete_forward_rule (lit "line") (db quiet_world)).2 []) in
  length (webhook_hits (db r.2)) = 1%nat /\ scheduled_forwards (trace r.2) = [].
Proof.
  pose proof (delete_rule_contract open_env (lit "line") sample_request (db quiet_world))
    as (_ & _ & _ & _ & _ & _ & _ & Hafter).
  apply (Hafter open_env (lit "any") sample_request sample_now 3 []).
  apply no_secret_accepts. reflexivity.
Defined.

(** ** Purging more than once *)

Section PurgeTwice.

Lemma filter_filter_implied {A} (P Q : A -> Prop) `{!forall x, Decision (P x)}
      `{!forall x, Decision (Q x)} (l : list A) :
  (forall x, Q x -> P x) -> filter Q (filter P l) = filter Q l.
Proof.
  intros Himp. induction l as [|x l IH]; [done|].
  rewrite !filter_cons. destruct (decide (P x)) as [HP|HP].
  - rewrite filter_cons. destruct (decide (Q x)); by rewrite IH.
  - destruct (decide (Q x)) as [HQ|HQ]; [by apply Himp in HQ|done].
Qed.

Lemma filter_split_length {A} (f : A -> bool) (l : list A) :
  (length (filter (fun x => f x = true) l) + length (filter (fun x => f x = false) l)
   = length l)%nat.
Proof.
  induction l as [|x l IH]; [done|]. rewrite !filter_cons.
  destruct (f x) eqn:Hf; repeat case_decide; try done; cbn; lia.
Qed.

Lemma text_lt_cutoffs s t1 t2 :
  four_digit_year t1 -> four_digit_year t2 -> t1 <= t2 ->
  text_lt s (JSDate.toISOString t1) = true -> text_lt s (JSDate.toISOString t2) = true.
Proof.
  intros H1 H2 Hle Hlt. destruct (decide (t1 = t2)) as [->|Hne]; [done|].
  unfold text_lt in *. eapply bytes_ltb_trans; [exact Hlt|].
  fold (text_lt (JSDate.toISOString t1) (JSDate.toISOString t2)).
  rewrite toISOString_lt by done. apply Z.ltb_lt. lia.
Qed.

Lemma filter_kept_old {A} (f : A -> bool) (l : list A) :
  filter (fun x => f x = true) (filter (fun x => f x = false) l) = [].
Proof.
  induction l as [|x l IH]; [done|]. rewrite filter_cons.
  destruct (decide (f x = false)) as [Hk|Hk]; [|exact IH].
  rewrite filter_cons, IH. by rewrite decide_False by congruence.
Qed.

Lemma purge_unfold now d :
  purgeOldHits now d
  = (Z.of_nat (length (filter (fun h => old_at now h = true) (webhook_hits d))),
     with_hits (filter (fun h => old_at now h = false) (webhook_hits d)) d).
Proof. reflexivity. Qed.

Lemma purge_keep_twice now1 now2 (l : list WebhookHit.t) :
  four_digit_year (now1 - SEVEN_DAYS_MS) -> four_digit_year (now2 - SEVEN_DAYS_MS) ->
  now1 <= now2 ->
  filter (fun h => old_at now2 h = false) (filter (fun h => old_at now1 h = false) l)
  = filter (fun h => old_at now2 h = false) l.
Proof.
  intros H1 H2 Hle. apply filter_filter_implied. intros h Hk. unfold old_at in *.
  destruct (text_lt (WebhookHit.received_at h) (JSDate.toISOString (now1 - _))) eqn:Hc1;
    [|done].
  apply (text_lt_cutoffs _ _ (now2 - SEVEN_DAYS_MS)) in Hc1; [|done|done|lia].
  congruence.
Qed.

End PurgeTwice.

(** X14. Purges accumulate: a purge run after an earlier purge leaves the
    store a single purge at the later time would leave, and the two counts
    add up to that purge's count; run again at the same instant a purge
    deletes nothing.  [POST /api/purge] and the MCP tool [purge_old_hits]
    leave the same store and report the same count; unauthorized, the REST
    purge deletes nothing. *)
Theorem purge_accumulates env request now1 now2 d :
  four_digit_year (now1 - SEVEN_DAYS_MS) -> four_digit_year (now2 - SEVEN_DAYS_MS) ->
  now1 <= now2 ->
  let first := purgeOldHits now1 d in
  let second := purgeOldHits now2 first.2 in
  second.2 = (purgeOldHits now2 d).2
  /\ first.1 + second.1 = (purgeOldHits now2 d).1
  /\ (purgeOldHits now1 first.2).1 = 0
  /\ (checkAuth request env = true ->
      (api_purge env request now1 d).2 = (purge_old_hits now1 d).2
      /\ payload (api_purge env request now1 d).1 = content (purge_old_hits now1 d).1)
  /\ (checkAuth request env = false ->
      api_purge env request now1 d = (c_json (error_body "Unauthorized") 401, d)).
Proof.
  intros H1 H2 Hle. cbv zeta.
  pose proof (purge_keep_twice now1 now2 (webhook_hits d) H1 H2 Hle) as Hkeep.
  rewrite !purge_unfold. cbn [fst snd with_hits webhook_hits webhook_hits_seq
                                  forward_rules aliases].
  split; [|split; [|split; [|split]]].
  - by rewrite Hkeep.
  - pose proof (filter_split_length (old_at now1) (webhook_hits d)) as L1.
    pose proof (filter_split_length (old_at now2) (webhook_hits d)) as L2.
    pose proof (filter_split_length (old_at now2)
                  (filter (fun h => old_at now1 h = false) (webhook_hits d))) as L12.
    rewrite Hkeep in L12. lia.
  - by rewrite filter_kept_old.
  - intros Hauth. unfold api_purge, purge_old_hits. rewrite Hauth. cbn [negb].
    by rewrite !purge_unfold.
  - intros Hauth. unfold api_purge. by rewrite Hauth.
Qed.

Lemma purge_accumulates_witness :
  (purgeOldHits (sample_now + 1000) (purgeOldHits sample_now (db boundary_world)).2).2
  = (purgeOldHits (sample_now + 1000) (db boundary_world)).2.
Proof.
  pose proof (purge_accumulates open_env sample_request sample_now (sample_now + 1000)
                (db boundary_world)) as Hacc.
  cbv zeta in Hacc. destruct Hacc as (Hsame & _).
  - unfold four_digit_year, SEVEN_DAYS_MS, sample_now. lia.
  - unfold four_digit_year, SEVEN_DAYS_MS, sample_now. lia.
  - lia.
  - exact Hsame.
Defined.

(** ** Issued URLs are accepted *)

Section Accepted.

Lemma issued_token_passes env id secret token :
  API_TOKEN env = Some secret ->
  generateWebhookToken id secret = Some token ->
  ~ (exists s, API_TOKEN env = Some s /\ s <> []
               /\ verifyWebhookToken id token s = Some false).
Proof.
  intros Hs Hissue (s & Hs' & Hne & Hv). rewrite Hs in Hs'. injection Hs' as <-.
  apply verifyWebhookToken_false in Hv; done.
Qed.

Lemma post_w_suffix_status env id token suffix request now elapsed w :
  ~ (exists secret, API_TOKEN env = Some secret /\ secret <> []
                    /\ verifyWebhookToken id token secret = Some false) ->
  status (post_w_suffix env id token suffix request now elapsed w).1 = 200.
Proof.
  intros Hacc. unfold post_w_suffix.
  rewrite (gate_accepts _ _ _ Hacc).
  cbv zeta. by destruct (persist_is_false _).
Qed.

Lemma post_w_github_status parseGitHubEvent env id token request now elapsed w :
  ~ (exists secret, API_TOKEN env = Some secret /\ secret <> []
                    /\ verifyWebhookToken id token secret = Some false) ->
  status (post_w_github parseGitHubEvent env id token request now elapsed w).1 = 200.
Proof.
  intros Hacc. unfold post_w_github.
  rewrite (gate_accepts _ _ _ Hacc).
  cbv zeta. by destruct (persist_is_false _).
Qed.

End Accepted.

(** X15. [GET /api/generate-url] answers 401 to an unauthorized caller, 400
    when [id] is missing or empty, 500 when no secret is configured, in that
    order; otherwise 200 with the URL [origin/w/<id>/<token>], the id put in
    as it is and the token 43 characters long.  The MCP tool builds the
    same URL; with no secret configured it has no such check and throws,
    the key import refusing the empty key.  A request to that endpoint
    with that token passes the gate of all three receive handlers. *)
Theorem generated_url_is_accepted
        (parseGitHubEvent : jsstring -> jsstring -> option jsstring)
        env request origin id :
  (checkAuth request env = false ->
   status (api_generate_url env request origin id) = 401)
  /\ (checkAuth request env = true -> truthy id = false ->
      status (api_generate_url env request origin id) = 400)
  /\ (checkAuth request env = true -> truthy id = true -> truthy (API_TOKEN env) = false ->
      status (api_generate_url env request origin id) = 500)
  /\ (forall i secret,
        checkAuth request env = true -> id = Some i -> i <> [] ->
        API_TOKEN env = Some secret -> secret <> [] ->
        exists token,
          generateWebhookToken i secret = Some token
          /\ api_generate_url env request origin id
             = c_json (JObj [field "url"
                               (JStr (origin ++ lit "/w/" ++ i ++ lit "/" ++ token))])
                      200
          /\ content <$> generate_webhook_url (tokenGen env) origin i
             = Some (payload (api_generate_url env request origin id))
          /\ length token = 43%nat
          /\ forall req suffix now elapsed w,
               status (post_w env i token req now elapsed w).1 = 200
               /\ status (post_w_suffix env i token suffix req now elapsed w).1 = 200
               /\ status (post_w_github parseGitHubEvent env i token req now elapsed w).1
                  = 200)
  /\ (forall i,
        truthy (API_TOKEN env) = false ->
        generate_webhook_url (tokenGen env) origin i = None).
Proof.
  unfold api_generate_url.
  split; [by intros ->|]. split; [by intros -> ->|]. split; [by intros -> -> ->|].
  split.
  2:{ intros i Ht. unfold generate_webhook_url, tokenGen.
      by destruct (API_TOKEN env) as [[|c s]|]. }
  intros i secret Hauth -> Hi Hs Hne. rewrite Hauth, Hs.
  assert (truthy (Some i) = true) as -> by by destruct i.
  assert (truthy (Some secret) = true) as -> by by destruct secret.
  cbn [negb from_option Datatypes.id]. exists (issue_spec i secret).
  pose proof (generateWebhookToken_spec i secret Hne) as Hissue.
  unfold generate_webhook_url, tokenGen. rewrite Hs. cbn [from_option Datatypes.id].
  rewrite Hissue.
  split; [done|]. split; [done|]. split; [done|]. split.
  - unfold issue_spec. by rewrite base64url_nopad_length, hmac_sign_length.
  - intros req suffix now elapsed w.
    pose proof (issued_token_passes env i secret _ Hs Hissue) as Hpass.
    split; [by rewrite post_w_accepted|].
    split; [by apply post_w_suffix_status|by apply post_w_github_status].
Qed.

Lemma generated_url_is_accepted_witness :
  exists token,
    api_generate_url sample_env bearer_request (lit "https://relay.example.com")
                     (Some (lit "line"))
    = c_json (JObj [field "url" (JStr (lit "https://relay.example.com" ++ lit "/w/"
                                       ++ lit "line" ++ lit "/" ++ token))]) 200
    /\ forall req now elapsed w,
         status (post_w sample_env (lit "line") token req now elapsed w).1 = 200.
Proof.
  pose proof (generated_url_is_accepted (fun _ _ => None) sample_env bearer_request
                (lit "https://relay.example.com") (Some (lit "line")))
    as (_ & _ & _ & Hissue & _).
  destruct (Hissue (lit "line") sample_secret) as (token & _ & Hurl & _ & _ & Hpass).
  - vm_compute. reflexivity.
  - reflexivity.
  - discriminate.
  - reflexivity.
  - discriminate.
  - exists token. split; [exact Hurl|].
    intros req now elapsed w. apply (Hpass req [] now elapsed w).
Defined.

(** ** Cookies and sessions *)

Section Cookies.

Lemma split_on_nonempty c s : split_on c s <> [].
Proof.
  destruct s as [|x s]; [done|]. unfold split_on. cbn [fold_right].
  destruct (x =? c); [done|]. by destruct (fold_right _ _ _).
Qed.

Lemma split_on_cons c x s :
  split_on c (x :: s)
  = if x =? c then [] :: split_on c s
    else match split_on c s with
         | h :: t => (x :: h) :: t
         | [] => [[x]]
         end.
Proof. reflexivity. Qed.

Lemma split_on_absent c s : c ∉ s -> split_on c s = [s].
Proof.
  induction s as [|x s IH]; [done|]. intros Hc. rewrite split_on_cons.
  apply not_elem_of_cons in Hc as [Hx Hs].
  rewrite (proj2 (Z.eqb_neq x c)) by done. by rewrite IH.
Qed.

Lemma split_on_first c a b : c ∉ a -> split_on c (a ++ c :: b) = a :: split_on c b.
Proof.
  induction a as [|x a IH]; intros Hc.
  - cbn [app]. by rewrite split_on_cons, Z.eqb_refl.
  - apply not_elem_of_cons in Hc as [Hx Ha]. cbn [app].
    rewrite split_on_cons, (proj2 (Z.eqb_neq x c)) by done. by rewrite IH.
Qed.

Lemma join_split_on c s : join [c] (split_on c s) = s.
Proof.
  induction s as [|x s IH]; [done|]. rewrite split_on_cons.
  pose proof (split_on_nonempty c s) as Hne.
  destruct (x =? c) eqn:Hx.
  - apply Z.eqb_eq in Hx as ->. destruct (split_on c s) as [|h t]; [done|].
    change (join [c] ([] :: h :: t)) with (c :: join [c] (h :: t)). by rewrite IH.
  - destruct (split_on c s) as [|h t]; [done|].
    destruct t as [|h' t].
    + change (join [c] [x :: h]) with (x :: join [c] [h]). by rewrite IH.
    + change (join [c] ((x :: h) :: h' :: t)) with (x :: join [c] (h :: h' :: t)).
      by rewrite IH.
Qed.

Lemma split_on_elem c s p x : p ∈ split_on c s -> x ∈ p -> x ∈ s /\ x <> c.
Proof.
  revert p. induction s as [|y s IH]; intros p Hp Hx.
  - apply list_elem_of_singleton in Hp as ->. by apply elem_of_nil in Hx.
  - rewrite split_on_cons in Hp. destruct (y =? c) eqn:Hy.
    + apply elem_of_cons in Hp as [->|Hp]; [by apply elem_of_nil in Hx|].
      destruct (IH p Hp Hx). split; [by right|done].
    + apply Z.eqb_neq in Hy.
      destruct (split_on c s) as [|h t] eqn:Hsplit.
      * apply list_elem_of_singleton in Hp as ->.
        apply list_elem_of_singleton in Hx as ->. split; [by left|done].
      * apply elem_of_cons in Hp as [->|Hp].
        -- apply elem_of_cons in Hx as [->|Hx]; [split; [by left|done]|].
           destruct (IH h) as [? ?]; [by left|done|]. split; [by right|done].
        -- destruct (IH p) as [? ?]; [by right|done|]. split; [by right|done].
Qed.

Lemma rev_reverse (s : jsstring) : rev s = reverse s.
Proof. unfold reverse. apply rev_alt. Qed.

Lemma trim_start_elem x s : x ∈ trim_start s -> x ∈ s.
Proof.
  induction s as [|c s IH]; [done|]. cbn. destruct (is_js_space c); [|done].
  intros Hx. right. by apply IH.
Qed.

Lemma trim_elem x s : x ∈ trim s -> x ∈ s.
Proof.
  unfold trim. rewrite !rev_reverse, elem_of_reverse. intros Hx%trim_start_elem.
  rewrite elem_of_reverse in Hx. by apply trim_start_elem.
Qed.

Lemma trim_start_id s :
  (forall c, head s = Some c -> is_js_space c = false) -> trim_start s = s.
Proof. destruct s as [|c s]; [done|]. intros H. cbn. by rewrite (H c). Qed.

Lemma find_cookie_value name parts v :
  find_cookie name parts = Some v -> exists part, part ∈ parts /\ forall x, x ∈ v -> x ∈ part.
Proof.
  induction parts as [|part more IH]; [done|]. cbn [find_cookie].
  destruct (split_on 61 (trim part)) as [|k rest] eqn:Hsplit.
  { intros (p & Hp & Hv)%IH. exists p. split; [by right|done]. }
  case_bool_decide as Hk.
  - intros [= <-]. exists part. split; [by left|]. intros x Hx.
    pose proof (join_split_on 61 (trim part)) as Hjoin. rewrite Hsplit in Hjoin.
    destruct rest as [|r rest]; [by apply elem_of_nil in Hx|].
    apply trim_elem. rewrite <- Hjoin.
    change (join [61] (k :: r :: rest)) with (k ++ [61] ++ join (lit "=") (r :: rest)).
    rewrite !elem_of_app. by right; right.
  - intros (p & Hp & Hv)%IH. exists p. split; [by right|done].
Qed.

Lemma getCookie_no_semicolon request name v :
  getCookie request name = Some v -> 59 ∉ v.
Proof.
  unfold getCookie. intros (part & Hpart & Hv)%find_cookie_value Hin.
  apply Hv in Hin. by destruct (split_on_elem 59 _ part 59 Hpart Hin).
Qed.

Lemma getCookie_single request v :
  Headers_get (headers request) (lit "cookie") = Some (lit "api_token=" ++ v) ->
  59 ∉ v -> no_trailing_space v ->
  getCookie request (lit "api_token") = Some v.
Proof.
  intros Hh Hsemi Hsp. unfold getCookie. rewrite Hh. cbn [from_option Datatypes.id].
  rewrite split_on_absent.
  2:{ change (lit "api_token=" ++ v) with (lit "api_token=" ++ v).
      rewrite elem_of_app. intros [Hin|Hin]; [|done]. vm_compute in Hin.
      repeat (apply elem_of_cons in Hin as [Hin|Hin]; [discriminate Hin|]).
      by apply elem_of_nil in Hin. }
  cbn [find_cookie].
  assert (trim (lit "api_token=" ++ v) = lit "api_token=" ++ v) as ->.
  { unfold trim. rewrite (trim_start_id (lit "api_token=" ++ v)) by (intros c [= <-]; done).
    rewrite trim_start_id; [apply rev_involutive|].
    intros c Hc. rewrite rev_reverse, head_reverse in Hc.
    destruct v as [|x v] using rev_ind.
    - injection Hc as <-. done.
    - rewrite app_assoc, last_snoc in Hc. injection Hc as <-.
      apply Hsp. by rewrite last_snoc. }
  change (lit "api_token=" ++ v) with (lit "api_token" ++ 61 :: v).
  rewrite split_on_first.
  2:{ intros Hin. vm_compute in Hin.
      repeat (apply elem_of_cons in Hin as [Hin|Hin]; [discriminate Hin|]).
      by apply elem_of_nil in Hin. }
  rewrite bool_decide_eq_true_2 by done. f_equal. apply join_split_on.
Qed.

End Cookies.

(** X16. What [getCookie] finds: for a cookie header that is the single
    pair [api_token=v], with no [;] in [v] and no white space at its end,
    it returns [v] whole, [=] signs included; and whatever the header, the
    value it returns contains no [;].  So a secret that contains a [;] is
    never matched by a cookie: with such a secret an authorized request
    carries the bearer header. *)
Theorem cookie_lookup request env v secret :
  (Headers_get (headers request) (lit "cookie") = Some (lit "api_token=" ++ v) ->
   59 ∉ v -> no_trailing_space v ->
   getCookie request (lit "api_token") = Some v
   /\ (API_TOKEN env = Some v -> checkAuth request env = true))
  /\ (forall name value, getCookie request name = Some value -> 59 ∉ value)
  /\ (API_TOKEN env = Some secret -> 59 ∈ secret -> checkAuth request env = true ->
      Headers_get (headers request) (lit "authorization") = Some (lit "Bearer " ++ secret)).
Proof.
  split; [|split].
  - intros Hh Hsemi Hsp. pose proof (getCookie_single request v Hh Hsemi Hsp) as Hget.
    split; [done|]. intros Hs. unfold checkAuth. rewrite Hs, Hget.
    cbn [from_option Datatypes.id]. destruct (negb _); [done|].
    destruct (bool_decide (Headers_get _ _ = _)); [done|].
    by rewrite bool_decide_eq_true_2.
  - intros name value. apply getCookie_no_semicolon.
  - intros Hs Hin. unfold checkAuth. rewrite Hs.
    assert (truthy (Some secret) = true) as ->
        by (destruct secret; [by apply elem_of_nil in Hin|done]).
    cbn [negb from_option Datatypes.id].
    case_bool_decide as Hb; [done|].
    case_bool_decide as Hc; [|done].
    apply getCookie_no_semicolon in Hc. done.
Qed.

Lemma cookie_lookup_witness :
  getCookie (with_cookie (lit "api_token=admin:hunter2")) (lit "api_token")
  = Some (lit "admin:hunter2")
  /\ checkAuth (with_cookie (lit "api_token=admin:hunter2")) sample_env = true.
Proof.
  pose proof (cookie_lookup (with_cookie (lit "api_token=admin:hunter2")) sample_env
                (lit "admin:hunter2") []) as (Hfound & _).
  destruct Hfound as (Hget & Hauth).
  - reflexivity.
  - intros Hin. vm_compute in Hin.
    repeat (apply elem_of_cons in Hin as [Hin|Hin]; [discriminate Hin|]).
    by apply elem_of_nil in Hin.
  - intros c Hc. vm_compute in Hc. injection Hc as <-. reflexivity.
  - split; [exact Hget|]. apply Hauth. reflexivity.
Defined.

(** X17. [POST /auth/login] answers 200 exactly when the form can be
    read, a secret is configured, [username:password] equals it (a missing
    field reading as [null]), and the runtime takes the cookie as a header
    value.  When the form cannot be read, or the credential matches but
    the cookie is refused as a header value, as it is for a credential
    with a line feed in it, the answer is 500; every other login is
    refused with 401, all logins when no secret is configured.  Only a 200
    sets a cookie: [api_token=<secret>] for a day, and a request that
    presents that pair is authorized, provided the secret has no [;] and
    no white space at its end.  The cookie [/auth/logout] sets is empty,
    and an empty cookie authorizes nothing once a secret is configured. *)
Theorem login_contract (header_value_ok : jsstring -> bool) env (form : option FormData) :
  let r := auth_login header_value_ok env form in
  (form = None -> r = mkSession internal_server_error None)
  /\ (forall f,
        form = Some f ->
        let credential := template (FormData_get f (lit "username")) ++ lit ":"
                          ++ template (FormData_get f (lit "password")) in
        (status (response r) = 200
         <-> API_TOKEN env = Some credential
             /\ header_value_ok (session_cookie credential) = true)
        /\ (status (response r) = 500
            <-> API_TOKEN env = Some credential
                /\ header_value_ok (session_cookie credential) = false)
        /\ (API_TOKEN env <> Some credential ->
            r = mkSession (c_json (error_body "Invalid credentials") 401) None)
        /\ (truthy (API_TOKEN env) = false -> status (response r) = 401)
        /\ (status (response r) = 200 ->
            set_cookie r
            = Some (lit "api_token=" ++ credential
                    ++ lit "; Path=/; HttpOnly; SameSite=Strict; Secure; Max-Age=86400")
            /\ (59 ∉ credential -> no_trailing_space credential ->
                checkAuth (with_cookie (lit "api_token=" ++ credential)) env = true))
        /\ ((forall s, 10 ∈ s -> header_value_ok s = false) ->
            10 ∈ credential -> status (response r) <> 200))
  /\ (status (response r) = 200 \/ status (response r) = 401
      \/ status (response r) = 500)
  /\ (status (response r) <> 200 -> set_cookie r = None)
  /\ (truthy (API_TOKEN env) = true ->
      checkAuth (with_cookie (lit "api_token=")) env = false).
Proof.
  cbv zeta. unfold auth_login.
  split; [by intros ->|]. split; [|split; [|split]].
  - intros f ->.
    set (credential := template (FormData_get f (lit "username")) ++ lit ":"
                       ++ template (FormData_get f (lit "password"))).
    assert (Hcred : truthy (Some credential) = true).
    { unfold credential. by destruct (template _). }
    assert (Hmatch : API_TOKEN env = Some credential ->
                     negb (truthy (API_TOKEN env))
                     || negb (bool_decide (Some credential = API_TOKEN env)) = false).
    { intros ->. rewrite Hcred. by rewrite bool_decide_eq_true_2. }
    assert (Hmiss : API_TOKEN env <> Some credential ->
                    negb (truthy (API_TOKEN env))
                    || negb (bool_decide (Some credential = API_TOKEN env)) = true).
    { intros Hne. rewrite (bool_decide_eq_false_2 (Some credential = API_TOKEN env))
        by congruence. apply orb_true_r. }
    destruct (decide (API_TOKEN env = Some credential)) as [Hs|Hs].
    + rewrite (Hmatch Hs).
      destruct (header_value_ok (session_cookie credential)) eqn:Hok;
        cbn [response set_cookie status internal_server_error].
      * split; [split; [done|done]|]. split; [split; [lia|by intros [_ ?]]|].
        split; [done|]. split; [intros Ht; by rewrite Hs, Hcred in Ht|].
        split.
        -- intros _. split; [done|]. intros Hsemi Hsp.
           unfold checkAuth. rewrite Hs, Hcred. cbn [negb from_option Datatypes.id].
           rewrite (getCookie_single _ credential) by done.
           destruct (bool_decide (Headers_get _ _ = _)); [done|].
           by rewrite bool_decide_eq_true_2.
        -- intros Hlf Hin. rewrite Hlf in Hok; [done|].
           unfold session_cookie. rewrite !elem_of_app. auto.
      * split; [split; [lia|by intros [_ ?]]|]. split; [done|].
        split; [done|]. split; [intros Ht; by rewrite Hs, Hcred in Ht|].
        split; [lia|]. intros; lia.
    + rewrite (Hmiss Hs). cbn [response set_cookie status c_json].
      split; [split; [lia|by intros [? _]]|]. split; [split; [lia|by intros [? _]]|].
      split; [done|]. split; [done|]. split; [lia|]. intros; lia.
  - destruct form as [f|]; [|cbn; auto].
    destruct (negb (truthy _) || _); [cbn; auto|].
    destruct (header_value_ok _); cbn; auto.
  - destruct form as [f|]; [|done].
    destruct (negb (truthy _) || _); [done|].
    destruct (header_value_ok _); cbn; [lia|done].
  - intros Ht. unfold checkAuth. rewrite Ht. cbn [negb].
    rewrite bool_decide_eq_false_2 by done.
    rewrite (getCookie_single _ []); [|done|by intros ?%elem_of_nil|by intros c [=]].
    rewrite bool_decide_eq_false_2; [done|].
    intros [= Hs]. by destruct (API_TOKEN env) as [[|c s]|].
Qed.

Lemma login_contract_witness :
  set_cookie (auth_login no_line_breaks sample_env (Some login_form))
  = Some (lit "api_token=admin:hunter2; Path=/; HttpOnly; SameSite=Strict; Secure; Max-Age=86400")
  /\ status (response (auth_login no_line_breaks lf_env (Some lf_form))) = 500
  /\ auth_login no_line_breaks sample_env None = mkSession internal_server_error None
  /\ checkAuth (with_cookie (lit "api_token=")) sample_env = false.
Proof.
  pose proof (login_contract no_line_breaks sample_env (Some login_form))
    as (_ & Hform & _ & _ & Hout).
  destruct (Hform login_form eq_refl) as (_ & _ & _ & _ & Hok & _).
  pose proof (login_contract no_line_breaks lf_env (Some lf_form)) as (_ & Hlf & _).
  destruct (Hlf lf_form eq_refl) as (_ & H500 & _).
  pose proof (login_contract no_line_breaks sample_env None) as (Hnone & _).
  split; [|split; [|split]].
  - destruct Hok as (Hset & _); [reflexivity|]. rewrite Hset. reflexivity.
  - apply H500. split; reflexivity.
  - apply Hnone. reflexivity.
  - apply Hout. reflexivity.
Defined.

(** ** The window of today *)

Section Today.

Lemma days_from_civil_inv z :
  let c := JSDate.civil_from_days z in JSDate.days_from_civil c.1.1 c.1.2 c.2 = z.
Proof.
  cbv zeta. unfold JSDate.civil_from_days. cbv zeta. cbn [fst snd].
  set (era := (z + 719468) / 146097).
  set (doe := z + 719468 - era * 146097).
  assert (Hdoe : 0 <= doe < 146097) by (subst doe era; Z.div_mod_to_equations; lia).
  assert (Hz : z = era * 146097 + doe - 719468) by (subst doe; lia).
  clearbody doe era. subst z.
  pose proof (year_of_era_range doe Hdoe) as Hyoe. cbv zeta in Hyoe.
  set (yoe := (doe - doe / 1460 + doe / 36524 - doe / 146096) / 365) in *.
  destruct Hyoe as [Hyoe Hdoy].
  set (doy := doe - (365 * yoe + yoe / 4 - yoe / 100)) in *.
  assert (Hdoe' : doe = yoe * 365 + yoe / 4 - yoe / 100 + doy) by (subst doy; lia).
  clearbody doy yoe. subst doe.
  pose proof (month_day_range doy Hdoy) as Hmp. cbv zeta in Hmp.
  set (mp := (5 * doy + 2) / 153) in *. destruct Hmp as [Hmp Hd].
  set (d := doy - (153 * mp + 2) / 5 + 1) in *.
  assert (Hdoy' : doy = (153 * mp + 2) / 5 + d - 1) by (subst d; lia).
  clearbody d mp. subst doy. clear Hdoy Hdoe.
  unfold JSDate.days_from_civil. cbv zeta.
  assert (Hera : forall y', y' = yoe + era * 400 ->
                            y' / 400 = era /\ y' - y' / 400 * 400 = yoe).
  { intros y' ->. Z.div_mod_to_equations; lia. }
  destruct (mp <? 10) eqn:Hlt.
  - assert ((mp + 3 <=? 2) = false) as -> by lia.
    assert ((2 <? mp + 3) = true) as -> by lia.
    destruct (Hera _ eq_refl) as [-> ->].
    replace (mp + 3 - 3) with mp by lia. lia.
  - assert ((mp - 9 <=? 2) = true) as -> by lia.
    assert ((2 <? mp - 9) = false) as -> by lia.
    replace (yoe + era * 400 + 1 - 1) with (yoe + era * 400) by lia.
    destruct (Hera _ eq_refl) as [-> ->].
    replace (mp - 9 + 9) with mp by lia. lia.
Qed.

Lemma dec_digits_pad k fuel n :
  (0 < k <= fuel)%nat -> 10 ^ (Z.of_nat k - 1) <= n < 10 ^ Z.of_nat k ->
  JSDate.dec_digits fuel n = JSDate.pad_dec k n.
Proof.
  revert fuel n. induction k as [|k IH]; intros fuel n Hk Hn; [lia|].
  destruct fuel as [|fuel]; [lia|]. cbn [JSDate.dec_digits JSDate.pad_dec].
  destruct k as [|k].
  - change (10 ^ Z.of_nat 1) with 10 in Hn.
    assert ((n <? 10) = true) as -> by lia. done.
  - assert (10 <= 10 ^ (Z.of_nat (S (S k)) - 1)).
    { replace (Z.of_nat (S (S k)) - 1) with (Z.succ (Z.of_nat k)) by lia.
      rewrite Z.pow_succ_r by lia. pose proof (Z.pow_pos_nonneg 10 (Z.of_nat k)). lia. }
    assert ((n <? 10) = false) as -> by lia.
    rewrite (IH fuel (n / 10)); [done|lia|].
    replace (Z.of_nat (S (S k))) with (Z.succ (Z.of_nat (S k))) in Hn by lia.
    rewrite Z.pow_succ_r in Hn by lia.
    replace (Z.succ (Z.of_nat (S k)) - 1) with (Z.succ (Z.of_nat (S k) - 1)) in Hn by lia.
    rewrite Z.pow_succ_r in Hn by lia.
    split; [apply Z.div_le_lower_bound; lia|apply Z.div_lt_upper_bound; lia].
Qed.

Lemma String_of_year y : 1000 <= y <= 9999 -> JSDate.String_of_int y = JSDate.pad_dec 4 y.
Proof.
  intros Hy. unfold JSDate.String_of_int. assert ((y <? 0) = false) as -> by lia.
  apply dec_digits_pad; [|change (10 ^ (Z.of_nat 4 - 1)) with 1000;
                           change (10 ^ Z.of_nat 4) with 10000; lia].
  pose proof (Z.log2_le_mono 1000 y ltac:(lia)) as Hlog.
  change (Z.log2 1000) with 9 in Hlog. lia.
Qed.

Lemma padStart_two n :
  0 <= n <= 99 -> JSDate.padStart 2 48 (JSDate.String_of_int n) = JSDate.pad_dec 2 n.
Proof.
  intros Hn. unfold JSDate.String_of_int. assert ((n <? 0) = false) as -> by lia.
  destruct (Z_lt_le_dec n 10) as [Hsmall|Hbig].
  - cbn [JSDate.dec_digits]. assert ((n <? 10) = true) as -> by lia.
    cbn [JSDate.padStart length Nat.sub repeat app JSDate.pad_dec].
    unfold JSDate.padStart. cbn [length Nat.sub repeat app].
    replace (n / 10) with 0 by (Z.div_mod_to_equations; lia). reflexivity.
  - rewrite (dec_digits_pad 2);
      [|split; [lia|]|change (10 ^ (Z.of_nat 2 - 1)) with 10;
                       change (10 ^ Z.of_nat 2) with 100; lia].
    + unfold JSDate.padStart. by rewrite pad_dec_length.
    + pose proof (Z.log2_le_mono 10 n ltac:(lia)) as Hlog.
      change (Z.log2 10) with 3 in Hlog. lia.
Qed.

Lemma today_string now :
  1000 <= JSDate.getUTCFullYear (now + GMT7_OFFSET_MS) <= 9999 ->
  let t := now + GMT7_OFFSET_MS in
  JSDate.String_of_int (JSDate.getUTCFullYear t) ++ lit "-"
  ++ JSDate.padStart 2 48 (JSDate.String_of_int (JSDate.getUTCMonth t + 1)) ++ lit "-"
  ++ JSDate.padStart 2 48 (JSDate.String_of_int (JSDate.getUTCDate t))
  = date_string (JSDate.getUTCFullYear t) (JSDate.getUTCMonth t + 1) (JSDate.getUTCDate t).
Proof.
  intros Hy. cbv zeta.
  pose proof (civil_from_days_range ((now + GMT7_OFFSET_MS) / JSDate.MS_PER_DAY)) as Hr.
  cbv zeta in Hr. unfold JSDate.getUTCMonth, JSDate.getUTCDate in *.
  rewrite String_of_year, !padStart_two by lia. reflexivity.
Qed.

Lemma today_day_start now :
  let t := now + GMT7_OFFSET_MS in
  day_start (JSDate.getUTCFullYear t) (JSDate.getUTCMonth t + 1) (JSDate.getUTCDate t)
  = today_start now.
Proof.
  cbv zeta. unfold day_start, today_start, JSDate.getUTCFullYear, JSDate.getUTCMonth,
            JSDate.getUTCDate.
  pose proof (days_from_civil_inv ((now + GMT7_OFFSET_MS) / JSDate.MS_PER_DAY)) as Hinv.
  cbv zeta in Hinv.
  replace ((JSDate.civil_from_days ((now + GMT7_OFFSET_MS) / JSDate.MS_PER_DAY)).1.2 - 1 + 1)
    with ((JSDate.civil_from_days ((now + GMT7_OFFSET_MS) / JSDate.MS_PER_DAY)).1.2) by lia.
  by rewrite Hinv.
Qed.

End Today.

(** X18. The window of [today]: while the UTC+7 year has four digits, a
    query without a date, with [date=today] or with the date the Today page
    shows all get the window that starts at the UTC+7 midnight before [now]
    and ends 86399999 ms later, and [now] lies in that day.  So a Hit
    stamped [now] is in today's window at once, unless [now] is the last
    millisecond of the day. *)
Theorem today_window_contains_now (legacy : jsstring -> option Z) now h :
  1000 <= JSDate.getUTCFullYear (now + GMT7_OFFSET_MS) <= 9999 ->
  four_digit_year now -> four_digit_year (today_start now) ->
  four_digit_year (today_start now + 86399999) ->
  WebhookHit.received_at h = JSDate.toISOString now ->
  let window := Some (JSDate.toISOString (today_start now),
                      JSDate.toISOString (today_start now + 86399999)) in
  day_window legacy None now = window
  /\ day_window legacy (Some (lit "today")) now = window
  /\ day_window legacy (Some (fmtDateGmt7 now)) now = window
  /\ today_start now <= now < today_start now + 86400000
  /\ (in_window (JSDate.toISOString (today_start now))
                (JSDate.toISOString (today_start now + 86399999)) None h = true
      <-> now <> today_start now + 86399999).
Proof.
  intros Hy Hnow Hfrom Hto Hat. cbv zeta.
  pose proof (today_string now Hy) as Hstr. cbv zeta in Hstr.
  pose proof (today_day_start now) as Hstart. cbv zeta in Hstart.
  pose proof (civil_from_days_range ((now + GMT7_OFFSET_MS) / JSDate.MS_PER_DAY)) as Hr.
  cbv zeta in Hr.
  assert (Hm : 1 <= JSDate.getUTCMonth (now + GMT7_OFFSET_MS) + 1 <= 12)
    by (unfold JSDate.getUTCMonth; lia).
  assert (Hd : 1 <= JSDate.getUTCDate (now + GMT7_OFFSET_MS) <= 31)
    by (unfold JSDate.getUTCDate; lia).
  assert (Hy' : 0 <= JSDate.getUTCFullYear (now + GMT7_OFFSET_MS) <= 9999) by lia.
  assert (Htoday : forall dateParam,
             bool_decide (dateParam = Some (lit "today")) || negb (truthy dateParam) = true ->
             day_window legacy dateParam now
             = Some (JSDate.toISOString (today_start now),
                     JSDate.toISOString (today_start now + 86399999))).
  { intros dateParam Hcond. unfold day_window. rewrite Hcond, Hstr.
    rewrite parse_day_start, parse_day_end by done. by rewrite Hstart. }
  split; [by apply Htoday|]. split; [by apply Htoday|]. split.
  - replace (fmtDateGmt7 now)
      with (date_string (JSDate.getUTCFullYear (now + GMT7_OFFSET_MS))
                        (JSDate.getUTCMonth (now + GMT7_OFFSET_MS) + 1)
                        (JSDate.getUTCDate (now + GMT7_OFFSET_MS)))
      by (rewrite <- Hstr; reflexivity).
    rewrite day_window_of_date by done. by rewrite Hstart.
  - assert (Hin : today_start now <= now < today_start now + 86400000).
    { unfold today_start, GMT7_OFFSET_MS, JSDate.MS_PER_DAY.
      Z.div_mod_to_equations; lia. }
    split; [done|].
    rewrite (in_window_time _ _ now) by done.
    rewrite andb_true_iff, Z.leb_le, Z.ltb_lt. lia.
Qed.

Lemma today_window_contains_now_witness :
  day_window no_legacy None sample_now
  = Some (lit "2025-11-01T17:00:00.000Z", lit "2025-11-02T16:59:59.999Z")
  /\ today_start sample_now <= sample_now < today_start sample_now + 86400000.
Proof.
  pose proof (today_window_contains_now no_legacy sample_now
                (WebhookHit.mk 1 (lit "line") None (JSDate.toISOString sample_now) 1 5
                               (Some (lit "hello")) None None None)) as Htoday.
  cbv zeta in Htoday.
  destruct Htoday as (Hwin & _ & _ & Hin & _).
  - vm_compute. split; discriminate.
  - vm_compute. split; [discriminate|reflexivity].
  - vm_compute. split; [discriminate|reflexivity].
  - vm_compute. split; [discriminate|reflexivity].
  - reflexivity.
  - split; [|exact Hin]. rewrite Hwin. vm_compute. reflexivity.
Defined.

(** ** Aliases *)

Section Aliases.

Lemma aliasMap_snoc rows a :
  aliasMap (rows ++ [a]) = <[Alias.value a := Alias.label a]> (aliasMap rows).
Proof. unfold aliasMap. by rewrite foldl_app. Qed.

Lemma aliasMap_lookup rows v lab :
  NoDup (map Alias.value rows) ->
  aliasMap rows !! v = Some lab
  <-> exists a, a ∈ rows /\ Alias.value a = v /\ Alias.label a = lab.
Proof.
  induction rows as [|a rows IH] using rev_ind; intros Hnd.
  - split; [done|]. intros (a & Ha & _). by apply elem_of_nil in Ha.
  - rewrite map_app in Hnd. apply NoDup_app in Hnd as (Hnd & Hfresh & _).
    rewrite aliasMap_snoc. destruct (decide (Alias.value a = v)) as [<-|Hne].
    + rewrite lookup_insert_eq. split.
      * intros [= <-]. exists a. split; [|done]. apply elem_of_app. right. by left.
      * intros (b & Hb & Hv & Hl). apply elem_of_app in Hb as [Hb|Hb].
        -- exfalso. apply (Hfresh (Alias.value a)); [|by left].
           rewrite <- Hv. by apply (list_elem_of_fmap_2 Alias.value).
        -- apply list_elem_of_singleton in Hb as ->. by rewrite Hl.
    + rewrite lookup_insert_ne by done. rewrite (IH Hnd). split.
      * intros (b & Hb & Hv & Hl). exists b. split; [|done]. apply elem_of_app. by left.
      * intros (b & Hb & Hv & Hl). apply elem_of_app in Hb as [Hb|Hb]; [by exists b|].
        apply list_elem_of_singleton in Hb as ->. done.
Qed.

Lemma unique_value rows a b :
  NoDup (map Alias.value rows) -> a ∈ rows -> b ∈ rows ->
  Alias.value a = Alias.value b -> a = b.
Proof.
  induction rows as [|c rows IH]; [by intros _ ?%elem_of_nil|].
  cbn [map]. intros [Hc Hnd]%NoDup_cons Ha Hb Hv.
  apply elem_of_cons in Ha as [->|Ha]; apply elem_of_cons in Hb as [->|Hb].
  - done.
  - exfalso. apply Hc. rewrite Hv. by apply (list_elem_of_fmap_2 Alias.value).
  - exfalso. apply Hc. rewrite <- Hv. by apply (list_elem_of_fmap_2 Alias.value).
  - by apply IH.
Qed.

Lemma existsb_value rows v :
  existsb (fun a => bool_decide (Alias.value a = v)) rows = true
  <-> v ∈ map Alias.value rows.
Proof.
  rewrite existsb_exists. split.
  - intros (a & Ha & Hv). apply bool_decide_eq_true in Hv as <-.
    apply (list_elem_of_fmap_2 Alias.value). by apply list_elem_of_In.
  - intros (a & -> & Ha)%list_elem_of_fmap. exists a.
    split; [by apply list_elem_of_In|by apply bool_decide_eq_true].
Qed.

Lemma relabel_values v lab rows :
  map Alias.value
      (map (fun a => if bool_decide (Alias.value a = v)
                     then Alias.mk (Alias.id a) (Alias.value a) lab (Alias.created_at a)
                     else a) rows)
  = map Alias.value rows.
Proof.
  rewrite map_map. apply map_ext. intros a. by case_bool_decide.
Qed.

Lemma relabel_ids v lab rows :
  map Alias.id
      (map (fun a => if bool_decide (Alias.value a = v)
                     then Alias.mk (Alias.id a) (Alias.value a) lab (Alias.created_at a)
                     else a) rows)
  = map Alias.id rows.
Proof.
  rewrite map_map. apply map_ext. intros a. by case_bool_decide.
Qed.

Lemma upsert_alias_wf rowid value label now d :
  aliases_wf d -> rowid ∉ map Alias.id (aliases d) ->
  aliases_wf (upsert_alias rowid value label now d).
Proof.
  intros [Hv Hi] Hfresh. unfold upsert_alias, aliases_wf.
  destruct (existsb _ _) eqn:Hex; cbn [with_aliases aliases].
  - by rewrite relabel_values, relabel_ids.
  - rewrite !map_app. cbn [map Alias.value Alias.id].
    split; apply NoDup_app; (split; [done|]); (split; [|apply NoDup_singleton]).
    + intros x Hx ->%list_elem_of_singleton.
      apply existsb_value in Hx. congruence.
    + intros x Hx ->%list_elem_of_singleton. done.
Qed.

Lemma delete_alias_wf id d : aliases_wf d -> aliases_wf (delete_alias_row id d).
Proof.
  intros [Hv Hi]. unfold aliases_wf, delete_alias_row. cbn [with_aliases aliases].
  split.
  - eapply sublist_NoDup; [exact Hv|apply (fmap_sublist Alias.value), sublist_filter].
  - eapply sublist_NoDup; [exact Hi|apply (fmap_sublist Alias.id), sublist_filter].
Qed.

End Aliases.



(** X20. The alias handlers: [PUT /api/aliases] answers 401 unauthorized,
    500 when reading the JSON body fails, and 400 when the value or the
    label is missing or empty, changing nothing in each case; otherwise it
    answers 200 and upserts, as the MCP tool [set_alias] does with the same
    arguments.  Deleting by id, over REST or by tool, removes the
    rows with that id and no other, keeps values and ids unique, and
    deletes nothing when the id is that of no row or no integer at all;
    the deleted alias then has no label in the alias map. *)
Theorem alias_handlers_contract env request (body : option AliasBody) rowid now id d :
  let put := put_alias env request body rowid now d in
  (checkAuth request env = false ->
   put = (c_json (error_body "Unauthorized") 401, d)
   /\ api_delete_alias env request id d = (c_json (error_body "Unauthorized") 401, d))
  /\ (checkAuth request env = true -> body = None ->
      put = (internal_server_error, d) /\ status put.1 = 500)
  /\ (forall b,
        checkAuth request env = true -> body = Some b ->
        truthy (body_value b) && truthy (body_label b) = false ->
        put = (c_json (error_body "Missing value or label") 400, d))
  /\ (forall b value label,
        checkAuth request env = true -> body = Some b ->
        body_value b = Some value -> value <> [] ->
        body_label b = Some label -> label <> [] ->
        status put.1 = 200
        /\ put.2 = (set_alias value label rowid now d).2
        /\ payload put.1 = content (set_alias value label rowid now d).1)
  /\ (status put.1 = 200
      <-> checkAuth request env = true
          /\ exists b, body = Some b /\ truthy (body_value b) = true
                       /\ truthy (body_label b) = true)
  /\ (status put.1 <> 200 -> put.2 = d)
  /\ (checkAuth request env = true ->
      (api_delete_alias env request id d).2 = (delete_alias id d).2)
  /\ (forall a, a ∈ aliases (delete_alias id d).2
                <-> a ∈ aliases d /\ Some (Alias.id a) <> id)
  /\ (aliases_wf d -> aliases_wf (delete_alias id d).2)
  /\ ((forall a, a ∈ aliases d -> Some (Alias.id a) <> id) ->
      aliases (delete_alias id d).2 = aliases d)
  /\ (aliases_wf d ->
      forall a, a ∈ aliases d -> Some (Alias.id a) = id ->
                aliasMap (aliases (delete_alias id d).2) !! Alias.value a = None).
Proof.
  cbv zeta. unfold put_alias, api_delete_alias, delete_alias, set_alias.
  cbn [fst snd content].
  split; [by intros ->|].
  split; [by intros -> ->|].
  split.
  { intros b -> -> Hmissing. cbn [negb].
    destruct (truthy (body_value b)), (truthy (body_label b)); done. }
  split.
  { intros b value label -> -> -> Hv -> Hl.
    assert (truthy (Some value) = true) as -> by by destruct value.
    assert (truthy (Some label) = true) as -> by by destruct label.
    done. }
  split.
  { destruct (checkAuth request env); cbn [negb].
    2:{ cbn. split; [lia|by intros [? _]]. }
    destruct body as [b|].
    2:{ cbn. split; [lia|]. by intros [_ (b & ? & _)]. }
    destruct (truthy (body_value b)) eqn:Hv, (truthy (body_label b)) eqn:Hl;
      cbn [negb orb fst status c_json];
      (split; [try lia; eauto 6|]); try done;
      intros [_ (b' & [= <-] & ? & ?)]; congruence. }
  split.
  { destruct (checkAuth request env); cbn [negb]; [|done].
    destruct body as [b|]; [|done].
    destruct (negb (truthy (body_value b)) || negb (truthy (body_label b))); [done|].
    cbn. lia. }
  split; [by intros ->|].
  split.
  { intros a. unfold delete_alias_row. cbn [with_aliases aliases].
    rewrite list_elem_of_filter. tauto. }
  split; [apply delete_alias_wf|].
  split.
  { intros Hnone. unfold delete_alias_row. cbn [with_aliases aliases].
    induction (aliases d) as [|a l IH]; [done|]. rewrite filter_cons.
    rewrite decide_True by (apply Hnone; by left).
    f_equal. apply IH. intros b Hb. apply Hnone. by right. }
  intros Hwf a Ha Hid.
  destruct (aliasMap (aliases (delete_alias_row id d)) !! Alias.value a) as [lab|] eqn:Hlab;
    [|done].
  exfalso. apply aliasMap_lookup in Hlab; [|by apply delete_alias_wf].
  destruct Hlab as (b & Hb & Hvb & _).
  unfold delete_alias_row in Hb. cbn [with_aliases aliases] in Hb.
  apply list_elem_of_filter in Hb as [Hidb Hb].
  destruct Hwf as [Hv _].
  assert (b = a) as ->; [|congruence].
  by apply (unique_value (aliases d)).
Qed.

Lemma alias_handlers_contract_witness :
  put_alias open_env sample_request None 2 sample_now alias_db
  = (internal_server_error, alias_db)
  /\ aliasMap (aliases (delete_alias (Some 1) alias_db).2) !! lit "C0ffee" = None
  /\ aliases (delete_alias None alias_db).2 = aliases alias_db.
Proof.
  pose proof (alias_handlers_contract open_env sample_request
                (Some (mkAliasBody None None)) 2 sample_now (Some 1) alias_db) as Hone.
  pose proof (alias_handlers_contract open_env sample_request None 2
                sample_now None alias_db) as Hnan.
  cbv zeta in Hone, Hnan.
  destruct Hone as (_ & _ & _ & _ & _ & _ & _ & _ & _ & _ & Hgone).
  destruct Hnan as (_ & H500 & _ & _ & _ & _ & _ & _ & _ & Hnone & _).
  split; [|split].
  - apply H500; reflexivity.
  - apply (Hgone ltac:(split; repeat constructor; by intros ?%elem_of_nil)
             (Alias.mk 1 (lit "C0ffee") (lit "Team") (lit "2025-01-01T00:00:00.000Z")));
      [by left|reflexivity].
  - apply Hnone. intros a _. discriminate.
Defined.

(** ** Statistics *)

Section StatsOrder.

#[global] Instance older_first_total : Total older_first.
Proof. intros a b. destruct (newer_first_total a b); [by right|by left]. Qed.

#[global] Instance older_first_trans : Transitive older_first.
Proof. intros a b c Hab Hbc. exact (newer_first_trans c b a Hbc Hab). Qed.

Lemma sum_list_bounds lo hi xs :
  Forall (fun x => lo <= x <= hi) xs ->
  lo * Z.of_nat (length xs) <= sum_list xs <= hi * Z.of_nat (length xs).
Proof.
  induction 1 as [|x xs Hx _ IH]; [cbn; lia|].
  cbn [sum_list foldr length]. fold (sum_list xs). lia.
Qed.

Lemma rounded_mean_bounds lo hi xs :
  xs <> [] -> Forall (fun x => lo <= x <= hi) xs -> lo <= rounded_mean xs <= hi.
Proof.
  intros Hne Hb. pose proof (sum_list_bounds lo hi xs Hb) as Hs.
  destruct xs as [|x xs]; [done|]. unfold rounded_mean.
  set (n := Z.of_nat (length (x :: xs))) in *.
  assert (0 < n) by (subst n; cbn [length]; lia).
  split.
  - apply Z.div_le_lower_bound; nia.
  - apply Z.lt_succ_r. apply Z.div_lt_upper_bound; nia.
Qed.

Lemma filter_ext_in {A} (P Q : A -> Prop) `{!forall x, Decision (P x)}
      `{!forall x, Decision (Q x)} (l : list A) :
  (forall x, x ∈ l -> (P x <-> Q x)) -> filter P l = filter Q l.
Proof.
  induction l as [|x l IH]; intros Hext; [done|]. rewrite !filter_cons.
  rewrite IH by (intros y Hy; apply Hext; by right).
  destruct (decide (P x)) as [HP|HP], (decide (Q x)) as [HQ|HQ]; try done;
    exfalso; apply (Hext x ltac:(by left)) in HP || apply (Hext x ltac:(by left)) in HQ;
    done.
Qed.

Lemma head_sorted_min (l : list WebhookHit.t) h :
  head (merge_sort older_first l) = Some h ->
  h ∈ l /\ forall x, x ∈ l -> older_first h x.
Proof.
  intros Hhead.
  pose proof (StronglySorted_merge_sort older_first l) as Hs.
  pose proof (merge_sort_Permutation older_first l) as Hp.
  destruct (merge_sort older_first l) as [|y rest]; [done|]. injection Hhead as ->.
  split; [rewrite <- Hp; by left|].
  intros x Hx. rewrite <- Hp in Hx. apply StronglySorted_inv in Hs as [_ Hall].
  apply elem_of_cons in Hx as [->|Hx].
  - unfold older_first, text_lt. apply bytes_ltb_irrefl.
  - rewrite Forall_forall in Hall. by apply Hall.
Qed.

End StatsOrder.

(** X21. What [getStats] reports: the number of Hits; a mean response time
    that lies between the smallest and the largest one; a count of today's
    writes that is at most the total; the newest Hits first, at most 50,
    and all of them when there are no more than 50; the timestamp of a Hit
    that none is older than, or none when the table is empty; the rules
    and aliases as stored, and the size the engine reports or 0. *)
Theorem getStats_contract size_after now d :
  let s := getStats size_after now d in
  Stats.total_requests s = Z.of_nat (length (webhook_hits d))
  /\ 0 <= Stats.writes_today (Stats.d1 s) <= Stats.total_requests s
  /\ (forall lo hi,
        webhook_hits d <> [] ->
        (forall h, h ∈ webhook_hits d -> lo <= WebhookHit.response_ms h <= hi) ->
        lo <= Stats.avg_response_ms s <= hi)
  /\ (webhook_hits d = [] -> Stats.avg_response_ms s = 0)
  /\ (length (Stats.recent s) <= 50)%nat
  /\ StronglySorted newer_first (Stats.recent s)
  /\ Stats.recent s `sublist_of` merge_sort newer_first (webhook_hits d)
  /\ ((length (webhook_hits d) <= 50)%nat -> Stats.recent s ≡ₚ webhook_hits d)
  /\ (Stats.oldest_hit_at s = None <-> webhook_hits d = [])
  /\ (forall o, Stats.oldest_hit_at s = Some o ->
                (exists h, h ∈ webhook_hits d /\ WebhookHit.received_at h = o)
                /\ forall h, h ∈ webhook_hits d ->
                             text_lt (WebhookHit.received_at h) o = false)
  /\ Stats.forward_rules s = forward_rules d
  /\ Stats.aliases s = aliases d
  /\ Stats.db_size_bytes (Stats.d1 s) = default 0 size_after.
Proof.
  cbv zeta. unfold getStats.
  cbn [Stats.total_requests Stats.avg_response_ms Stats.oldest_hit_at Stats.recent
       Stats.forward_rules Stats.aliases Stats.d1 Stats.writes_today Stats.db_size_bytes].
  split; [done|]. split.
  { split; [lia|]. apply inj_le, length_filter. }
  split.
  { intros lo hi Hne Hb. apply rounded_mean_bounds.
    - by destruct (webhook_hits d).
    - apply Forall_fmap, Forall_forall. intros h Hh. by apply Hb. }
  split; [by intros ->|].
  split; [rewrite length_take; unfold RECENT_SIZE; lia|].
  split.
  { pose proof (StronglySorted_merge_sort newer_first (webhook_hits d)) as Hs.
    rewrite <- (take_drop RECENT_SIZE (merge_sort newer_first (webhook_hits d))) in Hs.
    by apply StronglySorted_app_1_l in Hs. }
  split; [apply sublist_take|].
  split.
  { intros Hlen. rewrite take_ge; [apply merge_sort_Permutation|].
    rewrite (Permutation_length (merge_sort_Permutation newer_first (webhook_hits d))).
    unfold RECENT_SIZE. lia. }
  assert (Hhead : head (take 1 (merge_sort older_first (webhook_hits d)))
                  = head (merge_sort older_first (webhook_hits d)))
    by by destruct (merge_sort older_first (webhook_hits d)).
  rewrite Hhead.
  split.
  { pose proof (merge_sort_Permutation older_first (webhook_hits d)) as Hp.
    destruct (merge_sort older_first (webhook_hits d)) as [|y rest] eqn:Hsorted.
    - split; [|done]. intros _. by apply Permutation_nil_l in Hp.
    - split; [done|]. intros Hnil. rewrite Hnil in Hp.
      by apply Permutation_nil_r in Hp. }
  split; [|done].
  intros o Ho.
  destruct (head (merge_sort older_first (webhook_hits d))) as [h|] eqn:Hh; [|done].
  injection Ho as <-. apply head_sorted_min in Hh as [Hin Hmin].
  split; [by exists h|]. intros x Hx. exact (Hmin x Hx).
Qed.

(** X22. Statistics against the clock: when the Hits carry the stamps the
    pipeline gives them, [writes_today] is the number of Hits received
    since the last UTC midnight, which is 07:00 of the UTC+7 day that [/api/hits] calls today
    when it is past 07:00 there and 07:00 of the day before otherwise;
    and right after a purge the oldest Hit reported is not older than the
    purge's cutoff. *)
Theorem stats_against_the_clock size_after now d :
  four_digit_year (utc_midnight now) ->
  (forall instant : WebhookHit.t -> Z,
      (forall h, h ∈ webhook_hits d ->
                 WebhookHit.received_at h = JSDate.toISOString (instant h)
                 /\ four_digit_year (instant h)) ->
      Stats.writes_today (Stats.d1 (getStats size_after now d))
      = Z.of_nat (length (filter (fun h => utc_midnight now <= instant h) (webhook_hits d))))
  /\ utc_midnight now <= now < utc_midnight now + 86400000
  /\ (utc_midnight now = today_start now + GMT7_OFFSET_MS
      \/ utc_midnight now = today_start now + GMT7_OFFSET_MS - 86400000)
  /\ (utc_midnight now = today_start now + GMT7_OFFSET_MS
      <-> now - utc_midnight now < 86400000 - GMT7_OFFSET_MS)
  /\ (forall o,
        Stats.oldest_hit_at (getStats size_after now (purgeOldHits now d).2) = Some o ->
        text_lt o (JSDate.toISOString (now - SEVEN_DAYS_MS)) = false).
Proof.
  intros Hmid.
  split.
  { intros instant Hst. unfold getStats. cbn [Stats.d1 Stats.writes_today].
    do 2 f_equal. apply filter_ext_in. intros h Hh. destruct (Hst h Hh) as [Hat Ht].
    unfold text_gte. rewrite Hat, toISOString_lt by done.
    rewrite negb_true_iff, Z.ltb_ge. done. }
  split.
  { unfold utc_midnight, JSDate.MS_PER_DAY. Z.div_mod_to_equations; lia. }
  split.
  { unfold utc_midnight, today_start, GMT7_OFFSET_MS, JSDate.MS_PER_DAY.
    Z.div_mod_to_equations; lia. }
  split.
  { unfold utc_midnight, today_start, GMT7_OFFSET_MS, JSDate.MS_PER_DAY.
    Z.div_mod_to_equations; lia. }
  intros o Ho. unfold getStats in Ho. cbn [Stats.oldest_hit_at] in Ho.
  assert (Hhead : forall l : list WebhookHit.t, head (take 1 l) = head l)
    by by intros [|x l].
  rewrite Hhead in Ho.
  destruct (head (merge_sort older_first (webhook_hits (purgeOldHits now d).2)))
    as [h|] eqn:Hh; [|done].
  injection Ho as <-. apply head_sorted_min in Hh as [Hin _].
  rewrite purge_unfold in Hin. cbn [snd with_hits webhook_hits] in Hin.
  by apply list_elem_of_filter in Hin as [Hkeep _].
Qed.

Lemma getStats_contract_witness :
  1 <= Stats.avg_response_ms (getStats None sample_now (db boundary_world)) <= 1.
Proof.
  pose proof (getStats_contract None sample_now (db boundary_world)) as Hstats.
  cbv zeta in Hstats. destruct Hstats as (_ & _ & Havg & _).
  assert (Hrows : WebhookHit.response_ms <$> webhook_hits (db boundary_world) = [1; 1; 1])
    by (vm_compute; reflexivity).
  apply Havg.
  - intros Hnil. rewrite Hnil in Hrows. discriminate Hrows.
  - intros h Hh. apply (list_elem_of_fmap_2 WebhookHit.response_ms) in Hh.
    rewrite Hrows in Hh.
    repeat (apply elem_of_cons in Hh as [Heq|Hh]; [lia|]).
    by apply elem_of_nil in Hh.
Defined.

Lemma stats_against_the_clock_witness :
  utc_midnight sample_now <= sample_now < utc_midnight sample_now + 86400000
  /\ utc_midnight sample_now = today_start sample_now + GMT7_OFFSET_MS.
Proof.
  pose proof (stats_against_the_clock None sample_now (db boundary_world)) as Hclock.
  destruct Hclock as (_ & Hin & _ & Hcase & _).
  - vm_compute. split; [discriminate|reflexivity].
  - split; [exact Hin|]. apply Hcase. vm_compute. reflexivity.
Defined.

(** ** The GitHub pipeline *)

(** X23. An accepted GitHub request that is persisted appends one Hit with
    suffix [/github], the length of the raw body, and as its body what the
    TEXT column gives back for the digest of the payload or, when the
    payload does not parse, for a note [[event] (invalid JSON)] followed by
    the first 512 code units of the raw body; the event is the
    [x-github-event] header, [unknown] without one.  A digest in which
    every surrogate has its partner is stored as it is.  So is the note,
    at most 530 code units longer than the event, unless the cut at 512
    falls inside a surrogate pair of the raw body: then the first half of
    the pair is replaced by three U+FFFD, and the note is 532 code units
    longer than the event.  What is forwarded, if the rule asks for it, is
    the raw body with the sender's headers, not the digest; the answer
    names the event. *)
Theorem github_hit_contract
        (parseGitHubEvent : jsstring -> jsstring -> option jsstring)
        env id token request now elapsed w :
  ~ (exists secret, API_TOKEN env = Some secret /\ secret <> []
                    /\ verifyWebhookToken id token secret = Some false) ->
  persist_is_false (getForwardRule (db w) id) = false ->
  let event := github_event request in
  let raw := text request in
  let r := post_w_github parseGitHubEvent env id token request now elapsed w in
  let stored :=
    D1_text (default (invalid_json_note event raw) (parseGitHubEvent event raw)) in
  webhook_hits (db r.2)
  = webhook_hits (db w)
    ++ [WebhookHit.mk (webhook_hits_seq (db w) + 1) id (Some (lit "/github"))
                      (JSDate.toISOString now) elapsed (js_length raw) (Some stored)
                      None None None]
  /\ (forall digest,
        parseGitHubEvent event raw = Some digest -> well_formed digest = true ->
        stored = digest)
  /\ (parseGitHubEvent event raw = None ->
      well_formed event = true -> well_formed raw = true ->
      (length stored <= length event + 532)%nat
      /\ (well_formed (take 512 raw) = true ->
          stored = lit "[" ++ event ++ lit "] (invalid JSON) " ++ take 512 raw
          /\ (length stored <= length event + 530)%nat)
      /\ (well_formed (take 512 raw) = false ->
          stored = lit "[" ++ event ++ lit "] (invalid JSON) " ++ take 511 raw ++ REPLACED
          /\ length stored = (length event + 532)%nat))
  /\ r.1 = c_json (JObj [field "ok" (JBool true);
                         field "endpoint" (JStr id);
                         field "event" (JStr event);
                         field "received_at" (JStr (JSDate.toISOString now));
                         field "response_ms" (JNum elapsed)]) 200
  /\ scheduled_forwards (trace r.2)
     = scheduled_forwards (trace w)
       ++ (if wants_forward (getForwardRule (db w) id)
           then [TForward (Some (webhook_hits_seq (db w) + 1))
                          (default [] (ForwardRule.forward_url <$> getForwardRule (db w) id))
                          raw (headers request)]
           else [])
  /\ body_reads (trace r.2) = S (body_reads (trace w)).
Proof.
  intros Hacc Hpersist. cbv zeta. unfold post_w_github.
  rewrite (gate_accepts _ _ _ Hacc).
  unfold emit, with_db. cbn [db trace]. rewrite Hpersist.
  cbn [recordHit fst snd db trace NewWebhookHit.body fmap option_fmap option_map].
  fold (github_event request).
  assert (Hstored : match parseGitHubEvent (github_event request) (text request) with
                    | Some p => p
                    | None => lit "[" ++ github_event request ++ lit "] (invalid JSON) "
                              ++ js_slice0 512 (text request)
                    end
                    = default (invalid_json_note (github_event request) (text request))
                              (parseGitHubEvent (github_event request) (text request)))
    by by destruct (parseGitHubEvent _ _).
  rewrite Hstored. clear Hstored.
  split; [by destruct (wants_forward _)|].
  split.
  { intros digest -> Hw. cbn [from_option Datatypes.id]. by apply D1_text_wf. }
  split.
  { intros -> Hev Hraw. cbn [from_option Datatypes.id]. unfold invalid_json_note, js_slice0.
    change (Z.to_nat 512) with 512%nat.
    set (event := github_event request) in *. set (raw := text request) in *.
    assert (Hnote : D1_text (lit "[" ++ event ++ lit "] (invalid JSON) " ++ take 512 raw)
                    = lit "[" ++ event ++ lit "] (invalid JSON) " ++ D1_text (take 512 raw)).
    { rewrite (D1_text_app (lit "[")) by reflexivity.
      rewrite (D1_text_app event) by done.
      by rewrite (D1_text_app (lit "] (invalid JSON) ")) by reflexivity. }
    rewrite Hnote.
    assert (Hlen : forall tail,
               length (lit "[" ++ event ++ lit "] (invalid JSON) " ++ tail)
               = (length event + 18 + length tail)%nat).
    { intros tail. rewrite !length_app.
      change (length (lit "[")) with 1%nat.
      change (length (lit "] (invalid JSON) ")) with 17%nat. lia. }
    destruct (D1_text_take raw 512 Hraw)
      as [[Hw Hd]|(pre & c & Hpre & Hwpre & Hc & Hn & Hlt & Hcut & Hd)].
    - rewrite Hd, Hlen, length_take.
      split; [lia|]. split; [intros _; split; [done|lia]|]. congruence.
    - assert (Hpre' : take 511 raw = pre).
      { apply (f_equal (take 511)) in Hpre.
        assert (Hp : length pre = 511%nat) by lia.
        rewrite take_take, <- Hp, take_app_length, Hp in Hpre. by rewrite <- Hpre. }
      rewrite Hd, Hlen, Hpre', length_app.
      change (length REPLACED) with 3%nat.
      split; [lia|]. split; [congruence|]. intros _. split; [done|lia]. }
  split; [reflexivity|].
  destruct (wants_forward _); cbn [db trace snd].
  - rewrite !scheduled_forwards_snoc, !body_reads_snoc, app_nil_r. split; [done|lia].
  - rewrite !scheduled_forwards_snoc, !body_reads_snoc, !app_nil_r. split; [done|lia].
Qed.

Lemma github_hit_contract_witness :
  WebhookHit.body
  <$> webhook_hits (db (post_w_github parse_fails open_env (lit "repo") (lit "any")
                                      github_request sample_now 2 empty_world).2)
  = [Some (lit "[push] (invalid JSON) {not json")].
Proof.
  pose proof (github_hit_contract parse_fails open_env (lit "repo") (lit "any")
                github_request sample_now 2 empty_world) as Hgithub.
  cbv zeta in Hgithub. destruct Hgithub as (Hrows & _).
  - apply no_secret_accepts. reflexivity.
  - reflexivity.
  - rewrite Hrows. reflexivity.
Defined.

(** ** The hits tool against the REST query *)

Section HitsToolFacts.

Lemma tool_window_day_window legacy date now :
  tool_window legacy (or_else date (lit "today")) now = day_window legacy date now.
Proof.
  unfold tool_window, day_window, or_else.
  destruct date as [[|c s]|]; cbn [truthy from_option Datatypes.id negb orb].
  - rewrite bool_decide_eq_true_2 by done. rewrite bool_decide_eq_false_2 by done. done.
  - destruct (decide (c :: s = lit "today")) as [->|Hne].
    + by rewrite !bool_decide_eq_true_2.
    + rewrite !bool_decide_eq_false_2 by congruence. by rewrite orb_false_r.
  - rewrite bool_decide_eq_true_2 by done. rewrite bool_decide_eq_false_2 by done. done.
Qed.

End HitsToolFacts.

(** X24. The MCP tool [webhook_hits] computes the window of [/api/hits]: it
    throws exactly when the REST query answers 500, and without a group
    it reports the rows and the count the REST query reports.  With a
    group it reports, of that same page of at most 500 rows and in the
    same order, those whose body names the group: the filter runs on the
    page, not on the table. *)
Theorem hits_tool_within_rest (groupId_of : jsstring -> option jsstring)
        (legacy : jsstring -> option Z) env request date endpoint group now d :
  checkAuth request env = true ->
  (tool_hits groupId_of legacy date endpoint group now d = None
   <-> status (api_hits legacy env request date endpoint now d) = 500)
  /\ (forall fromISO toISO,
        day_window legacy date now = Some (fromISO, toISO) ->
        let page := select_hits d fromISO toISO endpoint in
        exists rows,
          tool_hits groupId_of legacy date endpoint group now d = Some rows
          /\ webhook_hits_tool groupId_of legacy date endpoint group now d
             = Some (mkToolResult
                       (JObj [field "date" (JStr (or_else date (lit "today")));
                              field "count" (JNum (Z.of_nat (length rows)));
                              field "hits" (JArr (map json_of_hit rows))]) false)
          /\ rows `sublist_of` page
          /\ (length rows <= 500)%nat
          /\ (truthy group = false ->
              rows = page
              /\ payload (api_hits legacy env request date endpoint now d)
                 = JObj [field "date" (JStr (or_else date (lit "today")));
                         field "from" (JStr fromISO);
                         field "to" (JStr toISO);
                         field "count" (JNum (Z.of_nat (length rows)));
                         field "hits" (JArr (map json_of_hit rows))])
          /\ (truthy group = true ->
              forall h, h ∈ rows
                        <-> h ∈ page
                            /\ exists b, WebhookHit.body h = Some b /\ b <> []
                                         /\ groupId_of b = group)).
Proof.
  intros Hauth. unfold webhook_hits_tool, tool_hits, api_hits.
  rewrite Hauth, tool_window_day_window.
  cbn [negb]. split.
  { destruct (day_window legacy date now) as [[fromISO toISO]|]; cbn; split; try done; lia. }
  intros fromISO toISO ->. cbv zeta.
  pose proof (select_hits_spec d fromISO toISO endpoint) as (_ & _ & Hlen & _).
  destruct (truthy group) eqn:Hgroup.
  - eexists. split; [reflexivity|]. split; [reflexivity|]. split; [apply sublist_filter|].
    split.
    { etrans; [apply length_filter|done]. }
    split; [done|]. intros _ h. rewrite list_elem_of_filter.
    rewrite andb_true_iff, bool_decide_eq_true. split.
    + intros [[Hbody Hg] Hin]. split; [done|].
      destruct (WebhookHit.body h) as [[|c b]|]; try done. by exists (c :: b).
    + intros [Hin (b & Hb & Hne & Hg)]. split; [|done]. rewrite Hb.
      split; [by destruct b|done].
  - eexists. split; [reflexivity|]. split; [reflexivity|]. split; [done|]. split; [done|].
    split; [done|done].
Qed.

Lemma hits_tool_within_rest_witness :
  tool_hits no_group no_legacy (Some (lit "2025-01-01")) None None sample_now (db boundary_world)
  = Some (select_hits (db boundary_world) (lit "2024-12-31T17:00:00.000Z")
                      (lit "2025-01-01T16:59:59.999Z") None).
Proof.
  pose proof (hits_tool_within_rest no_group no_legacy open_env sample_request
                (Some (lit "2025-01-01")) None None sample_now (db boundary_world))
    as Htool.
  destruct Htool as (_ & Hrows); [reflexivity|].
  destruct (Hrows (lit "2024-12-31T17:00:00.000Z") (lit "2025-01-01T16:59:59.999Z"))
    as (rows & Heq & _ & _ & _ & Hsame & _); [vm_compute; reflexivity|].
  rewrite Heq. f_equal. apply Hsame. reflexivity.
Defined.

(** ** Resolving a name, and what becomes of a 404 *)

(** X25. [POST /api/aliases/resolve] checks, in this order, the caller
    (401), the LINE token (500) and the id (400).  It asks LINE about a
    group when the id starts with [C], about a user when it starts with
    [U] (as a member of the group given, or by profile), and about nothing
    otherwise.  Only a non-empty name from an [ok] answer is saved: then
    the answer is 200 and the alias is upserted with that name; in every
    other case the store is left as it was. *)
Theorem resolve_contract (line : jsstring -> jsstring -> LineOutcome)
        env request body rowid now d :
  let r := api_aliases_resolve line env request body rowid now d in
  (checkAuth request env = false -> status r.1 = 401)
  /\ (checkAuth request env = true -> truthy (LINE_CHANNEL_ACCESS_TOKEN env) = false ->
      status r.1 = 500)
  /\ (checkAuth request env = true -> truthy (LINE_CHANNEL_ACCESS_TOKEN env) = true ->
      truthy (resolve_id body) = false -> status r.1 = 400)
  /\ (status r.1 <> 200 -> r.2 = d)
  /\ (forall id token,
        checkAuth request env = true ->
        LINE_CHANNEL_ACCESS_TOKEN env = Some token -> token <> [] ->
        resolve_id body = Some id -> id <> [] ->
        let url :=
          if startsWith 67 id then Some (line_group_url id)
          else if startsWith 85 id
               then Some (if truthy (resolve_groupId body)
                          then line_member_url (default [] (resolve_groupId body)) id
                          else line_profile_url id)
               else None in
        (status r.1 = 200
         <-> exists u name, url = Some u /\ line u token = LineOk (Some name) /\ name <> [])
        /\ (forall u name, url = Some u -> line u token = LineOk (Some name) -> name <> [] ->
                           r = (c_json (alias_ok id name) 200,
                                upsert_alias rowid id name (JSDate.toISOString now) d))
        /\ (url = None -> status r.1 = 404)
        /\ (forall u, url = Some u -> line u token = LineThrew -> status r.1 = 500)
        /\ (forall u, url = Some u -> line u token = LineNotOk -> status r.1 = 404)).
Proof.
  cbv zeta. unfold api_aliases_resolve.
  split; [by intros ->|]. split; [by intros -> ->|]. split; [by intros -> -> ->|].
  split.
  { destruct (negb (checkAuth _ _)); [done|].
    destruct (negb (truthy (LINE_CHANNEL_ACCESS_TOKEN env))); [done|].
    destruct (negb (truthy (resolve_id body))); [done|].
    destruct (if startsWith 67 _ then _ else _) as [[| |[[|c name]|]]|]; cbn; done. }
  intros id token -> -> Htoken -> Hid.
  assert (truthy (Some token) = true) as -> by by destruct token.
  assert (truthy (Some id) = true) as -> by by destruct id.
  cbn [negb from_option Datatypes.id].
  set (url := if startsWith 67 id then Some (line_group_url id)
              else if startsWith 85 id
                   then Some (if truthy (resolve_groupId body)
                              then line_member_url (default [] (resolve_groupId body)) id
                              else line_profile_url id)
                   else None).
  assert (Hanswer : (if startsWith 67 id then Some (line (line_group_url id) token)
                     else if startsWith 85 id
                          then Some (line (if truthy (resolve_groupId body)
                                           then line_member_url
                                                  (default [] (resolve_groupId body)) id
                                           else line_profile_url id) token)
                          else None)
                    = (fun u => line u token) <$> url)
    by (unfold url; by destruct (startsWith 67 id), (startsWith 85 id)).
  rewrite Hanswer. clear Hanswer. clearbody url.
  destruct url as [u|]; cbn [fmap option_fmap option_map].
  2:{ cbn. split; [split; [lia|by intros (u & n & [=] & _)]|]. by repeat split. }
  destruct (line u token) as [| |[[|c name]|]] eqn:Hline; cbn.
  - split; [split; [lia|intros (u' & n & [= <-] & Hn & _); congruence]|].
    repeat split; try done; intros; simplify_eq; congruence.
  - split; [split; [lia|intros (u' & n & [= <-] & Hn & _); congruence]|].
    repeat split; try done; intros; simplify_eq; congruence.
  - split; [split; [lia|intros (u' & n & [= <-] & Hn & Hne); congruence]|].
    repeat split; try done; intros; simplify_eq; congruence.
  - split; [split; [intros _; by exists u, (c :: name)|done]|].
    repeat split; try done; intros; simplify_eq; congruence.
  - split; [split; [lia|intros (u' & n & [= <-] & Hn & _); congruence]|].
    repeat split; try done; intros; simplify_eq; congruence.
Qed.

Lemma resolve_contract_witness :
  api_aliases_resolve line_knows_team line_env sample_request
                      (mkResolveBody (Some (lit "C0ffee")) None) 1 sample_now empty_db
  = (c_json (alias_ok (lit "C0ffee") (lit "Team")) 200,
     upsert_alias 1 (lit "C0ffee") (lit "Team") (JSDate.toISOString sample_now) empty_db).
Proof.
  pose proof (resolve_contract line_knows_team line_env sample_request
                (mkResolveBody (Some (lit "C0ffee")) None) 1 sample_now empty_db)
    as Hresolve.
  cbv zeta in Hresolve. destruct Hresolve as (_ & _ & _ & _ & Hcall).
  destruct (Hcall (lit "C0ffee") (lit "line-token")) as (_ & Hsaved & _);
    [reflexivity|reflexivity|discriminate|reflexivity|discriminate|].
  apply (Hsaved (line_group_url (lit "C0ffee")) (lit "Team")).
  - reflexivity.
  - vm_compute. reflexivity.
  - discriminate.
Defined.

(** X26. The worker hands every 404 of the app to the static assets.  The
    handlers for hits, rules, purge, URL issue, login and the three receive
    routes never answer 404, so their answers pass through as they are;
    the resolve handler's 404 "Could not resolve name" does not: the
    client gets the asset server's answer instead. *)
Theorem not_found_goes_to_assets
        (parseGitHubEvent : jsstring -> jsstring -> option jsstring)
        (URL_parses : jsstring -> bool) (line : jsstring -> jsstring -> LineOutcome)
        (legacy : jsstring -> option Z) (header_value_ok : jsstring -> bool)
        assets env request id token suffix rule_body alias_body resolve_body
        date endpoint origin query_id form rowid alias_id now elapsed w :
  let through res := worker_fetch assets res = res in
  through (post_w env id token request now elapsed w).1
  /\ through (post_w_suffix env id token suffix request now elapsed w).1
  /\ through (post_w_github parseGitHubEvent env id token request now elapsed w).1
  /\ through (api_hits legacy env request date endpoint now (db w))
  /\ through (api_purge env request now (db w)).1
  /\ through (put_forward_rule URL_parses env id request rule_body now (db w)).1
  /\ through (api_delete_forward_rule env id request (db w)).1
  /\ through (put_alias env request alias_body rowid now (db w)).1
  /\ through (api_delete_alias env request alias_id (db w)).1
  /\ through (api_generate_url env request origin query_id)
  /\ through (api_me env request)
  /\ through (response (auth_login header_value_ok env form))
  /\ through (response auth_logout)
  /\ (status (api_aliases_resolve line env request resolve_body rowid now (db w)).1 = 404 ->
      worker_fetch assets
        (api_aliases_resolve line env request resolve_body rowid now (db w)).1 = assets)
  /\ (status (api_aliases_resolve line env request resolve_body rowid now (db w)).1 <> 404 ->
      through (api_aliases_resolve line env request resolve_body rowid now (db w)).1).
Proof.
  cbv zeta.
  assert (Hpass : forall res, status res <> 404 -> worker_fetch assets res = res).
  { intros res Hne. unfold worker_fetch. by rewrite (proj2 (Z.eqb_neq _ _) Hne). }
  repeat apply conj; try reflexivity.
  - apply Hpass. destruct (gate_decides env id token) as [(secret & Hs & Hne & Hv)|Hacc].
    + by erewrite post_w_rejected.
    + by rewrite post_w_accepted.
  - apply Hpass. destruct (gate_decides env id token) as [(secret & Hs & Hne & Hv)|Hacc].
    + by erewrite post_w_suffix_rejected.
    + by rewrite post_w_suffix_status.
  - apply Hpass. destruct (gate_decides env id token) as [(secret & Hs & Hne & Hv)|Hacc].
    + by erewrite post_w_github_rejected.
    + by rewrite post_w_github_status.
  - apply Hpass. unfold api_hits. destruct (negb _); [done|].
    by destruct (day_window legacy date now) as [[? ?]|].
  - apply Hpass. unfold api_purge. destruct (negb _); [done|].
    by destruct (purgeOldHits now (db w)).
  - apply Hpass. unfold put_forward_rule.
    destruct (negb (checkAuth _ _)); [done|]. destruct rule_body as [b|]; [|done].
    destruct (negb (truthy _)); [done|].
    by destruct (negb (URL_parses _)).
  - apply Hpass. unfold api_delete_forward_rule. by destruct (negb _).
  - apply Hpass. unfold put_alias. destruct (negb (checkAuth _ _)); [done|].
    destruct alias_body as [b|]; [|done]. by destruct (_ || _).
  - apply Hpass. unfold api_delete_alias. by destruct (negb _).
  - apply Hpass. unfold api_generate_url. destruct (negb (checkAuth _ _)); [done|].
    destruct (negb (truthy query_id)); [done|].
    destruct (negb (truthy (API_TOKEN env))); [done|].
    by destruct (generateWebhookToken _ _).
  - apply Hpass. unfold auth_login. destruct form as [f|]; [|done].
    destruct (_ || _); [done|]. by destruct (header_value_ok _).
  - intros H404. unfold worker_fetch. by rewrite (proj2 (Z.eqb_eq _ _) H404).
  - apply Hpass.
Qed.

Lemma not_found_goes_to_assets_witness :
  worker_fetch spa_page
    (api_aliases_resolve line_knows_team line_env sample_request
                         (mkResolveBody (Some (lit "Ubeef")) None) 1 sample_now empty_db).1
  = spa_page.
Proof.
  pose proof (not_found_goes_to_assets parse_fails starts_with_http line_knows_team
                no_legacy no_line_breaks
                spa_page line_env sample_request (lit "line") (lit "any") []
                (Some (mkRuleBody None None None)) (Some (mkAliasBody None None))
                (mkResolveBody (Some (lit "Ubeef")) None) None None [] None (Some []) 1 None
                sample_now 1 empty_world) as Hassets.
  cbv zeta in Hassets.
  destruct Hassets as (_ & _ & _ & _ & _ & _ & _ & _ & _ & _ & _ & _ & _ & Hmasked & _).
  apply Hmasked. vm_compute. reflexivity.
Defined.

(** ** Auto-alias *)

Section ExtractIds.

Lemma Set_add_elem x y s : y ∈ Set_add x s <-> y = x \/ y ∈ s.
Proof.
  unfold Set_add. case_bool_decide as Hx.
  - split; [by right|]. by intros [->|?].
  - rewrite elem_of_app, list_elem_of_singleton. tauto.
Qed.

Lemma Set_add_NoDup x s : NoDup s -> NoDup (Set_add x s).
Proof.
  intros Hs. unfold Set_add. case_bool_decide as Hx; [done|].
  apply NoDup_app. split; [done|]. split; [|apply NoDup_singleton].
  by intros y Hy ->%list_elem_of_singleton.
Qed.

Lemma Map_set_NoDup k v m : NoDup (map fst m) -> NoDup (map fst (Map_set k v m)).
Proof.
  intros Hm. unfold Map_set. case_bool_decide as Hk.
  - rewrite map_map.
    assert (map (fun kv : jsstring * jsstring =>
                   fst (if bool_decide (fst kv = k) then (k, v) else kv)) m = map fst m) as ->;
      [|done].
    apply map_ext. intros kv. case_bool_decide; cbn; congruence.
  - rewrite map_app. apply NoDup_app. split; [done|]. split; [|apply NoDup_singleton].
    by intros y Hy ->%list_elem_of_singleton.
Qed.

Lemma Map_set_elem k v m e : e ∈ Map_set k v m -> e = (k, v) \/ e ∈ m.
Proof.
  unfold Map_set. case_bool_decide as Hk.
  - intros (kv & -> & Hkv)%list_elem_of_fmap. case_bool_decide; [by left|by right].
  - rewrite elem_of_app, list_elem_of_singleton. tauto.
Qed.

Lemma scan_events_null pre post acc :
  scan_events (pre ++ EventNull :: post) acc = scan_events pre acc.
Proof.
  revert acc. induction pre as [|[| |src] pre IH]; intros acc; cbn; try done.
Qed.

Lemma ids_ok_more e events ids : ids_ok events ids -> ids_ok (events ++ [e]) ids.
Proof.
  intros (Hg & Hu & Hgs & Hus). split; [done|]. split; [done|]. split.
  - intros g Hin. destruct (Hgs g Hin) as (Hne & src & Hsrc & Hid). split; [done|].
    exists src. split; [|done]. apply elem_of_app. by left.
  - intros u g Hin. destruct (Hus u g Hin) as (Hne & src & Hsrc & Hid). split; [done|].
    exists src. split; [|done]. apply elem_of_app. by left.
Qed.

Lemma ids_ok_add_group events ids src g :
  ids_ok events ids -> EventSource src ∈ events ->
  LineSource.groupId src = Some g -> g <> [] ->
  ids_ok events (mkIds (Set_add g (groupIds ids)) (userIds ids)).
Proof.
  intros (Hg & Hu & Hgs & Hus) Hsrc Hid Hne.
  split; [by apply Set_add_NoDup|]. split; [done|]. split; [|done].
  cbn [groupIds]. intros x Hx. apply Set_add_elem in Hx as [->|Hin]; [|by apply Hgs].
  split; [done|]. by exists src.
Qed.

Lemma ids_ok_set_user events ids src u g :
  ids_ok events ids -> EventSource src ∈ events ->
  LineSource.userId src = Some u -> u <> [] ->
  default [] (LineSource.groupId src) = g ->
  ids_ok events (mkIds (groupIds ids) (Map_set u g (userIds ids))).
Proof.
  intros (Hg & Hu & Hgs & Hus) Hsrc Hid Hne Hgid.
  split; [done|]. split; [by apply Map_set_NoDup|]. split; [done|].
  cbn [userIds]. intros x y Hx. apply Map_set_elem in Hx as [[= -> ->]|Hin]; [|by apply Hus].
  split; [done|]. by exists src.
Qed.

Lemma truthy_Some o : truthy o = true -> exists s, o = Some s /\ s <> [].
Proof. destruct o as [[|c s]|]; try done. intros _. by exists (c :: s). Qed.

Lemma falsy_default o : truthy o = false -> default [] o = [].
Proof. by destruct o as [[|c s]|]. Qed.

Lemma scan_events_ok seen events acc :
  ids_ok seen acc -> ids_ok (seen ++ events) (scan_events events acc).
Proof.
  revert seen acc. induction events as [|e events IH]; intros seen acc Hok.
  - by rewrite app_nil_r.
  - replace (seen ++ e :: events) with ((seen ++ [e]) ++ events)
      by by rewrite <- app_assoc.
    apply (ids_ok_more e) in Hok.
    destruct e as [| |src]; cbn [scan_events].
    + clear IH. revert Hok. generalize (seen ++ [EventNull]). intros l Hok.
      induction events as [|e events IH] using rev_ind; [by rewrite app_nil_r|].
      rewrite app_assoc. by apply ids_ok_more.
    + by apply IH.
    + apply IH.
      assert (Hhere : EventSource src ∈ seen ++ [EventSource src])
        by (apply elem_of_app; right; by left).
      destruct (truthy (LineSource.groupId src)) eqn:Hg.
      * destruct (truthy_Some _ Hg) as (g & Hgid & Hgne). rewrite Hgid.
        cbn [from_option Datatypes.id].
        pose proof (ids_ok_add_group _ _ src g Hok Hhere Hgid Hgne) as Hok1.
        destruct (truthy (LineSource.userId src)) eqn:Hu; [|done].
        destruct (truthy_Some _ Hu) as (u & Huid & Hune). rewrite Huid.
        cbn [from_option Datatypes.id].
        apply (ids_ok_set_user _ _ src u g Hok1 Hhere Huid Hune). by rewrite Hgid.
      * destruct (truthy (LineSource.userId src)) eqn:Hu; [|done].
        destruct (truthy_Some _ Hu) as (u & Huid & Hune). rewrite Huid.
        cbn [from_option Datatypes.id].
        apply (ids_ok_set_user _ _ src u [] Hok Hhere Huid Hune). by apply falsy_default.
Qed.

End ExtractIds.

Section AliasRows.

(** What one insert does to a table that extends [old] by rows whose
    values are not in [old]. *)
Lemma upsert_alias_extends old new rowid v lab now d :
  aliases d = old ++ new -> v ∉ map Alias.value old ->
  exists new',
    aliases (upsert_alias rowid v lab now d) = old ++ new'
    /\ (forall a, a ∈ new' ->
                  (a ∈ new /\ Alias.value a <> v)
                  \/ (Alias.value a = v /\ Alias.label a = lab))
    /\ (forall x, x ∈ map Alias.value new -> x ∈ map Alias.value new')
    /\ v ∈ map Alias.value new'.
Proof.
  intros Hrows Hv. unfold upsert_alias. rewrite Hrows.
  destruct (existsb _ _) eqn:Hex; cbn [with_aliases aliases].
  - exists (map (fun a => if bool_decide (Alias.value a = v)
                           then Alias.mk (Alias.id a) (Alias.value a) lab (Alias.created_at a)
                           else a) new).
    split.
    { rewrite map_app. f_equal. rewrite <- (map_id old) at 2. apply map_ext_in.
      intros a Ha. rewrite bool_decide_eq_false_2; [done|].
      intros Heq. apply Hv. rewrite <- Heq. apply (list_elem_of_fmap_2 Alias.value).
      by apply list_elem_of_In. }
    split.
    { intros a (b & -> & Hb)%list_elem_of_fmap. case_bool_decide as Hvb.
      - right. done.
      - left. done. }
    split.
    { intros x. by rewrite relabel_values. }
    rewrite relabel_values. apply existsb_value in Hex. rewrite map_app in Hex.
    by apply elem_of_app in Hex as [Hex|Hex].
  - exists (new ++ [Alias.mk rowid v lab now]).
    split; [by rewrite app_assoc|]. split.
    { intros a [Ha| ->%list_elem_of_singleton]%elem_of_app; [|by right].
      left. split; [done|]. intros Heq.
      assert (existsb (fun a => bool_decide (Alias.value a = v)) (old ++ new) = true);
        [|congruence].
      apply existsb_value. rewrite map_app. apply elem_of_app. right.
      rewrite <- Heq. by apply (list_elem_of_fmap_2 Alias.value). }
    split.
    { intros x Hx. rewrite map_app. apply elem_of_app. by left. }
    rewrite map_app. apply elem_of_app. right. by left.
Qed.

Lemma upsert_alias_other_tables rowid v lab now d :
  webhook_hits (upsert_alias rowid v lab now d) = webhook_hits d
  /\ webhook_hits_seq (upsert_alias rowid v lab now d) = webhook_hits_seq d
  /\ forward_rules (upsert_alias rowid v lab now d) = forward_rules d.
Proof. unfold upsert_alias. by destruct (existsb _ _). Qed.

End AliasRows.

Section AutoAliasFacts.

Variable next_rowid : list Alias.t -> Z.
Variable clock : nat -> Z.

Hypothesis next_rowid_fresh : forall rows, next_rowid rows ∉ map Alias.id rows.

Lemma insert_results_spec old results :
  Forall (fun r => fst r ∉ map Alias.value old) results ->
  forall i new d,
    aliases d = old ++ new -> aliases_wf d ->
    let d' := insert_results next_rowid clock i results d in
    exists new',
      aliases d' = old ++ new'
      /\ aliases_wf d'
      /\ (forall a, a ∈ new' -> a ∈ new \/ (Alias.value a, Alias.label a) ∈ results)
      /\ (forall x, x ∈ map Alias.value new \/ x ∈ map fst results ->
                    x ∈ map Alias.value new')
      /\ webhook_hits d' = webhook_hits d
      /\ webhook_hits_seq d' = webhook_hits_seq d
      /\ forward_rules d' = forward_rules d.
Proof.
  induction 1 as [|[v lab] results Hv _ IH]; intros i new d Hrows Hwf; cbv zeta.
  - exists new. cbn. repeat split; try done; try apply Hwf.
    + by left.
    + intros x [Hx|Hx]; [done|by apply elem_of_nil in Hx].
  - cbn [insert_results]. cbn [fst] in Hv.
    destruct (upsert_alias_extends old new (next_rowid (aliases d)) v lab
                (JSDate.toISOString (clock i)) d Hrows Hv)
      as (new1 & Hrows1 & Hnew1 & Hkeep1 & Hv1).
    pose proof (upsert_alias_wf (next_rowid (aliases d)) v lab
                  (JSDate.toISOString (clock i)) d Hwf (next_rowid_fresh _)) as Hwf1.
    destruct (IH (S i) new1 _ Hrows1 Hwf1)
      as (new' & Hrows' & Hwf' & Hnew' & Hkeep' & Hhits & Hseq & Hrules).
    destruct (upsert_alias_other_tables (next_rowid (aliases d)) v lab
                (JSDate.toISOString (clock i)) d) as (Hhits1 & Hseq1 & Hrules1).
    exists new'. split; [done|]. split; [done|]. split; [|split].
    + intros a Ha. destruct (Hnew' a Ha) as [Ha1|Hres]; [|right; by right].
      destruct (Hnew1 a Ha1) as [[Hin _]|[<- <-]]; [by left|]. right. left.
    + intros x [Hx|Hx]; apply Hkeep'.
      * left. by apply Hkeep1.
      * cbn [map fst] in Hx. apply elem_of_cons in Hx as [->|Hx]; [by left|by right].
    + by rewrite Hhits, Hseq, Hrules.
Qed.

End AutoAliasFacts.

Lemma count_up_fresh rows : count_up rows ∉ map Alias.id rows.
Proof.
  assert (Hmax : forall x, x ∈ map Alias.id rows -> x <= foldr Z.max 0 (map Alias.id rows)).
  { induction (map Alias.id rows) as [|y l IH]; [by intros x ?%elem_of_nil|].
    intros x [->|Hx]%elem_of_cons; cbn [foldr]; [lia|]. specialize (IH x Hx). lia. }
  intros Hin%Hmax. unfold count_up in Hin. lia.
Qed.






(** ** The tagged routes and the auto-alias task *)

Section AliasTasks.

Lemma scheduled_aliases_app tr1 tr2 :
  scheduled_aliases (tr1 ++ tr2) = scheduled_aliases tr1 ++ scheduled_aliases tr2.
Proof. unfold scheduled_aliases, scheduled. by rewrite omap_app, filter_app. Qed.

Lemma tagged_events_aliases id request d : scheduled_aliases (tagged_events id request d) = [].
Proof. unfold tagged_events. by destruct (wants_forward _). Qed.

Lemma tagged_events_body_reads id request d :
  body_reads (tagged_events id request d) = 1%nat.
Proof. unfold tagged_events. by destruct (wants_forward _). Qed.

Lemma raw_events_aliases env id request d :
  scheduled_aliases (raw_events env id request d)
  = if bool_decide (id = lit "line") && truthy (LINE_CHANNEL_ACCESS_TOKEN env)
    then [TAutoAlias (text request) (default [] (LINE_CHANNEL_ACCESS_TOKEN env))]
    else [].
Proof.
  unfold raw_events. by destruct (wants_forward _), (bool_decide _ && truthy _).
Qed.

End AliasTasks.

(** X29. The suffix and the GitHub route have the gate of the raw route: a
    token that does not verify is answered 401 and nothing else happens,
    no body read, no Hit, no task; an accepted request is answered 200
    after reading the body once.  But only the raw route schedules the
    auto-alias task, and only for the endpoint [line] with a LINE token
    configured; the suffix and GitHub routes never do, whatever the
    endpoint. *)
Theorem tagged_routes_gate
        (parseGitHubEvent : jsstring -> jsstring -> option jsstring)
        env id token suffix request now elapsed w :
  let raw := post_w env id token request now elapsed w in
  let suf := post_w_suffix env id token suffix request now elapsed w in
  let gh := post_w_github parseGitHubEvent env id token request now elapsed w in
  (forall secret,
      API_TOKEN env = Some secret -> secret <> [] ->
      verifyWebhookToken id token secret = Some false ->
      suf = (c_json (error_body "Invalid webhook token") 401, w)
      /\ gh = (c_json (error_body "Invalid webhook token") 401, w))
  /\ (~ (exists secret, API_TOKEN env = Some secret /\ secret <> []
                        /\ verifyWebhookToken id token secret = Some false) ->
      status suf.1 = 200 /\ status gh.1 = 200
      /\ body_reads (trace suf.2) = S (body_reads (trace w))
      /\ body_reads (trace gh.2) = S (body_reads (trace w))
      /\ scheduled_aliases (trace suf.2) = scheduled_aliases (trace w)
      /\ scheduled_aliases (trace gh.2) = scheduled_aliases (trace w)
      /\ scheduled_aliases (trace raw.2)
         = scheduled_aliases (trace w)
           ++ (if bool_decide (id = lit "line") && truthy (LINE_CHANNEL_ACCESS_TOKEN env)
               then [TAutoAlias (text request) (default [] (LINE_CHANNEL_ACCESS_TOKEN env))]
               else [])).
Proof.
  cbv zeta. split.
  - intros secret Hs Hne Hv.
    by rewrite (post_w_suffix_rejected _ _ _ _ _ _ _ _ secret),
               (post_w_github_rejected _ _ _ _ _ _ _ _ secret).
  - intros Hacc.
    destruct (post_w_github_accepted parseGitHubEvent env id token request now elapsed w Hacc)
      as (row & Hgh).
    rewrite post_w_suffix_status, post_w_github_status by done.
    rewrite post_w_suffix_accepted, Hgh, post_w_accepted by done.
    cbn [snd trace].
    rewrite !body_reads_app, !scheduled_aliases_app, tagged_events_body_reads,
      tagged_events_aliases, raw_events_aliases, app_nil_r.
    repeat split; lia.
Qed.

Lemma tagged_routes_gate_witness :
  scheduled_aliases
    (trace (post_w line_env (lit "line") (lit "any") line_request sample_now 1 empty_world).2)
  = [TAutoAlias (lit "{}") (lit "line-token")]
  /\ scheduled_aliases
       (trace (post_w_suffix line_env (lit "line") (lit "any") (lit "x") line_request
                             sample_now 1 empty_world).2)
     = [].
Proof.
  pose proof (tagged_routes_gate parse_fails line_env (lit "line") (lit "any") (lit "x")
                line_request sample_now 1 empty_world) as Hgate.
  cbv zeta in Hgate. destruct Hgate as (_ & Hacc).
  destruct Hacc as (_ & _ & _ & _ & Hsuf & _ & Hraw).
  - apply no_secret_accepts. reflexivity.
  - split; [rewrite Hraw|rewrite Hsuf]; reflexivity.
Defined.

(** ** One Hit, one day *)

Section OneDay.

Lemma listed_on_window legacy y m d now db h t :
  valid_date y m d ->
  WebhookHit.received_at h = JSDate.toISOString t -> four_digit_year t ->
  (h ∈ listed_on legacy y m d now db -> day_start y m d <= t < day_start y m d + 86399999)
  /\ ((length (webhook_hits db) <= 500)%nat -> h ∈ webhook_hits db ->
      day_start y m d <= t < day_start y m d + 86399999 -> h ∈ listed_on legacy y m d now db).
Proof.
  intros (Hy & Hm & Hd & Hs & He) Hat Ht. unfold listed_on.
  pose proof (day_window_of_date legacy y m d now Hy Hm Hd) as Hw. rewrite Hw.
  pose proof (select_hits_of_date legacy y m d now db _ _ Hy Hm Hd Hs He Hw h t Hat Ht)
    as (Hin & _ & Hall).
  split; [done|]. intros Hlen. apply Hall.
  etrans; [apply length_filter|done].
Qed.

End OneDay.

(** X30. Under which dates [/api/hits] lists a Hit stamped at an instant
    [t]: never under two dates that name different days; under no date at
    all when [t] is the last millisecond of a UTC+7 day; and otherwise,
    while the table holds no more than 500 Hits, under the UTC+7 calendar
    date of [t]. *)
Theorem one_hit_one_day (legacy : jsstring -> option Z) now db h t :
  WebhookHit.received_at h = JSDate.toISOString t -> four_digit_year t ->
  (forall y1 m1 d1 y2 m2 d2,
      valid_date y1 m1 d1 -> valid_date y2 m2 d2 ->
      JSDate.days_from_civil y1 m1 d1 <> JSDate.days_from_civil y2 m2 d2 ->
      h ∈ listed_on legacy y1 m1 d1 now db -> h ∉ listed_on legacy y2 m2 d2 now db)
  /\ ((t + GMT7_OFFSET_MS) mod JSDate.MS_PER_DAY = 86399999 ->
      forall y m d, valid_date y m d -> h ∉ listed_on legacy y m d now db)
  /\ ((t + GMT7_OFFSET_MS) mod JSDate.MS_PER_DAY <> 86399999 ->
      (length (webhook_hits db) <= 500)%nat -> h ∈ webhook_hits db ->
      let c := local_date t in
      valid_date c.1.1 c.1.2 c.2 ->
      h ∈ listed_on legacy c.1.1 c.1.2 c.2 now db).
Proof.
  intros Hat Ht. split; [|split].
  - intros y1 m1 d1 y2 m2 d2 Hv1 Hv2 Hne Hin1 Hin2.
    apply (listed_on_window legacy y1 m1 d1 now db h t Hv1 Hat Ht) in Hin1.
    apply (listed_on_window legacy y2 m2 d2 now db h t Hv2 Hat Ht) in Hin2.
    unfold day_start, JSDate.MS_PER_DAY in *. lia.
  - intros Hlast y m d Hv Hin.
    apply (listed_on_window legacy y m d now db h t Hv Hat Ht) in Hin.
    unfold day_start, JSDate.MS_PER_DAY, GMT7_OFFSET_MS in *.
    Z.div_mod_to_equations. lia.
  - intros Hnot Hlen Hin. cbv zeta. intros Hv.
    apply (listed_on_window legacy _ _ _ now db h t Hv Hat Ht); [done|done|].
    unfold day_start, local_date.
    pose proof (days_from_civil_inv ((t + GMT7_OFFSET_MS) / JSDate.MS_PER_DAY)) as Hinv.
    cbv zeta in Hinv. rewrite Hinv.
    unfold JSDate.MS_PER_DAY, GMT7_OFFSET_MS in *. Z.div_mod_to_equations. lia.
Qed.

Lemma one_hit_one_day_witness :
  (hit_last_millisecond ∉ listed_on no_legacy 2025 1 1 sample_now (db boundary_world))
  /\ hit_before_midnight ∈ listed_on no_legacy 2025 1 1 sample_now (db boundary_world).
Proof.
  assert (Hvalid : valid_date 2025 1 1).
  { unfold valid_date. vm_compute. repeat split; congruence. }
  pose proof (one_hit_one_day no_legacy sample_now (db boundary_world) hit_last_millisecond
                t_last_millisecond) as Hlast.
  pose proof (one_hit_one_day no_legacy sample_now (db boundary_world) hit_before_midnight
                t_before_midnight) as Hbefore.
  destruct Hlast as (_ & Hnever & _);
    [reflexivity|vm_compute; split; [discriminate|reflexivity]|].
  destruct Hbefore as (_ & _ & Hlisted);
    [reflexivity|vm_compute; split; [discriminate|reflexivity]|].
  split.
  - apply Hnever; [reflexivity|exact Hvalid].
  - apply (Hlisted ltac:(discriminate)).
    + vm_compute. lia.
    + vm_compute. left.
    + exact Hvalid.
Defined.
